(** * lazystack: the reactive UI reducer, its layout and its log viewer

    A shallow embedding of [internal/ui] (the Bubble Tea model of the
    dashboard and the log viewer) and of the parts of [internal/k8s] the
    reducer calls, followed by the properties of the reducer.

    Go values are embedded as follows.
    - [int] is a 64-bit and [int32] a 32-bit two's-complement integer: a [Z]
      with the wrap-around written out ([wrap]).
    - [string] is a byte string: Rocq's [string].
    - [error] is [option string]: [None] is [nil], [Some e] carries [e.Error()].
    - a pointer that may be nil is an [option].
    - [map[string]*k8s.PortForward] is a [gmap string k8s.PortForward].
    - a [tea.Cmd] is a piece of data ([Cmd]) naming the closure the code
      builds; [runCmd] gives the message the closure yields when run.
    - the Bubbles list and viewport widgets and the cluster behind the
      client-go handles are not part of the repository: they are interfaces
      ([ListLib], [ViewportLib], [Cluster]) the reducer is parametric in. *)

From Stdlib Require Import ZArith String Ascii List Bool Lia DecimalString.
From stdpp Require Import base option gmap strings list.

Local Open Scope string_scope.
Local Open Scope Z_scope.

#[local] Set Warnings "-register-all".

(** ** Go integers and formatting *)

Definition wrap (bits z : Z) : Z :=
  (z + 2 ^ (bits - 1)) mod 2 ^ bits - 2 ^ (bits - 1).

Definition int_min : Z := - 2 ^ 63.
Definition int_max : Z := 2 ^ 63 - 1.
Definition int32_min : Z := - 2 ^ 31.
Definition int32_max : Z := 2 ^ 31 - 1.

Definition is_int (z : Z) : Prop := int_min <= z <= int_max.
Definition is_int32 (z : Z) : Prop := int32_min <= z <= int32_max.

(** [+], [-], [*] and [/] on [int]; Go's division truncates toward zero. *)
Definition int_add (a b : Z) : Z := wrap 64 (a + b).
Definition int_sub (a b : Z) : Z := wrap 64 (a - b).
Definition int_mul (a b : Z) : Z := wrap 64 (a * b).
Definition int_div (a b : Z) : Z := wrap 64 (Z.quot a b).

(** [+] and [-] on [int32]. *)
Definition int32_add (a b : Z) : Z := wrap 32 (a + b).
Definition int32_sub (a b : Z) : Z := wrap 32 (a - b).

(** [fmt.Sprintf("%d", z)]. *)
Definition fmt_d (z : Z) : string := NilZero.string_of_int (Z.to_int z).

(** [strings.Repeat]. *)
Fixpoint Repeat_nat (s : string) (n : nat) : string :=
  match n with
  | O => ""
  | S n' => s ++ Repeat_nat s n'
  end.

Definition Repeat (s : string) (count : Z) : string := Repeat_nat s (Z.to_nat count).

(** A Go [error]: [None] is [nil]. *)
Definition error : Type := option string.

(** [fmt.Sprintf("%v", err)] for a non-nil error. *)
Definition fmt_v (e : string) : string := e.

(** [msg.String()] is one of the alternatives of a [case]. *)
Definition key_in (key : string) (alternatives : list string) : bool :=
  existsb (String.eqb key) alternatives.

(** ** internal/k8s: data types of manager.go *)

Module k8s.

Record PodInfo : Type := mkPodInfo {
  pod_Name : string;
  pod_Namespace : string;
  pod_Status : string;
  pod_Ready : string;
  pod_Restarts : Z;
  pod_Age : string
}.

Record DeploymentInfo : Type := mkDeploymentInfo {
  deployment_Name : string;
  deployment_Namespace : string;
  deployment_Ready : string;
  UpToDate : Z;
  Available : Z;
  Replicas : Z
}.

Record ServiceInfo : Type := mkServiceInfo {
  service_Name : string;
  service_Namespace : string;
  service_Type : string;
  ClusterIP : string;
  ExternalIP : string;
  Ports : string
}.

Record PodMetrics : Type := mkPodMetrics {
  metrics_Name : string;
  metrics_Namespace : string;
  CPUUsageMillis : Z;
  MemoryUsageBytes : Z;
  CPUUsageFormatted : string;
  MemoryUsageFormatted : string
}.

Record EnvVar : Type := mkEnvVar {
  env_Name : string;
  Value : string;
  ValueFrom : string
}.

(** [Containers] is a Go map that the code only ranges over: it is kept
    as the association list of the order the range visits. *)
Record PodEnvVars : Type := mkPodEnvVars {
  PodName : string;
  env_Namespace : string;
  Containers : list (string * list EnvVar)
}.

(** [Cmd] is the handle of the [kubectl port-forward] child process. *)
Record PortForward : Type := mkPortForward {
  pf_PodName : string;
  LocalPort : string;
  RemotePort : string;
  pf_Cmd : nat
}.

(** The manager: the two client handles stand for the cluster and carry
    no state of their own, the namespace is the state [SetNamespace]
    writes. *)
Record Manager : Type := mkManager {
  namespace : string
}.

(** What the cluster answers to the client calls of manager.go. The
    answers are not decided by this repository; every property below
    holds for all of them. *)
Class Cluster : Type := {
  pods_Delete : string -> string -> error;
  deployments_Delete : string -> string -> error;
  deployments_Get : string -> string -> error;
  deployments_Update : string -> string -> Z -> error;
  cmd_Start : string -> string -> string -> string -> nat + string;
  ListNamespaces : Manager -> list string * error;
  ListDeployments : Manager -> list DeploymentInfo * error;
  ListPods : Manager -> list PodInfo * error;
  ListServices : Manager -> list ServiceInfo * error;
  GetPodLogs : Manager -> string -> Z -> string * error;
  GetPodMetrics : Manager -> string -> option PodMetrics * error;
  GetPodEnvVars : Manager -> string -> option PodEnvVars * error;
  GetPodYAML : Manager -> string -> string * error;
  GetDeploymentYAML : Manager -> string -> string * error;
  GetServiceYAML : Manager -> string -> string * error
}.

Section Manager.
Context {C : Cluster}.

Definition SetNamespace (m : Manager) (ns : string) : Manager :=
  {| namespace := ns |}.

Definition GetNamespace (m : Manager) : string := namespace m.

Definition DeletePod (m : Manager) (name : string) : error :=
  match pods_Delete (namespace m) name with
  | Some e => Some ("failed to delete pod " ++ name ++ ": " ++ e)
  | None => None
  end.

Definition ScaleDeployment (m : Manager) (name : string) (replicas : Z) : error :=
  match deployments_Get (namespace m) name with
  | Some e => Some ("failed to get deployment " ++ name ++ ": " ++ e)
  | None =>
      match deployments_Update (namespace m) name replicas with
      | Some e => Some ("failed to scale deployment " ++ name ++ ": " ++ e)
      | None => None
      end
  end.

Definition DeleteDeployment (m : Manager) (name : string) : error :=
  match deployments_Delete (namespace m) name with
  | Some e => Some ("failed to delete deployment " ++ name ++ ": " ++ e)
  | None => None
  end.

(** Returns the handle or the error, never both. *)
Definition StartPortForward (m : Manager) (podName localPort remotePort : string)
  : PortForward + string :=
  match cmd_Start (namespace m) podName localPort remotePort with
  | inr e => inr ("failed to start port-forward: " ++ e)
  | inl proc =>
      inl {| pf_PodName := podName; LocalPort := localPort;
             RemotePort := remotePort; pf_Cmd := proc |}
  end.

End Manager.

End k8s.

(** ** internal/ui: messages, commands and list items *)

(** [CategoryType] is an [int] the code does arithmetic on. *)
Definition CategoryType : Type := Z.
Definition NamespacesCategory : CategoryType := 0.
Definition DeploymentsCategory : CategoryType := 1.
Definition PodsCategory : CategoryType := 2.
Definition ServicesCategory : CategoryType := 3.

Inductive RightPaneTab : Type :=
  | LogsTab | StatsTab | EnvTab | ConfigTab | TopTab | ExecTab.

(** The messages [Update] switches on. A [tea.KeyMsg] is kept as its
    [String()]; [libMsg] is any message of a type the switch does not name
    (mouse events, the widgets' own messages). *)
Inductive Msg : Type :=
  | KeyMsg (key : string)
  | WindowSizeMsg (Width Height : Z)
  | namespacesLoadedMsg (namespaces : list string) (err : error)
  | deploymentsLoadedMsg (deployments : list k8s.DeploymentInfo) (err : error)
  | podsLoadedMsg (pods : list k8s.PodInfo) (err : error)
  | servicesLoadedMsg (services : list k8s.ServiceInfo) (err : error)
  | podLogsLoadedMsg (logs : string) (err : error)
  | podMetricsLoadedMsg (metrics : option k8s.PodMetrics) (err : error)
  | podEnvVarsLoadedMsg (envVars : option k8s.PodEnvVars) (err : error)
  | resourceYAMLLoadedMsg (yaml : string) (err : error)
  | tickMsg
  | libMsg (tag : nat).

(** The commands the reducer hands back. Each [Load*] names the closure of
    the method of the same name, with the fields of the receiver copy the
    closure reads; [Tick] is [tea.Tick(5*time.Second, ...)]; [libCmd] is a
    command made by a widget. *)
Inductive Cmd : Type :=
  | nilCmd
  | LoadNamespaces
  | LoadDeployments
  | LoadPods
  | LoadServices
  | LoadPodLogs (podName : string)
  | LoadPodMetrics (podName : string)
  | LoadPodEnvVars (podName : string)
  | LoadResourceYAML (selectedResourceType selectedResource : string)
  | Tick
  | Quit
  | libCmd (tag : nat)
  | Batch (cmds : list Cmd).

(** The commands a command stands for once batches are opened and nil
    commands dropped, in order. *)
Fixpoint atoms (c : Cmd) : list Cmd :=
  match c with
  | nilCmd => []
  | Batch cmds =>
      (fix each (cs : list Cmd) : list Cmd :=
         match cs with
         | [] => []
         | c' :: cs' => (atoms c' ++ each cs')%list
         end) cmds
  | _ => [c]
  end.

Definition is_Tick (c : Cmd) : bool :=
  match c with Tick => true | _ => false end.

(** How many of the commands are timers. *)
Definition ticks (cs : list Cmd) : nat := length (List.filter is_Tick cs).

(** How many timers a command schedules. *)
Definition timers (c : Cmd) : nat := ticks (atoms c).

(** The command a widget's [Update] returns: nil, [tea.Quit] (the list
    hands it back for its quit keys, which [NewModel] leaves enabled), or
    a command of the widget's own making. A widget cannot build a closure
    of this package, so the last is kept as a tag. *)
Inductive WidgetCmd : Type :=
  | widget_nil
  | widget_Quit
  | widget_lib (tag : nat).

Definition widget_cmd (c : WidgetCmd) : Cmd :=
  match c with
  | widget_nil => nilCmd
  | widget_Quit => Quit
  | widget_lib tag => libCmd tag
  end.

Inductive Item : Type :=
  | simpleItem (name : string)
  | namespaceItem (name : string)
  | deploymentItem (deployment : k8s.DeploymentInfo)
  | podItem (pod : k8s.PodInfo)
  | serviceItem (service : k8s.ServiceInfo).

Definition Title (i : Item) : string :=
  match i with
  | simpleItem name => name
  | namespaceItem name => name
  | deploymentItem d => k8s.deployment_Name d
  | podItem p => k8s.pod_Name p
  | serviceItem s => k8s.service_Name s
  end.

Definition Description (i : Item) : string :=
  match i with
  | simpleItem _ => ""
  | namespaceItem _ => ""
  | deploymentItem d =>
      let statusIcon := if k8s.Available d <? k8s.Replicas d then "○" else "●" in
      statusIcon ++ " Ready: " ++ k8s.deployment_Ready d ++ " | Up-to-date: "
        ++ fmt_d (k8s.UpToDate d)
  | podItem p =>
      let statusIcon := if String.eqb (k8s.pod_Status p) "Running" then "●" else "○" in
      statusIcon ++ " " ++ k8s.pod_Status p ++ " | " ++ k8s.pod_Ready p
  | serviceItem s =>
      k8s.service_Type s ++ " | " ++ k8s.ClusterIP s ++ " | " ++ k8s.Ports s
  end.

(** ** The widgets the reducer is parametric in *)

(** [bubbles/list]: the model of one list pane. [list_Items] is what
    [VisibleItems()] returns (filtering is switched off in [NewModel]),
    [list_Index] is [Index()]. How a message moves the cursor is the
    widget's business; the laws are what its setters and [Update] keep. *)
Class ListLib : Type := {
  list_Model : Type;
  list_New : list_Model;
  list_Items : list_Model -> list Item;
  list_Index : list_Model -> Z;
  list_Width : list_Model -> Z;
  list_Height : list_Model -> Z;
  list_SetItems : list Item -> list_Model -> list_Model;
  list_SetSize : Z -> Z -> list_Model -> list_Model;
  list_Update : Msg -> list_Model -> list_Model * WidgetCmd;
  list_View : list_Model -> string;
  list_Items_New : list_Items list_New = [];
  list_Items_SetItems : forall items l, list_Items (list_SetItems items l) = items;
  list_Items_SetSize : forall w h l, list_Items (list_SetSize w h l) = list_Items l;
  list_Items_Update : forall msg l, list_Items (fst (list_Update msg l)) = list_Items l;
  list_Width_SetSize : forall w h l, list_Width (list_SetSize w h l) = w;
  list_Height_SetSize : forall w h l, list_Height (list_SetSize w h l) = h
}.

(** [SelectedItem()]: nil when the index is out of range. *)
Definition list_SelectedItem {L : ListLib} (l : list_Model) : option Item :=
  let i := list_Index l in
  if (i <? 0) || (Z.of_nat (length (list_Items l)) <=? i) then None
  else list_Items l !! Z.to_nat i.

(** [bubbles/viewport]: a scrollable text region. [viewport_zero] is the
    zero value of the struct; [viewport_set_Width] and
    [viewport_set_Height] are assignments to its exported fields. *)
Class ViewportLib : Type := {
  viewport_Model : Type;
  viewport_zero : viewport_Model;
  viewport_New : Z -> Z -> viewport_Model;
  HighPerformanceRendering : viewport_Model -> bool;
  viewport_set_Width : Z -> viewport_Model -> viewport_Model;
  viewport_set_Height : Z -> viewport_Model -> viewport_Model;
  viewport_SetContent : string -> viewport_Model -> viewport_Model;
  viewport_GotoBottom : viewport_Model -> viewport_Model;
  viewport_GotoTop : viewport_Model -> viewport_Model;
  viewport_AtBottom : viewport_Model -> bool;
  viewport_Update : Msg -> viewport_Model -> viewport_Model * WidgetCmd;
  viewport_View : viewport_Model -> string
}.

(** Printable ASCII: the bytes 0x20 to 0x7e. *)
Definition printable_byte (a : ascii) : bool :=
  let n := nat_of_ascii a in (32 <=? n)%nat && (n <=? 126)%nat.

Fixpoint printable (s : string) : bool :=
  match s with
  | EmptyString => true
  | String a s' => printable_byte a && printable s'
  end.

(** [lipgloss]: the cell width of a string and the rendering of the
    highlighted row. A string of printable ASCII takes one cell a byte. *)
Class Lipgloss : Type := {
  lipgloss_Width : string -> Z;
  Render_selected : string -> string;
  lipgloss_Width_printable :
    forall s, printable s = true -> lipgloss_Width s = Z.of_nat (String.length s)
}.

(** [internal/systemd] is initialised by [NewModel] and only closed at
    quit: its manager is a handle. *)
Definition systemd_Manager : Type := unit.

(** ** compactDelegate.Render: one row of a list pane *)

Section Delegate.
Context {G : Lipgloss}.

(** [str[:len(str)-1]]. *)
Definition drop_last (str : string) : string :=
  substring 0 (String.length str - 1) str.

(** The loop of [Render]: trim one trailing byte while the string with
    its ellipsis is wider than [maxWidth] and bytes are left. Each turn
    removes a byte, so [String.length str] turns are enough. *)
Fixpoint trim_loop (turns : nat) (maxWidth : Z) (str : string) : string :=
  match turns with
  | O => str
  | S turns' =>
      if (maxWidth <? lipgloss_Width (str ++ "...")) && (0 <? String.length str)%nat
      then trim_loop turns' maxWidth (drop_last str)
      else str
  end.

(** The text of a row: title, then the description when there is one. *)
Definition row_text (item : Item) : string :=
  let str := Title item in
  let desc := Description item in
  if String.eqb desc "" then str else str ++ " " ++ desc.

(** The truncation step of [Render] for a row text and an inner width. *)
Definition truncate_row (maxWidth : Z) (str : string) : string :=
  let strWidth := lipgloss_Width str in
  if (maxWidth <? strWidth) && (3 <? maxWidth)
  then trim_loop (String.length str) maxWidth str ++ "..."
  else str.

(** What [Render] writes for the item at [index] of a list of width
    [m_Width] whose cursor is at [m_Index]. *)
Definition Render (m_Width m_Index : Z) (index : Z) (item : Item) : string :=
  let maxWidth := int_sub m_Width 2 in
  let str := truncate_row maxWidth (row_text item) in
  if index =? m_Index then Render_selected ("> " ++ str) else "  " ++ str.

End Delegate.

(** ** The application state *)

(** What a call returns: a value, or a run-time panic (a method called
    through a nil [*k8s.Manager] that reads or writes the receiver). *)
Inductive Outcome (A : Type) : Type :=
  | Returns (a : A)
  | Panics.
Arguments Returns {A} a.
Arguments Panics {A}.

Definition nl : string := String (ascii_of_nat 10) EmptyString.

Section Reducer.
Context {L : ListLib} {V : ViewportLib} {C : k8s.Cluster}.

Record Model : Type := mkModel {
  width : Z;
  height : Z;
  ready : bool;
  activeCategory : CategoryType;
  namespacesList : list_Model;
  deploymentsList : list_Model;
  podsList : list_Model;
  servicesList : list_Model;
  selectedResource : string;
  activeTab : RightPaneTab;
  logsViewport : viewport_Model;
  statsViewport : viewport_Model;
  envViewport : viewport_Model;
  configViewport : viewport_Model;
  k8sManager : option k8s.Manager;
  k8sInitError : error;
  currentNamespace : string;
  namespaces : list string;
  deployments : list k8s.DeploymentInfo;
  pods : list k8s.PodInfo;
  services : list k8s.ServiceInfo;
  currentMetrics : option k8s.PodMetrics;
  currentEnvVars : option k8s.PodEnvVars;
  currentYAML : string;
  selectedResourceType : string;
  activePortForwards : gmap string k8s.PortForward;
  systemdManager : option systemd_Manager;
  systemdInitError : error;
  statusMessage : string;
  err : error;
  showConfirmDialog : bool;
  confirmAction : string;
  confirmResource : string;
  confirmReplicas : Z;
  showHelp : bool
}.

(** [set_f v m] is [m] with the field [f] assigned [v]. *)
Definition set_width (v : Z) (m : Model) : Model :=
  mkModel v (height m) (ready m) (activeCategory m) (namespacesList m) (deploymentsList m)
    (podsList m) (servicesList m) (selectedResource m) (activeTab m) (logsViewport m)
    (statsViewport m) (envViewport m) (configViewport m) (k8sManager m) (k8sInitError m)
    (currentNamespace m) (namespaces m) (deployments m) (pods m) (services m) (currentMetrics
    m) (currentEnvVars m) (currentYAML m) (selectedResourceType m) (activePortForwards m)
    (systemdManager m) (systemdInitError m) (statusMessage m) (err m) (showConfirmDialog m)
    (confirmAction m) (confirmResource m) (confirmReplicas m) (showHelp m).

Definition set_height (v : Z) (m : Model) : Model :=
  mkModel (width m) v (ready m) (activeCategory m) (namespacesList m) (deploymentsList m)
    (podsList m) (servicesList m) (selectedResource m) (activeTab m) (logsViewport m)
    (statsViewport m) (envViewport m) (configViewport m) (k8sManager m) (k8sInitError m)
    (currentNamespace m) (namespaces m) (deployments m) (pods m) (services m) (currentMetrics
    m) (currentEnvVars m) (currentYAML m) (selectedResourceType m) (activePortForwards m)
    (systemdManager m) (systemdInitError m) (statusMessage m) (err m) (showConfirmDialog m)
    (confirmAction m) (confirmResource m) (confirmReplicas m) (showHelp m).

Definition set_ready (v : bool) (m : Model) : Model :=
  mkModel (width m) (height m) v (activeCategory m) (namespacesList m) (deploymentsList m)
    (podsList m) (servicesList m) (selectedResource m) (activeTab m) (logsViewport m)
    (statsViewport m) (envViewport m) (configViewport m) (k8sManager m) (k8sInitError m)
    (currentNamespace m) (namespaces m) (deployments m) (pods m) (services m) (currentMetrics
    m) (currentEnvVars m) (currentYAML m) (selectedResourceType m) (activePortForwards m)
    (systemdManager m) (systemdInitError m) (statusMessage m) (err m) (showConfirmDialog m)
    (confirmAction m) (confirmResource m) (confirmReplicas m) (showHelp m).

Definition set_activeCategory (v : CategoryType) (m : Model) : Model :=
  mkModel (width m) (height m) (ready m) v (namespacesList m) (deploymentsList m) (podsList m)
    (servicesList m) (selectedResource m) (activeTab m) (logsViewport m) (statsViewport m)
    (envViewport m) (configViewport m) (k8sManager m) (k8sInitError m) (currentNamespace m)
    (namespaces m) (deployments m) (pods m) (services m) (currentMetrics m) (currentEnvVars m)
    (currentYAML m) (selectedResourceType m) (activePortForwards m) (systemdManager m)
    (systemdInitError m) (statusMessage m) (err m) (showConfirmDialog m) (confirmAction m)
    (confirmResource m) (confirmReplicas m) (showHelp m).

Definition set_namespacesList (v : list_Model) (m : Model) : Model :=
  mkModel (width m) (height m) (ready m) (activeCategory m) v (deploymentsList m) (podsList m)
    (servicesList m) (selectedResource m) (activeTab m) (logsViewport m) (statsViewport m)
    (envViewport m) (configViewport m) (k8sManager m) (k8sInitError m) (currentNamespace m)
    (namespaces m) (deployments m) (pods m) (services m) (currentMetrics m) (currentEnvVars m)
    (currentYAML m) (selectedResourceType m) (activePortForwards m) (systemdManager m)
    (systemdInitError m) (statusMessage m) (err m) (showConfirmDialog m) (confirmAction m)
    (confirmResource m) (confirmReplicas m) (showHelp m).

Definition set_deploymentsList (v : list_Model) (m : Model) : Model :=
  mkModel (width m) (height m) (ready m) (activeCategory m) (namespacesList m) v (podsList m)
    (servicesList m) (selectedResource m) (activeTab m) (logsViewport m) (statsViewport m)
    (envViewport m) (configViewport m) (k8sManager m) (k8sInitError m) (currentNamespace m)
    (namespaces m) (deployments m) (pods m) (services m) (currentMetrics m) (currentEnvVars m)
    (currentYAML m) (selectedResourceType m) (activePortForwards m) (systemdManager m)
    (systemdInitError m) (statusMessage m) (err m) (showConfirmDialog m) (confirmAction m)
    (confirmResource m) (confirmReplicas m) (showHelp m).

Definition set_podsList (v : list_Model) (m : Model) : Model :=
  mkModel (width m) (height m) (ready m) (activeCategory m) (namespacesList m)
    (deploymentsList m) v (servicesList m) (selectedResource m) (activeTab m) (logsViewport m)
    (statsViewport m) (envViewport m) (configViewport m) (k8sManager m) (k8sInitError m)
    (currentNamespace m) (namespaces m) (deployments m) (pods m) (services m) (currentMetrics
    m) (currentEnvVars m) (currentYAML m) (selectedResourceType m) (activePortForwards m)
    (systemdManager m) (systemdInitError m) (statusMessage m) (err m) (showConfirmDialog m)
    (confirmAction m) (confirmResource m) (confirmReplicas m) (showHelp m).

Definition set_servicesList (v : list_Model) (m : Model) : Model :=
  mkModel (width m) (height m) (ready m) (activeCategory m) (namespacesList m)
    (deploymentsList m) (podsList m) v (selectedResource m) (activeTab m) (logsViewport m)
    (statsViewport m) (envViewport m) (configViewport m) (k8sManager m) (k8sInitError m)
    (currentNamespace m) (namespaces m) (deployments m) (pods m) (services m) (currentMetrics
    m) (currentEnvVars m) (currentYAML m) (selectedResourceType m) (activePortForwards m)
    (systemdManager m) (systemdInitError m) (statusMessage m) (err m) (showConfirmDialog m)
    (confirmAction m) (confirmResource m) (confirmReplicas m) (showHelp m).

Definition set_selectedResource (v : string) (m : Model) : Model :=
  mkModel (width m) (height m) (ready m) (activeCategory m) (namespacesList m)
    (deploymentsList m) (podsList m) (servicesList m) v (activeTab m) (logsViewport m)
    (statsViewport m) (envViewport m) (configViewport m) (k8sManager m) (k8sInitError m)
    (currentNamespace m) (namespaces m) (deployments m) (pods m) (services m) (currentMetrics
    m) (currentEnvVars m) (currentYAML m) (selectedResourceType m) (activePortForwards m)
    (systemdManager m) (systemdInitError m) (statusMessage m) (err m) (showConfirmDialog m)
    (confirmAction m) (confirmResource m) (confirmReplicas m) (showHelp m).

Definition set_activeTab (v : RightPaneTab) (m : Model) : Model :=
  mkModel (width m) (height m) (ready m) (activeCategory m) (namespacesList m)
    (deploymentsList m) (podsList m) (servicesList m) (selectedResource m) v (logsViewport m)
    (statsViewport m) (envViewport m) (configViewport m) (k8sManager m) (k8sInitError m)
    (currentNamespace m) (namespaces m) (deployments m) (pods m) (services m) (currentMetrics
    m) (currentEnvVars m) (currentYAML m) (selectedResourceType m) (activePortForwards m)
    (systemdManager m) (systemdInitError m) (statusMessage m) (err m) (showConfirmDialog m)
    (confirmAction m) (confirmResource m) (confirmReplicas m) (showHelp m).

Definition set_logsViewport (v : viewport_Model) (m : Model) : Model :=
  mkModel (width m) (height m) (ready m) (activeCategory m) (namespacesList m)
    (deploymentsList m) (podsList m) (servicesList m) (selectedResource m) (activeTab m) v
    (statsViewport m) (envViewport m) (configViewport m) (k8sManager m) (k8sInitError m)
    (currentNamespace m) (namespaces m) (deployments m) (pods m) (services m) (currentMetrics
    m) (currentEnvVars m) (currentYAML m) (selectedResourceType m) (activePortForwards m)
    (systemdManager m) (systemdInitError m) (statusMessage m) (err m) (showConfirmDialog m)
    (confirmAction m) (confirmResource m) (confirmReplicas m) (showHelp m).

Definition set_statsViewport (v : viewport_Model) (m : Model) : Model :=
  mkModel (width m) (height m) (ready m) (activeCategory m) (namespacesList m)
    (deploymentsList m) (podsList m) (servicesList m) (selectedResource m) (activeTab m)
    (logsViewport m) v (envViewport m) (configViewport m) (k8sManager m) (k8sInitError m)
    (currentNamespace m) (namespaces m) (deployments m) (pods m) (services m) (currentMetrics
    m) (currentEnvVars m) (currentYAML m) (selectedResourceType m) (activePortForwards m)
    (systemdManager m) (systemdInitError m) (statusMessage m) (err m) (showConfirmDialog m)
    (confirmAction m) (confirmResource m) (confirmReplicas m) (showHelp m).

Definition set_envViewport (v : viewport_Model) (m : Model) : Model :=
  mkModel (width m) (height m) (ready m) (activeCategory m) (namespacesList m)
    (deploymentsList m) (podsList m) (servicesList m) (selectedResource m) (activeTab m)
    (logsViewport m) (statsViewport m) v (configViewport m) (k8sManager m) (k8sInitError m)
    (currentNamespace m) (namespaces m) (deployments m) (pods m) (services m) (currentMetrics
    m) (currentEnvVars m) (currentYAML m) (selectedResourceType m) (activePortForwards m)
    (systemdManager m) (systemdInitError m) (statusMessage m) (err m) (showConfirmDialog m)
    (confirmAction m) (confirmResource m) (confirmReplicas m) (showHelp m).

Definition set_configViewport (v : viewport_Model) (m : Model) : Model :=
  mkModel (width m) (height m) (ready m) (activeCategory m) (namespacesList m)
    (deploymentsList m) (podsList m) (servicesList m) (selectedResource m) (activeTab m)
    (logsViewport m) (statsViewport m) (envViewport m) v (k8sManager m) (k8sInitError m)
    (currentNamespace m) (namespaces m) (deployments m) (pods m) (services m) (currentMetrics
    m) (currentEnvVars m) (currentYAML m) (selectedResourceType m) (activePortForwards m)
    (systemdManager m) (systemdInitError m) (statusMessage m) (err m) (showConfirmDialog m)
    (confirmAction m) (confirmResource m) (confirmReplicas m) (showHelp m).

Definition set_k8sManager (v : option k8s.Manager) (m : Model) : Model :=
  mkModel (width m) (height m) (ready m) (activeCategory m) (namespacesList m)
    (deploymentsList m) (podsList m) (servicesList m) (selectedResource m) (activeTab m)
    (logsViewport m) (statsViewport m) (envViewport m) (configViewport m) v (k8sInitError m)
    (currentNamespace m) (namespaces m) (deployments m) (pods m) (services m) (currentMetrics
    m) (currentEnvVars m) (currentYAML m) (selectedResourceType m) (activePortForwards m)
    (systemdManager m) (systemdInitError m) (statusMessage m) (err m) (showConfirmDialog m)
    (confirmAction m) (confirmResource m) (confirmReplicas m) (showHelp m).

Definition set_currentNamespace (v : string) (m : Model) : Model :=
  mkModel (width m) (height m) (ready m) (activeCategory m) (namespacesList m)
    (deploymentsList m) (podsList m) (servicesList m) (selectedResource m) (activeTab m)
    (logsViewport m) (statsViewport m) (envViewport m) (configViewport m) (k8sManager m)
    (k8sInitError m) v (namespaces m) (deployments m) (pods m) (services m) (currentMetrics m)
    (currentEnvVars m) (currentYAML m) (selectedResourceType m) (activePortForwards m)
    (systemdManager m) (systemdInitError m) (statusMessage m) (err m) (showConfirmDialog m)
    (confirmAction m) (confirmResource m) (confirmReplicas m) (showHelp m).

Definition set_namespaces (v : list string) (m : Model) : Model :=
  mkModel (width m) (height m) (ready m) (activeCategory m) (namespacesList m)
    (deploymentsList m) (podsList m) (servicesList m) (selectedResource m) (activeTab m)
    (logsViewport m) (statsViewport m) (envViewport m) (configViewport m) (k8sManager m)
    (k8sInitError m) (currentNamespace m) v (deployments m) (pods m) (services m)
    (currentMetrics m) (currentEnvVars m) (currentYAML m) (selectedResourceType m)
    (activePortForwards m) (systemdManager m) (systemdInitError m) (statusMessage m) (err m)
    (showConfirmDialog m) (confirmAction m) (confirmResource m) (confirmReplicas m) (showHelp
    m).

Definition set_deployments (v : list k8s.DeploymentInfo) (m : Model) : Model :=
  mkModel (width m) (height m) (ready m) (activeCategory m) (namespacesList m)
    (deploymentsList m) (podsList m) (servicesList m) (selectedResource m) (activeTab m)
    (logsViewport m) (statsViewport m) (envViewport m) (configViewport m) (k8sManager m)
    (k8sInitError m) (currentNamespace m) (namespaces m) v (pods m) (services m)
    (currentMetrics m) (currentEnvVars m) (currentYAML m) (selectedResourceType m)
    (activePortForwards m) (systemdManager m) (systemdInitError m) (statusMessage m) (err m)
    (showConfirmDialog m) (confirmAction m) (confirmResource m) (confirmReplicas m) (showHelp
    m).

Definition set_pods (v : list k8s.PodInfo) (m : Model) : Model :=
  mkModel (width m) (height m) (ready m) (activeCategory m) (namespacesList m)
    (deploymentsList m) (podsList m) (servicesList m) (selectedResource m) (activeTab m)
    (logsViewport m) (statsViewport m) (envViewport m) (configViewport m) (k8sManager m)
    (k8sInitError m) (currentNamespace m) (namespaces m) (deployments m) v (services m)
    (currentMetrics m) (currentEnvVars m) (currentYAML m) (selectedResourceType m)
    (activePortForwards m) (systemdManager m) (systemdInitError m) (statusMessage m) (err m)
    (showConfirmDialog m) (confirmAction m) (confirmResource m) (confirmReplicas m) (showHelp
    m).

Definition set_services (v : list k8s.ServiceInfo) (m : Model) : Model :=
  mkModel (width m) (height m) (ready m) (activeCategory m) (namespacesList m)
    (deploymentsList m) (podsList m) (servicesList m) (selectedResource m) (activeTab m)
    (logsViewport m) (statsViewport m) (envViewport m) (configViewport m) (k8sManager m)
    (k8sInitError m) (currentNamespace m) (namespaces m) (deployments m) (pods m) v
    (currentMetrics m) (currentEnvVars m) (currentYAML m) (selectedResourceType m)
    (activePortForwards m) (systemdManager m) (systemdInitError m) (statusMessage m) (err m)
    (showConfirmDialog m) (confirmAction m) (confirmResource m) (confirmReplicas m) (showHelp
    m).

Definition set_currentMetrics (v : option k8s.PodMetrics) (m : Model) : Model :=
  mkModel (width m) (height m) (ready m) (activeCategory m) (namespacesList m)
    (deploymentsList m) (podsList m) (servicesList m) (selectedResource m) (activeTab m)
    (logsViewport m) (statsViewport m) (envViewport m) (configViewport m) (k8sManager m)
    (k8sInitError m) (currentNamespace m) (namespaces m) (deployments m) (pods m) (services m)
    v (currentEnvVars m) (currentYAML m) (selectedResourceType m) (activePortForwards m)
    (systemdManager m) (systemdInitError m) (statusMessage m) (err m) (showConfirmDialog m)
    (confirmAction m) (confirmResource m) (confirmReplicas m) (showHelp m).

Definition set_currentEnvVars (v : option k8s.PodEnvVars) (m : Model) : Model :=
  mkModel (width m) (height m) (ready m) (activeCategory m) (namespacesList m)
    (deploymentsList m) (podsList m) (servicesList m) (selectedResource m) (activeTab m)
    (logsViewport m) (statsViewport m) (envViewport m) (configViewport m) (k8sManager m)
    (k8sInitError m) (currentNamespace m) (namespaces m) (deployments m) (pods m) (services m)
    (currentMetrics m) v (currentYAML m) (selectedResourceType m) (activePortForwards m)
    (systemdManager m) (systemdInitError m) (statusMessage m) (err m) (showConfirmDialog m)
    (confirmAction m) (confirmResource m) (confirmReplicas m) (showHelp m).

Definition set_currentYAML (v : string) (m : Model) : Model :=
  mkModel (width m) (height m) (ready m) (activeCategory m) (namespacesList m)
    (deploymentsList m) (podsList m) (servicesList m) (selectedResource m) (activeTab m)
    (logsViewport m) (statsViewport m) (envViewport m) (configViewport m) (k8sManager m)
    (k8sInitError m) (currentNamespace m) (namespaces m) (deployments m) (pods m) (services m)
    (currentMetrics m) (currentEnvVars m) v (selectedResourceType m) (activePortForwards m)
    (systemdManager m) (systemdInitError m) (statusMessage m) (err m) (showConfirmDialog m)
    (confirmAction m) (confirmResource m) (confirmReplicas m) (showHelp m).

Definition set_selectedResourceType (v : string) (m : Model) : Model :=
  mkModel (width m) (height m) (ready m) (activeCategory m) (namespacesList m)
    (deploymentsList m) (podsList m) (servicesList m) (selectedResource m) (activeTab m)
    (logsViewport m) (statsViewport m) (envViewport m) (configViewport m) (k8sManager m)
    (k8sInitError m) (currentNamespace m) (namespaces m) (deployments m) (pods m) (services m)
    (currentMetrics m) (currentEnvVars m) (currentYAML m) v (activePortForwards m)
    (systemdManager m) (systemdInitError m) (statusMessage m) (err m) (showConfirmDialog m)
    (confirmAction m) (confirmResource m) (confirmReplicas m) (showHelp m).

Definition set_activePortForwards (v : gmap string k8s.PortForward) (m : Model) : Model :=
  mkModel (width m) (height m) (ready m) (activeCategory m) (namespacesList m)
    (deploymentsList m) (podsList m) (servicesList m) (selectedResource m) (activeTab m)
    (logsViewport m) (statsViewport m) (envViewport m) (configViewport m) (k8sManager m)
    (k8sInitError m) (currentNamespace m) (namespaces m) (deployments m) (pods m) (services m)
    (currentMetrics m) (currentEnvVars m) (currentYAML m) (selectedResourceType m) v
    (systemdManager m) (systemdInitError m) (statusMessage m) (err m) (showConfirmDialog m)
    (confirmAction m) (confirmResource m) (confirmReplicas m) (showHelp m).

Definition set_statusMessage (v : string) (m : Model) : Model :=
  mkModel (width m) (height m) (ready m) (activeCategory m) (namespacesList m)
    (deploymentsList m) (podsList m) (servicesList m) (selectedResource m) (activeTab m)
    (logsViewport m) (statsViewport m) (envViewport m) (configViewport m) (k8sManager m)
    (k8sInitError m) (currentNamespace m) (namespaces m) (deployments m) (pods m) (services m)
    (currentMetrics m) (currentEnvVars m) (currentYAML m) (selectedResourceType m)
    (activePortForwards m) (systemdManager m) (systemdInitError m) v (err m)
    (showConfirmDialog m) (confirmAction m) (confirmResource m) (confirmReplicas m) (showHelp
    m).

Definition set_showConfirmDialog (v : bool) (m : Model) : Model :=
  mkModel (width m) (height m) (ready m) (activeCategory m) (namespacesList m)
    (deploymentsList m) (podsList m) (servicesList m) (selectedResource m) (activeTab m)
    (logsViewport m) (statsViewport m) (envViewport m) (configViewport m) (k8sManager m)
    (k8sInitError m) (currentNamespace m) (namespaces m) (deployments m) (pods m) (services m)
    (currentMetrics m) (currentEnvVars m) (currentYAML m) (selectedResourceType m)
    (activePortForwards m) (systemdManager m) (systemdInitError m) (statusMessage m) (err m) v
    (confirmAction m) (confirmResource m) (confirmReplicas m) (showHelp m).

Definition set_confirmAction (v : string) (m : Model) : Model :=
  mkModel (width m) (height m) (ready m) (activeCategory m) (namespacesList m)
    (deploymentsList m) (podsList m) (servicesList m) (selectedResource m) (activeTab m)
    (logsViewport m) (statsViewport m) (envViewport m) (configViewport m) (k8sManager m)
    (k8sInitError m) (currentNamespace m) (namespaces m) (deployments m) (pods m) (services m)
    (currentMetrics m) (currentEnvVars m) (currentYAML m) (selectedResourceType m)
    (activePortForwards m) (systemdManager m) (systemdInitError m) (statusMessage m) (err m)
    (showConfirmDialog m) v (confirmResource m) (confirmReplicas m) (showHelp m).

Definition set_confirmResource (v : string) (m : Model) : Model :=
  mkModel (width m) (height m) (ready m) (activeCategory m) (namespacesList m)
    (deploymentsList m) (podsList m) (servicesList m) (selectedResource m) (activeTab m)
    (logsViewport m) (statsViewport m) (envViewport m) (configViewport m) (k8sManager m)
    (k8sInitError m) (currentNamespace m) (namespaces m) (deployments m) (pods m) (services m)
    (currentMetrics m) (currentEnvVars m) (currentYAML m) (selectedResourceType m)
    (activePortForwards m) (systemdManager m) (systemdInitError m) (statusMessage m) (err m)
    (showConfirmDialog m) (confirmAction m) v (confirmReplicas m) (showHelp m).

Definition set_confirmReplicas (v : Z) (m : Model) : Model :=
  mkModel (width m) (height m) (ready m) (activeCategory m) (namespacesList m)
    (deploymentsList m) (podsList m) (servicesList m) (selectedResource m) (activeTab m)
    (logsViewport m) (statsViewport m) (envViewport m) (configViewport m) (k8sManager m)
    (k8sInitError m) (currentNamespace m) (namespaces m) (deployments m) (pods m) (services m)
    (currentMetrics m) (currentEnvVars m) (currentYAML m) (selectedResourceType m)
    (activePortForwards m) (systemdManager m) (systemdInitError m) (statusMessage m) (err m)
    (showConfirmDialog m) (confirmAction m) (confirmResource m) v (showHelp m).

Definition set_showHelp (v : bool) (m : Model) : Model :=
  mkModel (width m) (height m) (ready m) (activeCategory m) (namespacesList m)
    (deploymentsList m) (podsList m) (servicesList m) (selectedResource m) (activeTab m)
    (logsViewport m) (statsViewport m) (envViewport m) (configViewport m) (k8sManager m)
    (k8sInitError m) (currentNamespace m) (namespaces m) (deployments m) (pods m) (services m)
    (currentMetrics m) (currentEnvVars m) (currentYAML m) (selectedResourceType m)
    (activePortForwards m) (systemdManager m) (systemdInitError m) (statusMessage m) (err m)
    (showConfirmDialog m) (confirmAction m) (confirmResource m) (confirmReplicas m) v.

(** *** NewModel and Init

    [k8s.NewManager()] and [systemd.NewManager()] read the environment:
    their results are arguments. *)
Definition NewModel (k8sMgr : option k8s.Manager) (k8sErr : error)
    (systemdMgr : option systemd_Manager) : Model :=
  let statusMsg :=
    match k8sErr with
    | Some e => "⚠ K8s init failed: " ++ fmt_v e
    | None => "✓ K8s connected"
    end in
  {| width := 0; height := 0; ready := false;
     activeCategory := NamespacesCategory;
     namespacesList := list_New; deploymentsList := list_New;
     podsList := list_New; servicesList := list_New;
     selectedResource := "";
     activeTab := LogsTab;
     logsViewport := viewport_zero; statsViewport := viewport_zero;
     envViewport := viewport_zero; configViewport := viewport_zero;
     k8sManager := k8sMgr; k8sInitError := k8sErr;
     currentNamespace := "default";
     namespaces := []; deployments := []; pods := []; services := [];
     currentMetrics := None; currentEnvVars := None;
     currentYAML := ""; selectedResourceType := "";
     activePortForwards := ∅;
     systemdManager := systemdMgr; systemdInitError := None;
     statusMessage := statusMsg; err := None;
     showConfirmDialog := false; confirmAction := ""; confirmResource := "";
     confirmReplicas := 0;
     showHelp := false |}.

(** The load methods: each returns the closure its constructor names. *)
Definition loadNamespaces (m : Model) : Cmd := LoadNamespaces.
Definition loadDeployments (m : Model) : Cmd := LoadDeployments.
Definition loadPods (m : Model) : Cmd := LoadPods.
Definition loadServices (m : Model) : Cmd := LoadServices.
Definition loadPodLogs (m : Model) (podName : string) : Cmd := LoadPodLogs podName.
Definition loadPodMetrics (m : Model) (podName : string) : Cmd := LoadPodMetrics podName.
Definition loadPodEnvVars (m : Model) (podName : string) : Cmd := LoadPodEnvVars podName.
Definition loadResourceYAML (m : Model) : Cmd :=
  LoadResourceYAML (selectedResourceType m) (selectedResource m).

Definition tick : Cmd := Tick.

Definition Init (m : Model) : Cmd :=
  Batch [loadNamespaces m; loadDeployments m; loadPods m; loadServices m; tick].

Definition not_initialized : error := Some "k8s manager not initialized".

(** The message a command's closure returns when the runtime runs it.
    [k8sManager] is the handle the closure captured; no code path
    reassigns that field, so it is the one of the current state. The
    timer yields [tickMsg]; [Quit], nil and the widgets' commands yield
    no message of this package. *)
Definition runCmd (k8sManager : option k8s.Manager) (c : Cmd) : option Msg :=
  match c with
  | LoadNamespaces =>
      match k8sManager with
      | None => Some (namespacesLoadedMsg [] not_initialized)
      | Some mgr => let '(v, e) := k8s.ListNamespaces mgr in Some (namespacesLoadedMsg v e)
      end
  | LoadDeployments =>
      match k8sManager with
      | None => Some (deploymentsLoadedMsg [] not_initialized)
      | Some mgr => let '(v, e) := k8s.ListDeployments mgr in Some (deploymentsLoadedMsg v e)
      end
  | LoadPods =>
      match k8sManager with
      | None => Some (podsLoadedMsg [] not_initialized)
      | Some mgr => let '(v, e) := k8s.ListPods mgr in Some (podsLoadedMsg v e)
      end
  | LoadServices =>
      match k8sManager with
      | None => Some (servicesLoadedMsg [] not_initialized)
      | Some mgr => let '(v, e) := k8s.ListServices mgr in Some (servicesLoadedMsg v e)
      end
  | LoadPodLogs podName =>
      match k8sManager with
      | None => Some (podLogsLoadedMsg "" not_initialized)
      | Some mgr =>
          let '(v, e) := k8s.GetPodLogs mgr podName 100 in Some (podLogsLoadedMsg v e)
      end
  | LoadPodMetrics podName =>
      match k8sManager with
      | None => Some (podMetricsLoadedMsg None not_initialized)
      | Some mgr =>
          let '(v, e) := k8s.GetPodMetrics mgr podName in Some (podMetricsLoadedMsg v e)
      end
  | LoadPodEnvVars podName =>
      match k8sManager with
      | None => Some (podEnvVarsLoadedMsg None not_initialized)
      | Some mgr =>
          let '(v, e) := k8s.GetPodEnvVars mgr podName in Some (podEnvVarsLoadedMsg v e)
      end
  | LoadResourceYAML selectedResourceType selectedResource =>
      match k8sManager with
      | None => Some (resourceYAMLLoadedMsg "" not_initialized)
      | Some mgr =>
          let '(v, e) :=
            if String.eqb selectedResourceType "pod"
            then k8s.GetPodYAML mgr selectedResource
            else if String.eqb selectedResourceType "deployment"
            then k8s.GetDeploymentYAML mgr selectedResource
            else if String.eqb selectedResourceType "service"
            then k8s.GetServiceYAML mgr selectedResource
            else ("", Some ("unknown resource type: " ++ selectedResourceType)) in
          Some (resourceYAMLLoadedMsg v e)
      end
  | Tick => Some tickMsg
  | libCmd tag => Some (libMsg tag)
  | nilCmd | Quit | Batch _ => None
  end.

(** *** The text of the Stats, Env, Config and Exec tabs *)

Definition createBar (percent width : Z) : string :=
  let percent := if percent <? 0 then 0 else percent in
  let percent := if 100 <? percent then 100 else percent in
  let filled := int_div (int_mul percent width) 100 in
  let empty := int_sub width filled in
  Repeat "█" filled ++ Repeat "░" empty.

Definition metrics_note : string :=
  "Note: Metrics require metrics-server to be installed in the cluster." ++ nl ++
  "Install with: kubectl apply -f https://github.com/kubernetes-sigs/metrics-server/releases/latest/download/components.yaml".

Definition renderStats (m : Model) : string :=
  if String.eqb (selectedResource m) "" then "Select a pod to view stats"
  else
    match currentMetrics m with
    | None =>
        "Loading metrics for " ++ selectedResource m ++ "..." ++ nl ++ nl ++ metrics_note
    | Some cm =>
        let cpuPercent := int_div (int_mul (k8s.CPUUsageMillis cm) 100) 1000 in
        let cpuPercent := if 100 <? cpuPercent then 100 else cpuPercent in
        let memPercent :=
          int_div (int_mul (k8s.MemoryUsageBytes cm) 100) (1024 * 1024 * 1024) in
        let memPercent := if 100 <? memPercent then 100 else memPercent in
        let cpuBar := createBar cpuPercent 20 in
        let memBar := createBar memPercent 20 in
        "Resource Metrics for: " ++ k8s.metrics_Name cm ++ nl ++ nl ++
        "CPU Usage:    " ++ k8s.CPUUsageFormatted cm ++ "  " ++ cpuBar ++
          " (" ++ fmt_d cpuPercent ++ "%)" ++ nl ++
        "Memory Usage: " ++ k8s.MemoryUsageFormatted cm ++ "  " ++ memBar ++
          " (" ++ fmt_d memPercent ++ "%)" ++ nl ++ nl ++
        "Raw Values:" ++ nl ++
        "  CPU:    " ++ k8s.CPUUsageFormatted cm ++ nl ++
        "  Memory: " ++ k8s.MemoryUsageFormatted cm ++ nl ++ nl ++
        "Namespace: " ++ k8s.metrics_Namespace cm
    end.

Definition renderEnvVar (env : k8s.EnvVar) : string :=
  "  " ++ k8s.env_Name env ++ nl ++
  (if String.eqb (k8s.Value env) "" then "" else "    = " ++ k8s.Value env ++ nl) ++
  (if String.eqb (k8s.ValueFrom env) "" then "" else "    → " ++ k8s.ValueFrom env ++ nl) ++
  nl.

Definition renderContainer (c : string * list k8s.EnvVar) : string :=
  "━━━ Container: " ++ fst c ++ " ━━━" ++ nl ++ nl ++
  match snd c with
  | [] => "  (no environment variables)" ++ nl ++ nl
  | envVars => String.concat "" (map renderEnvVar envVars)
  end.

Definition renderEnv (m : Model) : string :=
  if String.eqb (selectedResource m) "" then "Select a pod to view environment variables"
  else
    match currentEnvVars m with
    | None => "Loading environment variables for " ++ selectedResource m ++ "..."
    | Some ev =>
        match k8s.Containers ev with
        | [] => "No environment variables found for " ++ k8s.PodName ev
        | containers =>
            "Environment Variables for: " ++ k8s.PodName ev ++ nl ++
            "Namespace: " ++ k8s.env_Namespace ev ++ nl ++ nl ++
            String.concat "" (map renderContainer containers)
        end
    end.

Definition renderConfig (m : Model) : string :=
  if String.eqb (selectedResource m) "" then "Select a resource to view YAML configuration"
  else if String.eqb (currentYAML m) "" then
    "Loading YAML for " ++ selectedResource m ++ "..."
  else
    "YAML Configuration for " ++ selectedResourceType m ++ ": " ++ selectedResource m ++
    " (Namespace: " ++ currentNamespace m ++ ")" ++ nl ++ nl ++ currentYAML m.

Definition renderExec (m : Model) : string :=
  if String.eqb (selectedResource m) "" then "Select a pod to exec into"
  else
    "Exec into: " ++ selectedResource m ++ nl ++ nl ++
    "$ kubectl exec -it " ++ selectedResource m ++ " -n " ++ currentNamespace m ++
    " -- /bin/sh" ++ nl ++ nl ++ "(Coming soon: direct shell access)".

(** *** performConfirmedAction *)

Definition performConfirmedAction (m : Model) : Model * Cmd :=
  if String.eqb (confirmAction m) "delete-pod" then
    match k8sManager m with
    | None => (set_statusMessage "Error: k8s manager not initialized" m, nilCmd)
    | Some mgr =>
        match k8s.DeletePod mgr (confirmResource m) with
        | Some e => (set_statusMessage ("Error deleting pod: " ++ fmt_v e) m, nilCmd)
        | None =>
            let m := set_statusMessage ("Deleted pod: " ++ confirmResource m) m in
            (m, loadPods m)
        end
    end
  else if String.eqb (confirmAction m) "delete-deployment" then
    match k8sManager m with
    | None => (set_statusMessage "Error: k8s manager not initialized" m, nilCmd)
    | Some mgr =>
        match k8s.DeleteDeployment mgr (confirmResource m) with
        | Some e => (set_statusMessage ("Error deleting deployment: " ++ fmt_v e) m, nilCmd)
        | None =>
            let m := set_statusMessage ("Deleted deployment: " ++ confirmResource m) m in
            (m, loadDeployments m)
        end
    end
  else if key_in (confirmAction m) ["scale-up"; "scale-down"] then
    match k8sManager m with
    | None => (set_statusMessage "Error: k8s manager not initialized" m, nilCmd)
    | Some mgr =>
        match k8s.ScaleDeployment mgr (confirmResource m) (confirmReplicas m) with
        | Some e => (set_statusMessage ("Error scaling: " ++ fmt_v e) m, nilCmd)
        | None =>
            let m :=
              set_statusMessage
                ("Scaled " ++ confirmResource m ++ " to " ++ fmt_d (confirmReplicas m)
                   ++ " replicas") m in
            (m, loadDeployments m)
        end
    end
  else (set_statusMessage "Unknown action" m, nilCmd).

(** *** The layout a resize computes *)

Record Geometry : Type := mkGeometry {
  leftPaneWidth : Z;
  rightPaneWidth : Z;
  sectionHeight : Z;
  listWidth : Z;
  viewportWidth : Z;
  viewportHeight : Z
}.

Definition layout (Width Height : Z) : Geometry :=
  let leftPaneWidth := int_div Width 3 in
  let rightPaneWidth := int_sub (int_sub Width leftPaneWidth) 4 in
  let totalAvailable := int_sub Height 6 in
  let sectionHeight := int_sub (int_div totalAvailable 4) 2 in
  let sectionHeight := if sectionHeight <? 3 then 3 else sectionHeight in
  {| leftPaneWidth := leftPaneWidth;
     rightPaneWidth := rightPaneWidth;
     sectionHeight := sectionHeight;
     listWidth := int_sub leftPaneWidth 4;
     viewportWidth := int_sub rightPaneWidth 4;
     viewportHeight := int_sub Height 12 |}.

Definition resize_viewport (fresh : bool) (g : Geometry) (v : viewport_Model)
    : viewport_Model :=
  if fresh then viewport_New (viewportWidth g) (viewportHeight g)
  else viewport_set_Height (viewportHeight g) (viewport_set_Width (viewportWidth g) v).

Definition Update_WindowSizeMsg (m : Model) (Width Height : Z) : Model :=
  let m := set_width Width m in
  let m := set_height Height m in
  let m := set_ready true m in
  let g := layout (width m) (height m) in
  let m := set_namespacesList (list_SetSize (listWidth g) (sectionHeight g) (namespacesList m)) m in
  let m := set_deploymentsList (list_SetSize (listWidth g) (sectionHeight g) (deploymentsList m)) m in
  let m := set_podsList (list_SetSize (listWidth g) (sectionHeight g) (podsList m)) m in
  let m := set_servicesList (list_SetSize (listWidth g) (sectionHeight g) (servicesList m)) m in
  let fresh := negb (HighPerformanceRendering (logsViewport m)) in
  let m := set_logsViewport (resize_viewport fresh g (logsViewport m)) m in
  let m := set_statsViewport (resize_viewport fresh g (statsViewport m)) m in
  let m := set_envViewport (resize_viewport fresh g (envViewport m)) m in
  let m := set_configViewport (resize_viewport fresh g (configViewport m)) m in
  m.

(** *** Update: key presses *)

(** The dialog branch: only entered while [showConfirmDialog] is set. *)
Definition Update_confirm (m : Model) (key : string) : Model * Cmd :=
  if key_in key ["y"; "Y"] then
    let m := set_showConfirmDialog false m in
    performConfirmedAction m
  else if key_in key ["n"; "N"; "esc"; "q"] then
    let m := set_showConfirmDialog false m in
    let m := set_statusMessage "Action cancelled" m in
    (m, nilCmd)
  else (m, nilCmd).

(** The help branch: only entered while [showHelp] is set. *)
Definition Update_help (m : Model) (key : string) : Model * Cmd :=
  if key_in key ["?"; "q"; "esc"] then (set_showHelp false m, nilCmd)
  else (m, nilCmd).

(** [case "enter"]. *)
Definition Update_enter (m : Model) : Outcome (Model * Cmd) :=
  if activeCategory m =? NamespacesCategory then
    match list_SelectedItem (namespacesList m) with
    | Some (namespaceItem name) =>
        let m := set_currentNamespace name m in
        match k8sManager m with
        | None => Panics
        | Some mgr =>
            let m := set_k8sManager (Some (k8s.SetNamespace mgr name)) m in
            let m := set_statusMessage ("Switched to namespace: " ++ name) m in
            let m := set_activeCategory PodsCategory m in
            Returns (m, Batch [loadDeployments m; loadPods m; loadServices m])
        end
    | _ => Returns (m, nilCmd)
    end
  else if activeCategory m =? DeploymentsCategory then
    match list_SelectedItem (deploymentsList m) with
    | Some (deploymentItem d) =>
        let m := set_selectedResource (k8s.deployment_Name d) m in
        let m := set_selectedResourceType "deployment" m in
        let m := set_statusMessage ("Selected deployment: " ++ k8s.deployment_Name d) m in
        let m := set_activeTab ConfigTab m in
        Returns (m, loadResourceYAML m)
    | _ => Returns (m, nilCmd)
    end
  else if activeCategory m =? PodsCategory then
    match list_SelectedItem (podsList m) with
    | Some (podItem p) =>
        let m := set_selectedResource (k8s.pod_Name p) m in
        let m := set_selectedResourceType "pod" m in
        let m := set_statusMessage ("Selected: " ++ k8s.pod_Name p) m in
        let m := set_activeTab LogsTab m in
        Returns (m, Batch [loadPodLogs m (k8s.pod_Name p); loadPodMetrics m (k8s.pod_Name p);
                           loadPodEnvVars m (k8s.pod_Name p); loadResourceYAML m])
    | _ => Returns (m, nilCmd)
    end
  else Returns (m, nilCmd).

(** [case "d"]. *)
Definition Update_delete (m : Model) : Model * Cmd :=
  if activeCategory m =? PodsCategory then
    match list_SelectedItem (podsList m) with
    | Some (podItem p) =>
        let m := set_showConfirmDialog true m in
        let m := set_confirmAction "delete-pod" m in
        let m := set_confirmResource (k8s.pod_Name p) m in
        (m, nilCmd)
    | _ => (m, nilCmd)
    end
  else if activeCategory m =? DeploymentsCategory then
    match list_SelectedItem (deploymentsList m) with
    | Some (deploymentItem d) =>
        let m := set_showConfirmDialog true m in
        let m := set_confirmAction "delete-deployment" m in
        let m := set_confirmResource (k8s.deployment_Name d) m in
        (m, nilCmd)
    | _ => (m, nilCmd)
    end
  else (m, nilCmd).

(** [case "+", "="]. *)
Definition Update_scale_up (m : Model) : Model * Cmd :=
  if activeCategory m =? DeploymentsCategory then
    match list_SelectedItem (deploymentsList m) with
    | Some (deploymentItem d) =>
        let m := set_showConfirmDialog true m in
        let m := set_confirmAction "scale-up" m in
        let m := set_confirmResource (k8s.deployment_Name d) m in
        let m := set_confirmReplicas (int32_add (k8s.Replicas d) 1) m in
        (m, nilCmd)
    | _ => (m, nilCmd)
    end
  else (m, nilCmd).

(** [case "-", "_"]. *)
Definition Update_scale_down (m : Model) : Model * Cmd :=
  if activeCategory m =? DeploymentsCategory then
    match list_SelectedItem (deploymentsList m) with
    | Some (deploymentItem d) =>
        if 0 <? k8s.Replicas d then
          let m := set_showConfirmDialog true m in
          let m := set_confirmAction "scale-down" m in
          let m := set_confirmResource (k8s.deployment_Name d) m in
          let m := set_confirmReplicas (int32_sub (k8s.Replicas d) 1) m in
          (m, nilCmd)
        else (m, nilCmd)
    | _ => (m, nilCmd)
    end
  else (m, nilCmd).

(** [case "p"]. *)
Definition Update_port_forward (m : Model) : Model * Cmd :=
  if activeCategory m =? PodsCategory then
    match list_SelectedItem (podsList m) with
    | Some (podItem p) =>
        match k8sManager m with
        | Some mgr =>
            let localPort := "8080" in
            let remotePort := "80" in
            match k8s.StartPortForward mgr (k8s.pod_Name p) localPort remotePort with
            | inr e =>
                (set_statusMessage ("Error starting port-forward: " ++ fmt_v e) m, nilCmd)
            | inl pf =>
                let key := k8s.pod_Name p ++ ":" ++ localPort in
                let m := set_activePortForwards (<[key := pf]> (activePortForwards m)) m in
                let m :=
                  set_statusMessage
                    ("Port-forward started: localhost:" ++ localPort ++ " -> "
                       ++ k8s.pod_Name p ++ ":" ++ remotePort) m in
                (m, nilCmd)
            end
        | None => (m, nilCmd)
        end
    | _ => (m, nilCmd)
    end
  else (m, nilCmd).

(** [case "P"]: every entry is stopped and deleted. *)
Definition Update_stop_port_forwards (m : Model) : Model * Cmd :=
  match k8sManager m with
  | Some _ =>
      let m := set_activePortForwards ∅ m in
      let m := set_statusMessage "Stopped all port-forwards" m in
      (m, nilCmd)
  | None => (m, nilCmd)
  end.

(** The keys the normal-mode [switch msg.String()] has a case for. *)
Definition handled_keys : list string :=
  ["ctrl+c"; "q"; "?"; "tab"; "shift+tab"; "1"; "2"; "3"; "4";
   "l"; "s"; "e"; "c"; "t"; "x"; "r"; "enter"; "d"; "+"; "="; "-"; "_"; "p"; "P"].

(** The normal-mode [switch msg.String()]; [None] when no case matches
    and control leaves the switch. Quitting stops the port-forwards and
    closes the systemd manager: signals to processes, which leave the
    state as it is. *)
Definition Update_key (m : Model) (key : string) : option (Outcome (Model * Cmd)) :=
  if key_in key ["ctrl+c"; "q"] then Some (Returns (m, Quit))
  else if String.eqb key "?" then Some (Returns (set_showHelp (negb (showHelp m)) m, nilCmd))
  else if String.eqb key "tab" then
    Some (Returns (set_activeCategory (Z.rem (int_add (activeCategory m) 1) 4) m, nilCmd))
  else if String.eqb key "shift+tab" then
    Some (Returns
            (set_activeCategory (Z.rem (int_add (int_sub (activeCategory m) 1) 4) 4) m,
             nilCmd))
  else if String.eqb key "1" then
    Some (Returns (set_activeCategory NamespacesCategory m, nilCmd))
  else if String.eqb key "2" then
    let m := set_activeCategory DeploymentsCategory m in
    match list_SelectedItem (deploymentsList m) with
    | Some (deploymentItem d) =>
        let m := set_selectedResource (k8s.deployment_Name d) m in
        let m := set_selectedResourceType "deployment" m in
        let m := set_activeTab ConfigTab m in
        Some (Returns (m, loadResourceYAML m))
    | _ => Some (Returns (m, nilCmd))
    end
  else if String.eqb key "3" then
    let m := set_activeCategory PodsCategory m in
    match list_SelectedItem (podsList m) with
    | Some (podItem p) =>
        let m := set_selectedResource (k8s.pod_Name p) m in
        let m := set_selectedResourceType "pod" m in
        let m := set_activeTab LogsTab m in
        Some (Returns
                (m, Batch [loadPodLogs m (k8s.pod_Name p); loadPodMetrics m (k8s.pod_Name p);
                           loadPodEnvVars m (k8s.pod_Name p); loadResourceYAML m]))
    | _ => Some (Returns (m, nilCmd))
    end
  else if String.eqb key "4" then
    let m := set_activeCategory ServicesCategory m in
    match list_SelectedItem (servicesList m) with
    | Some (serviceItem s) =>
        let m := set_selectedResource (k8s.service_Name s) m in
        let m := set_selectedResourceType "service" m in
        let m := set_activeTab ConfigTab m in
        Some (Returns (m, loadResourceYAML m))
    | _ => Some (Returns (m, nilCmd))
    end
  else if String.eqb key "l" then Some (Returns (set_activeTab LogsTab m, nilCmd))
  else if String.eqb key "s" then Some (Returns (set_activeTab StatsTab m, nilCmd))
  else if String.eqb key "e" then Some (Returns (set_activeTab EnvTab m, nilCmd))
  else if String.eqb key "c" then Some (Returns (set_activeTab ConfigTab m, nilCmd))
  else if String.eqb key "t" then Some (Returns (set_activeTab TopTab m, nilCmd))
  else if String.eqb key "x" then Some (Returns (set_activeTab ExecTab m, nilCmd))
  else if String.eqb key "r" then
    let m := set_statusMessage "Refreshing..." m in
    Some (Returns (m, Batch [loadNamespaces m; loadDeployments m; loadPods m; loadServices m]))
  else if String.eqb key "enter" then Some (Update_enter m)
  else if String.eqb key "d" then Some (Returns (Update_delete m))
  else if key_in key ["+"; "="] then Some (Returns (Update_scale_up m))
  else if key_in key ["-"; "_"] then Some (Returns (Update_scale_down m))
  else if String.eqb key "p" then Some (Returns (Update_port_forward m))
  else if String.eqb key "P" then Some (Returns (Update_stop_port_forwards m))
  else None.

(** *** Update: results of the loads *)

Definition Update_namespacesLoadedMsg (m : Model) (namespaces' : list string) (e : error)
    : Model :=
  match e with
  | Some e => set_statusMessage ("Error loading namespaces: " ++ fmt_v e) m
  | None =>
      let m := set_namespaces namespaces' m in
      set_namespacesList (list_SetItems (map namespaceItem namespaces') (namespacesList m)) m
  end.

Definition Update_deploymentsLoadedMsg (m : Model)
    (deployments' : list k8s.DeploymentInfo) (e : error) : Model :=
  match e with
  | Some e => set_statusMessage ("Error loading deployments: " ++ fmt_v e) m
  | None =>
      let m := set_deployments deployments' m in
      set_deploymentsList
        (list_SetItems (map deploymentItem deployments') (deploymentsList m)) m
  end.

Definition Update_podsLoadedMsg (m : Model) (pods' : list k8s.PodInfo) (e : error)
    : Model :=
  match e with
  | Some e => set_statusMessage ("Error loading pods: " ++ fmt_v e) m
  | None =>
      let m := set_pods pods' m in
      let m := set_podsList (list_SetItems (map podItem pods') (podsList m)) m in
      if String.eqb (statusMessage m) "Refreshing..." then
        set_statusMessage
          ("Loaded " ++ fmt_d (Z.of_nat (length pods')) ++ " pods from "
             ++ currentNamespace m) m
      else m
  end.

Definition Update_servicesLoadedMsg (m : Model) (services' : list k8s.ServiceInfo)
    (e : error) : Model :=
  match e with
  | Some e => set_statusMessage ("Error loading services: " ++ fmt_v e) m
  | None =>
      let m := set_services services' m in
      set_servicesList (list_SetItems (map serviceItem services') (servicesList m)) m
  end.

Definition Update_podLogsLoadedMsg (m : Model) (logs : string) (e : error) : Model :=
  match e with
  | Some e => set_logsViewport (viewport_SetContent ("Error: " ++ fmt_v e) (logsViewport m)) m
  | None =>
      let m := set_logsViewport (viewport_SetContent logs (logsViewport m)) m in
      set_logsViewport (viewport_GotoBottom (logsViewport m)) m
  end.

Definition Update_podMetricsLoadedMsg (m : Model) (metrics : option k8s.PodMetrics)
    (e : error) : Model :=
  match e with
  | Some _ =>
      let m := set_currentMetrics None m in
      set_statsViewport
        (viewport_SetContent
           ("Metrics unavailable for " ++ selectedResource m ++ nl ++ nl ++ metrics_note)
           (statsViewport m)) m
  | None =>
      let m := set_currentMetrics metrics m in
      set_statsViewport (viewport_SetContent (renderStats m) (statsViewport m)) m
  end.

Definition Update_podEnvVarsLoadedMsg (m : Model) (envVars : option k8s.PodEnvVars)
    (e : error) : Model :=
  match e with
  | Some e =>
      let m := set_currentEnvVars None m in
      set_envViewport
        (viewport_SetContent ("Error loading environment variables: " ++ fmt_v e)
           (envViewport m)) m
  | None =>
      let m := set_currentEnvVars envVars m in
      set_envViewport (viewport_SetContent (renderEnv m) (envViewport m)) m
  end.

Definition Update_resourceYAMLLoadedMsg (m : Model) (yaml : string) (e : error) : Model :=
  match e with
  | Some e =>
      let m := set_currentYAML ("Error loading YAML: " ++ fmt_v e) m in
      set_configViewport (viewport_SetContent (currentYAML m) (configViewport m)) m
  | None =>
      let m := set_currentYAML yaml m in
      set_configViewport (viewport_SetContent (renderConfig m) (configViewport m)) m
  end.

(** *** Update: the tail that hands the message to the focused widgets *)

(** [switch m.activeCategory]: the focused list takes the message, then
    the selection context follows the list's selected item. Returns the
    state, the commands appended to [cmds] and the list's own [cmd]. *)
Definition Update_list (m : Model) (msg : Msg) : Outcome (Model * list Cmd * Cmd) :=
  if activeCategory m =? NamespacesCategory then
    let '(l, c) := list_Update msg (namespacesList m) in
    let cmd := widget_cmd c in
    let m := set_namespacesList l m in
    match list_SelectedItem (namespacesList m) with
    | Some (namespaceItem name) =>
        if negb (String.eqb (currentNamespace m) name) then
          let m := set_currentNamespace name m in
          match k8sManager m with
          | None => Panics
          | Some mgr =>
              let m := set_k8sManager (Some (k8s.SetNamespace mgr name)) m in
              let m := set_statusMessage ("Switched to namespace: " ++ name) m in
              Returns (m, [Batch [loadDeployments m; loadPods m; loadServices m]], cmd)
          end
        else Returns (m, [], cmd)
    | _ => Returns (m, [], cmd)
    end
  else if activeCategory m =? DeploymentsCategory then
    let '(l, c) := list_Update msg (deploymentsList m) in
    let cmd := widget_cmd c in
    let m := set_deploymentsList l m in
    match list_SelectedItem (deploymentsList m) with
    | Some (deploymentItem d) =>
        if negb (String.eqb (selectedResource m) (k8s.deployment_Name d)) then
          let m := set_selectedResource (k8s.deployment_Name d) m in
          let m := set_selectedResourceType "deployment" m in
          let m := set_statusMessage ("Selected: " ++ k8s.deployment_Name d) m in
          let m := set_activeTab ConfigTab m in
          Returns (m, [loadResourceYAML m], cmd)
        else Returns (m, [], cmd)
    | _ => Returns (m, [], cmd)
    end
  else if activeCategory m =? PodsCategory then
    let '(l, c) := list_Update msg (podsList m) in
    let cmd := widget_cmd c in
    let m := set_podsList l m in
    match list_SelectedItem (podsList m) with
    | Some (podItem p) =>
        if negb (String.eqb (selectedResource m) (k8s.pod_Name p)) then
          let m := set_selectedResource (k8s.pod_Name p) m in
          let m := set_selectedResourceType "pod" m in
          let m := set_statusMessage ("Selected: " ++ k8s.pod_Name p) m in
          let m := set_activeTab LogsTab m in
          Returns (m, [loadPodLogs m (k8s.pod_Name p); loadPodMetrics m (k8s.pod_Name p);
                       loadPodEnvVars m (k8s.pod_Name p); loadResourceYAML m], cmd)
        else Returns (m, [], cmd)
    | _ => Returns (m, [], cmd)
    end
  else if activeCategory m =? ServicesCategory then
    let '(l, c) := list_Update msg (servicesList m) in
    let cmd := widget_cmd c in
    let m := set_servicesList l m in
    match list_SelectedItem (servicesList m) with
    | Some (serviceItem s) =>
        if negb (String.eqb (selectedResource m) (k8s.service_Name s)) then
          let m := set_selectedResource (k8s.service_Name s) m in
          let m := set_selectedResourceType "service" m in
          let m := set_statusMessage ("Selected: " ++ k8s.service_Name s) m in
          let m := set_activeTab ConfigTab m in
          Returns (m, [loadResourceYAML m], cmd)
        else Returns (m, [], cmd)
    | _ => Returns (m, [], cmd)
    end
  else Returns (m, [], nilCmd).

(** [switch m.activeTab]: the viewport of the active tab takes the
    message; the Top and Exec tabs have none. *)
Definition Update_viewport (m : Model) (msg : Msg) : Model * list Cmd :=
  match activeTab m with
  | LogsTab =>
      let '(v, c) := viewport_Update msg (logsViewport m) in
      let cmd := widget_cmd c in (set_logsViewport v m, [cmd])
  | StatsTab =>
      let '(v, c) := viewport_Update msg (statsViewport m) in
      let cmd := widget_cmd c in (set_statsViewport v m, [cmd])
  | EnvTab =>
      let '(v, c) := viewport_Update msg (envViewport m) in
      let cmd := widget_cmd c in (set_envViewport v m, [cmd])
  | ConfigTab =>
      let '(v, c) := viewport_Update msg (configViewport m) in
      let cmd := widget_cmd c in
      (set_configViewport v m, [cmd])
  | TopTab | ExecTab => (m, [])
  end.

Definition Update_widgets (m : Model) (msg : Msg) : Outcome (Model * Cmd) :=
  match Update_list m msg with
  | Panics => Panics
  | Returns (m, cmds, cmd) =>
      let cmds := (cmds ++ [cmd])%list in
      let '(m, vcmds) := Update_viewport m msg in
      Returns (m, Batch (cmds ++ vcmds)%list)
  end.

(** *** Update *)

Definition Update (m : Model) (msg : Msg) : Outcome (Model * Cmd) :=
  match msg with
  | KeyMsg key =>
      if showConfirmDialog m then Returns (Update_confirm m key)
      else if showHelp m then Returns (Update_help m key)
      else
        match Update_key m key with
        | Some r => r
        | None => Update_widgets m msg
        end
  | namespacesLoadedMsg v e => Returns (Update_namespacesLoadedMsg m v e, nilCmd)
  | deploymentsLoadedMsg v e => Returns (Update_deploymentsLoadedMsg m v e, nilCmd)
  | podsLoadedMsg v e => Returns (Update_podsLoadedMsg m v e, nilCmd)
  | servicesLoadedMsg v e => Returns (Update_servicesLoadedMsg m v e, nilCmd)
  | podLogsLoadedMsg v e => Returns (Update_podLogsLoadedMsg m v e, nilCmd)
  | podMetricsLoadedMsg v e => Returns (Update_podMetricsLoadedMsg m v e, nilCmd)
  | podEnvVarsLoadedMsg v e => Returns (Update_podEnvVarsLoadedMsg m v e, nilCmd)
  | resourceYAMLLoadedMsg v e => Returns (Update_resourceYAMLLoadedMsg m v e, nilCmd)
  | tickMsg => Returns (m, Batch [loadDeployments m; loadPods m; loadServices m; tick])
  | WindowSizeMsg w h => Returns (Update_WindowSizeMsg m w h, nilCmd)
  | libMsg _ => Update_widgets m msg
  end.

End Reducer.

(** ** internal/ui/logviewer.go *)

Module logviewer.

Section LogViewer.
Context {V : ViewportLib}.

Record LogViewer : Type := mkLogViewer {
  viewport : viewport_Model;
  title : string;
  content : string;
  width : Z;
  height : Z;
  autoScroll : bool;
  ready : bool
}.

Definition NewLogViewer (title : string) : LogViewer :=
  {| viewport := viewport_zero; title := title; content := ""; width := 0; height := 0;
     autoScroll := true; ready := false |}.

(** The methods have pointer receivers: each returns the viewer it leaves
    behind. *)
Definition SetContent (lv : LogViewer) (content' : string) : LogViewer :=
  let vp := viewport_SetContent content' (viewport lv) in
  let vp := if autoScroll lv then viewport_GotoBottom vp else vp in
  {| viewport := vp; title := title lv; content := content'; width := width lv;
     height := height lv; autoScroll := autoScroll lv; ready := ready lv |}.

(** The border style [SetSize] gives a new viewport only matters to the
    renderer and is left to it. *)
Definition SetSize (lv : LogViewer) (width' height' : Z) : LogViewer :=
  let vp :=
    if negb (ready lv) then viewport_New width' (int_sub height' 4)
    else viewport_set_Height (int_sub height' 4) (viewport_set_Width width' (viewport lv)) in
  let lv :=
    {| viewport := vp; title := title lv; content := content lv; width := width';
       height := height'; autoScroll := autoScroll lv; ready := true |} in
  if negb (String.eqb (content lv) "") then SetContent lv (content lv) else lv.

Definition AppendContent (lv : LogViewer) (newContent : string) : LogViewer :=
  let content' :=
    if negb (String.eqb (content lv) "") then content lv ++ nl ++ newContent
    else newContent in
  SetContent lv content'.

Definition ToggleAutoScroll (lv : LogViewer) : LogViewer :=
  let auto := negb (autoScroll lv) in
  {| viewport := if auto then viewport_GotoBottom (viewport lv) else viewport lv;
     title := title lv; content := content lv; width := width lv; height := height lv;
     autoScroll := auto; ready := ready lv |}.

Definition Update (lv : LogViewer) (msg : Msg) : LogViewer * Cmd :=
  let '(vp, c) := viewport_Update msg (viewport lv) in
  ({| viewport := vp; title := title lv; content := content lv; width := width lv;
      height := height lv; autoScroll := autoScroll lv; ready := ready lv |},
   widget_cmd c).

Definition GetContent (lv : LogViewer) : string := content lv.

Definition Clear (lv : LogViewer) : LogViewer :=
  {| viewport := viewport_SetContent "" (viewport lv); title := title lv; content := "";
     width := width lv; height := height lv; autoScroll := autoScroll lv;
     ready := ready lv |}.

Definition IsAtBottom (lv : LogViewer) : bool := viewport_AtBottom (viewport lv).

Definition GotoBottom (lv : LogViewer) : LogViewer :=
  {| viewport := viewport_GotoBottom (viewport lv); title := title lv;
     content := content lv; width := width lv; height := height lv;
     autoScroll := autoScroll lv; ready := ready lv |}.

Definition GotoTop (lv : LogViewer) : LogViewer :=
  {| viewport := viewport_GotoTop (viewport lv); title := title lv;
     content := content lv; width := width lv; height := height lv;
     autoScroll := autoScroll lv; ready := ready lv |}.

End LogViewer.

End logviewer.

(** ** The event loop

    Bubble Tea runs [Init]'s command, then hands [Update] one message at a
    time: an input of the terminal, or the message of a command that has
    come due. [pending] holds the commands handed back and not yet run. *)

Section Runtime.
Context {L : ListLib} {V : ViewportLib} {C : k8s.Cluster}.

Record Program : Type := mkProgram {
  model : Model;
  pending : list Cmd
}.

Definition start (m : Model) : Program :=
  {| model := m; pending := atoms (Init m) |}.

(** What the terminal and the widgets may send by themselves. *)
Definition is_input (msg : Msg) : bool :=
  match msg with
  | KeyMsg _ | WindowSizeMsg _ _ | libMsg _ => true
  | _ => false
  end.

(** [Update] takes [msg]; the commands it hands back join [rest]. *)
Definition deliver (p : Program) (msg : Msg) (rest : list Cmd) : Outcome Program :=
  match Update (model p) msg with
  | Panics => Panics
  | Returns (m', c) => Returns {| model := m'; pending := (rest ++ atoms c)%list |}
  end.

Inductive step (p : Program) : Outcome Program -> Prop :=
  | step_input (msg : Msg) :
      is_input msg = true ->
      step p (deliver p msg (pending p))
  | step_due (before after : list Cmd) (c : Cmd) (msg : Msg) :
      pending p = (before ++ c :: after)%list ->
      runCmd (k8sManager (model p)) c = Some msg ->
      step p (deliver p msg (before ++ after)%list).

Inductive reachable (p0 : Program) : Program -> Prop :=
  | reachable_start : reachable p0 p0
  | reachable_step (p p' : Program) :
      reachable p0 p -> step p (Returns p') -> reachable p0 p'.

(** The timers waiting to fire. *)
Definition pending_timers (p : Program) : nat := ticks (pending p).

End Runtime.

(** ** Vocabulary of the properties *)

(** The keys of the normal mode that can raise the dialog. *)
Definition dialog_keys : list string := ["d"; "+"; "="; "-"; "_"].

(** The actions [performConfirmedAction] has a case for. *)
Definition pending_actions : list string :=
  ["delete-pod"; "delete-deployment"; "scale-up"; "scale-down"].

(** The commands that call the manager. *)
Definition is_load (c : Cmd) : bool :=
  match c with
  | LoadNamespaces | LoadDeployments | LoadPods | LoadServices
  | LoadPodLogs _ | LoadPodMetrics _ | LoadPodEnvVars _ | LoadResourceYAML _ _ => true
  | _ => false
  end.

(** The [err] field of a result message. *)
Definition err_of (msg : Msg) : error :=
  match msg with
  | namespacesLoadedMsg _ e | deploymentsLoadedMsg _ e | podsLoadedMsg _ e
  | servicesLoadedMsg _ e | podLogsLoadedMsg _ e | podMetricsLoadedMsg _ e
  | podEnvVarsLoadedMsg _ e | resourceYAMLLoadedMsg _ e => e
  | _ => None
  end.

(** A message that carries a result of the manager. *)
Definition is_result (msg : Msg) : bool :=
  match msg with
  | KeyMsg _ | WindowSizeMsg _ _ | tickMsg | libMsg _ => false
  | _ => true
  end.

(** The message is the timer's. *)
Definition is_tickMsg (msg : Msg) : bool :=
  match msg with tickMsg => true | _ => false end.

Section Vocabulary.
Context {L : ListLib} {V : ViewportLib} {C : k8s.Cluster}.

(** What a nil manager can be sent: an input, or what a command it handed
    back yields. *)
Definition deliverable (msg : Msg) : Prop :=
  is_input msg = true \/ exists c, runCmd None c = Some msg.

(** The invariant: the manager stays nil and the namespaces pane stays
    empty, so the two calls of [SetNamespace] are never reached. *)
Definition nil_manager (m : Model) : Prop :=
  k8sManager m = None /\ list_Items (namespacesList m) = [].

(** The dialog a scale key raises for the deployment [d]. *)
Definition scale_dialog (action : string) (d : k8s.DeploymentInfo) (target : Z)
    (m : Model) : Model :=
  set_confirmReplicas target
    (set_confirmResource (k8s.deployment_Name d)
       (set_confirmAction action (set_showConfirmDialog true m))).

(** The message gets past the overlays and the key switch, to the focused
    list: a key with no case of its own in normal mode, or a message of a
    type the switch does not name. *)
Definition reaches_widgets (m : Model) (msg : Msg) : bool :=
  match msg with
  | KeyMsg key =>
      negb (showConfirmDialog m) && negb (showHelp m) && negb (key_in key handled_keys)
  | libMsg _ => true
  | _ => false
  end.

(** The tail of [Update] when the focused list ends up on an item whose
    name is not the selected resource: the selection context and the
    active tab are assigned and [loads] are the first commands handed
    back. *)
Definition follows_selection (m : Model) (msg : Msg) (name kind : string)
    (tab : RightPaneTab) (loads : list Cmd) : Prop :=
  exists m' rest,
    Update m msg = Returns (m', Batch (loads ++ rest)%list)
    /\ activeTab m' = tab
    /\ selectedResource m' = name
    /\ selectedResourceType m' = kind.

(** The outcome of a confirmed action that fails with [text] on the status
    line: [performConfirmedAction] assigns the status line alone and hands
    back no command, and so does [y] or [Y] in the dialog, beside closing
    it. *)
Definition only_reports (m : Model) (text : string) : Prop :=
  performConfirmedAction m = (set_statusMessage text m, nilCmd)
  /\ (showConfirmDialog m = true ->
      forall key, key_in key ["y"; "Y"] = true ->
        Update m (KeyMsg key)
        = Returns (set_statusMessage text (set_showConfirmDialog false m), nilCmd)).

End Vocabulary.

(** Appending the ellipsis does not narrow the row, and trimming one byte
    narrows the row with its ellipsis by at most one column. *)
Definition narrows_by_one {G : Lipgloss} (str : string) : Prop :=
  lipgloss_Width str <= lipgloss_Width (str ++ "...")
  /\ forall n, (n < String.length str)%nat ->
       lipgloss_Width (substring 0 (S n) str ++ "...")
       <= lipgloss_Width (substring 0 n str ++ "...") + 1.

(** ** A reference terminal

    One concrete choice for each interface, to run the reducer on: a list
    whose cursor the arrow keys and [j]/[k] move one row and stop at the
    ends and which quits on [q] and [esc], a viewport that keeps its text,
    a cluster in which every call succeeds except on the resource named
    [locked], and a width function that counts bytes. *)

Module Ref.

Record list_state : Type := mkList {
  items : list Item;
  index : Z;
  cols : Z;
  rows : Z
}.

Definition list_move (msg : Msg) (l : list_state) : list_state * WidgetCmd :=
  match msg with
  | KeyMsg key =>
      if key_in key ["down"; "j"] then
        (if index l + 1 <? Z.of_nat (length (items l))
         then {| items := items l; index := index l + 1; cols := cols l; rows := rows l |}
         else l, widget_nil)
      else if key_in key ["up"; "k"] then
        (if 0 <? index l
         then {| items := items l; index := index l - 1; cols := cols l; rows := rows l |}
         else l, widget_nil)
      else if key_in key ["q"; "esc"] then (l, widget_Quit)
      else (l, widget_nil)
  | _ => (l, widget_nil)
  end.

Definition list_lib : ListLib.
Proof.
  refine
    {| list_Model := list_state;
       list_New := {| items := []; index := 0; cols := 0; rows := 0 |};
       list_Items := items;
       list_Index := index;
       list_Width := cols;
       list_Height := rows;
       list_SetItems := fun its l =>
         {| items := its; index := index l; cols := cols l; rows := rows l |};
       list_SetSize := fun w h l =>
         {| items := items l; index := index l; cols := w; rows := h |};
       list_Update := list_move;
       list_View := fun _ => "" |}; try reflexivity.
  intros msg l. unfold list_move.
  destruct msg; try reflexivity.
  repeat match goal with |- context [if ?b then _ else _] => destruct b end; reflexivity.
Defined.

(** A pane of the reference list, 20 columns by 3 rows. *)
Definition pane (its : list Item) (i : Z) : @list_Model list_lib :=
  {| items := its; index := i; cols := 20; rows := 3 |}.

Record viewport_state : Type := mkViewport {
  vp_Width : Z;
  vp_Height : Z;
  vp_fast : bool;
  vp_text : string;
  vp_bottom : bool
}.

Definition viewport_lib : ViewportLib :=
  {| viewport_Model := viewport_state;
     viewport_zero :=
       {| vp_Width := 0; vp_Height := 0; vp_fast := false; vp_text := ""; vp_bottom := false |};
     viewport_New := fun w h =>
       {| vp_Width := w; vp_Height := h; vp_fast := false; vp_text := ""; vp_bottom := false |};
     HighPerformanceRendering := vp_fast;
     viewport_set_Width := fun w v =>
       {| vp_Width := w; vp_Height := vp_Height v; vp_fast := vp_fast v;
          vp_text := vp_text v; vp_bottom := vp_bottom v |};
     viewport_set_Height := fun h v =>
       {| vp_Width := vp_Width v; vp_Height := h; vp_fast := vp_fast v;
          vp_text := vp_text v; vp_bottom := vp_bottom v |};
     viewport_SetContent := fun s v =>
       {| vp_Width := vp_Width v; vp_Height := vp_Height v; vp_fast := vp_fast v;
          vp_text := s; vp_bottom := vp_bottom v |};
     viewport_GotoBottom := fun v =>
       {| vp_Width := vp_Width v; vp_Height := vp_Height v; vp_fast := vp_fast v;
          vp_text := vp_text v; vp_bottom := true |};
     viewport_GotoTop := fun v =>
       {| vp_Width := vp_Width v; vp_Height := vp_Height v; vp_fast := vp_fast v;
          vp_text := vp_text v; vp_bottom := false |};
     viewport_AtBottom := vp_bottom;
     viewport_Update := fun _ v => (v, widget_nil);
     viewport_View := vp_text |}.

Definition refuse (name : string) : error :=
  if String.eqb name "locked" then Some "forbidden" else None.

Definition cluster : k8s.Cluster :=
  {| k8s.pods_Delete := fun _ name => refuse name;
     k8s.deployments_Delete := fun _ name => refuse name;
     k8s.deployments_Get := fun _ _ => None;
     k8s.deployments_Update := fun _ name _ => refuse name;
     k8s.cmd_Start := fun _ _ _ _ => inl 1%nat;
     k8s.ListNamespaces := fun _ => (["default"; "kube-system"], None);
     k8s.ListDeployments := fun _ => ([], None);
     k8s.ListPods := fun _ => ([], None);
     k8s.ListServices := fun _ => ([], None);
     k8s.GetPodLogs := fun _ _ _ => ("", None);
     k8s.GetPodMetrics := fun _ _ => (None, Some "metrics client not available");
     k8s.GetPodEnvVars := fun _ _ => (None, None);
     k8s.GetPodYAML := fun _ _ => ("", None);
     k8s.GetDeploymentYAML := fun _ _ => ("", None);
     k8s.GetServiceYAML := fun _ _ => ("", None) |}.

Definition byte_width (s : string) : Z := Z.of_nat (String.length s).

Definition lipgloss : Lipgloss :=
  {| lipgloss_Width := byte_width;
     Render_selected := fun s => s;
     lipgloss_Width_printable := fun s _ => eq_refl |}.

(** Another width function: a byte outside printable ASCII takes two
    cells. *)
Fixpoint cell_width (s : string) : Z :=
  match s with
  | EmptyString => 0
  | String a s' => (if printable_byte a then 1 else 2) + cell_width s'
  end.

Definition wide_lipgloss : Lipgloss.
Proof.
  refine {| lipgloss_Width := cell_width; Render_selected := fun s => s |}.
  induction s as [| a s IH]; intros Hs; [reflexivity |].
  apply andb_prop in Hs as [Ha Hs].
  change (String.length (String a s)) with (S (String.length s)).
  rewrite Nat2Z.inj_succ, <- (IH Hs). simpl. rewrite Ha. lia.
Defined.

(** The state after start-up with a working manager, on which the
    examples below are built. *)
Definition connected : Model (L := list_lib) (V := viewport_lib) :=
  NewModel (Some {| k8s.namespace := "default" |}) None (Some tt).

(** The state after start-up when the manager could not be built. *)
Definition disconnected : Model (L := list_lib) (V := viewport_lib) :=
  NewModel None (Some "failed to build config") (Some tt).

Definition deployment (name : string) (replicas : Z) : k8s.DeploymentInfo :=
  {| k8s.deployment_Name := name; k8s.deployment_Namespace := "default";
     k8s.deployment_Ready := fmt_d replicas ++ "/" ++ fmt_d replicas;
     k8s.UpToDate := replicas; k8s.Available := replicas; k8s.Replicas := replicas |}.

Definition pod (name : string) : k8s.PodInfo :=
  {| k8s.pod_Name := name; k8s.pod_Namespace := "default"; k8s.pod_Status := "Running";
     k8s.pod_Ready := "1/1"; k8s.pod_Restarts := 0; k8s.pod_Age := "" |}.

Definition service (name : string) : k8s.ServiceInfo :=
  {| k8s.service_Name := name; k8s.service_Namespace := "default";
     k8s.service_Type := "ClusterIP"; k8s.ClusterIP := "10.0.0.1"; k8s.ExternalIP := "";
     k8s.Ports := "80/TCP" |}.

End Ref.

(** ** internal/k8s: what manager.go computes from the API objects

    The fields of the client-go objects the methods read, and the
    conversions the methods run on what the cluster answered. *)

Module manager.

Record ContainerStatus : Type := mkContainerStatus {
  Ready : bool;
  RestartCount : Z
}.

(** The loop of [getPodReadyStatus]. *)
Definition readyContainers (statuses : list ContainerStatus) : Z :=
  fold_left (fun n status => if Ready status then int_add n 1 else n) statuses 0.

Definition getPodReadyStatus (statuses : list ContainerStatus) : string :=
  let totalContainers := Z.of_nat (length statuses) in
  fmt_d (readyContainers statuses) ++ "/" ++ fmt_d totalContainers.

Definition getPodRestarts (statuses : list ContainerStatus) : Z :=
  fold_left (fun restarts status => int32_add restarts (RestartCount status)) statuses 0.

Record ServicePort : Type := mkServicePort {
  Port : Z;
  Protocol : string
}.

Record LoadBalancerIngress : Type := mkIngress {
  IP : string;
  Hostname : string
}.

Record Service : Type := mkService {
  Name : string;
  Namespace : string;
  Type_ : string;
  ClusterIP : string;
  Ports : list ServicePort;
  ExternalIPs : list string;
  Ingress : list LoadBalancerIngress
}.

(** The loop of [ListServices] that builds the ports string: [i] is the
    index of the range, [ports] what is built so far. *)
Fixpoint ports_loop (i : Z) (ports : string) (rest : list ServicePort) : string :=
  match rest with
  | [] => ports
  | port :: rest' =>
      let ports := if 0 <? i then ports ++ "," else ports in
      let ports := ports ++ fmt_d (Port port) ++ "/" ++ Protocol port in
      ports_loop (int_add i 1) ports rest'
  end.

Definition externalIP (svc : Service) : string :=
  match Ingress svc with
  | first :: _ =>
      if negb (String.eqb (IP first) "") then IP first
      else if negb (String.eqb (Hostname first) "") then Hostname first
      else "<none>"
  | [] =>
      match ExternalIPs svc with
      | ip :: _ => ip
      | [] => "<none>"
      end
  end.

Definition serviceInfo (svc : Service) : k8s.ServiceInfo :=
  {| k8s.service_Name := Name svc;
     k8s.service_Namespace := Namespace svc;
     k8s.service_Type := Type_ svc;
     k8s.ClusterIP := ClusterIP svc;
     k8s.ExternalIP := externalIP svc;
     k8s.Ports := ports_loop 0 "" (Ports svc) |}.

(** [ListServices] on what the list call of the cluster answered. *)
Definition ListServices (answer : list Service + string)
    : list k8s.ServiceInfo * error :=
  match answer with
  | inr e => ([], Some ("failed to list services: " ++ e))
  | inl services => (map serviceInfo services, None)
  end.

(** [NewManager] on the outcome of its two fallible steps, building the
    configuration from the kubeconfig file and creating the clientset. A
    metrics client that cannot be created is not an error. *)
Definition NewManager (kubeconfig : string) (BuildConfigFromFlags NewForConfig : error)
    : option k8s.Manager * error :=
  match BuildConfigFromFlags with
  | Some e => (None, Some ("failed to build config from " ++ kubeconfig ++ ": " ++ e))
  | None =>
      match NewForConfig with
      | Some e => (None, Some ("failed to create clientset: " ++ e))
      | None => (Some {| k8s.namespace := "default" |}, None)
      end
  end.

End manager.

(** ** internal/ui: the frame of a list pane and the line count of a log *)

(** [strings.Repeat]: a negative count panics. *)
Definition strings_Repeat (s : string) (count : Z) : Outcome string :=
  if count <? 0 then Panics else Returns (Repeat_nat s (Z.to_nat count)).

(** [strings.Split] by a separator of one byte. *)
Fixpoint strings_Split (s : string) (sep : ascii) : list string :=
  match s with
  | EmptyString => [""]
  | String a s' =>
      if Ascii.eqb a sep then "" :: strings_Split s' sep
      else
        match strings_Split s' sep with
        | [] => [String a ""]
        | line :: lines => String a line :: lines
        end
  end.

Definition newline : ascii := ascii_of_nat 10.

(** [lipgloss.NewStyle().Foreground(lipgloss.Color(c)).Render(s)]: the
    text in the colour [c]. *)
Class Style : Type := {
  Foreground_Render : string -> string -> string
}.

Section Frame.
Context {L : ListLib} {V : ViewportLib} {G : Lipgloss} {S : Style}.

(** One row of the list between the side borders, padded to [width]. *)
Definition bordered_line (width : Z) (leftBorder rightBorder line : string)
    : Outcome string :=
  let lineWidth := lipgloss_Width line in
  let padding := int_sub (int_sub width lineWidth) 2 in
  let padding := if padding <? 0 then 0 else padding in
  match strings_Repeat " " padding with
  | Panics => Panics
  | Returns pad => Returns (leftBorder ++ line ++ pad ++ rightBorder)
  end.

(** The loop of [renderSection] over the lines of the list, cut at
    [maxLines]. *)
Fixpoint bordered_lines (width : Z) (leftBorder rightBorder : string)
    (lines : list string) : Outcome (list string) :=
  match lines with
  | [] => Returns []
  | line :: lines' =>
      match bordered_line width leftBorder rightBorder line with
      | Panics => Panics
      | Returns b =>
          match bordered_lines width leftBorder rightBorder lines' with
          | Panics => Panics
          | Returns bs => Returns (b :: bs)
          end
      end
  end.

(** [borderedLines] of [renderSection]: the top border with the title,
    the rows, the bottom border. *)
Definition sectionLines (m : Model) (sectionList : list_Model) (title : string)
    (isFocused : bool) : Outcome (list string) :=
  let borderColor := if isFocused then "6" else "240" in
  let listContent := list_View sectionList in
  let width := int_sub (int_div (width m) 3) 2 in
  let titleLen := Z.of_nat (String.length title) in
  let leftPad := 2 in
  let rightPad := int_sub (int_sub (int_sub width leftPad) titleLen) 4 in
  let rightPad := if rightPad <? 2 then 2 else rightPad in
  match strings_Repeat "─" leftPad, strings_Repeat "─" rightPad with
  | Returns dashes, Returns dashes' =>
      let topBorder :=
        Foreground_Render borderColor
          ("╭" ++ dashes ++ " " ++ title ++ " " ++ dashes' ++ "╮") in
      let lines := strings_Split listContent newline in
      let leftBorder := Foreground_Render borderColor "│" in
      let rightBorder := Foreground_Render borderColor "│" in
      let maxLines := list_Height sectionList in
      match bordered_lines width leftBorder rightBorder (take (Z.to_nat maxLines) lines) with
      | Panics => Panics
      | Returns rows =>
          match strings_Repeat "─" (int_sub width 2) with
          | Panics => Panics
          | Returns bottom =>
              let bottomBorder := Foreground_Render borderColor ("╰" ++ bottom ++ "╯") in
              Returns ([topBorder] ++ rows ++ [bottomBorder])%list
          end
      end
  | _, _ => Panics
  end.

Definition renderSection (m : Model) (sectionList : list_Model) (title : string)
    (isFocused : bool) : Outcome string :=
  match sectionLines m sectionList title isFocused with
  | Panics => Panics
  | Returns borderedLines => Returns (String.concat nl borderedLines)
  end.

End Frame.

(** ** Model.View: the screen

    [lipgloss] styles are kept as the settings the code chains on
    [NewStyle()]; what a style renders, and how blocks are joined and
    placed, is the library's. *)

Inductive Position : Type := pos_Top | pos_Left | pos_Center.

Inductive StyleProp : Type :=
  | style_Bold
  | style_Foreground (color : string)
  | style_Padding (sides : list Z)
  | style_Width (w : Z)
  | style_Height (h : Z)
  | style_MaxHeight (h : Z)
  | style_Border_Rounded
  | style_BorderForeground (color : string)
  | style_Align (p : Position).

Class Canvas : Type := {
  style_Render : list StyleProp -> string -> string;
  JoinVertical : Position -> list string -> string;
  JoinHorizontal : Position -> list string -> string;
  Place : Z -> Z -> Position -> Position -> string -> string
}.

(** The slice expression [s[:n]]: out of range it panics. *)
Definition slice_to (s : string) (n : Z) : Outcome string :=
  if (n <? 0) || (Z.of_nat (String.length s) <? n) then Panics
  else Returns (substring 0 (Z.to_nat n) s).

Definition RightPaneTab_eqb (a b : RightPaneTab) : bool :=
  match a, b with
  | LogsTab, LogsTab | StatsTab, StatsTab | EnvTab, EnvTab
  | ConfigTab, ConfigTab | TopTab, TopTab | ExecTab, ExecTab => true
  | _, _ => false
  end.

Definition helpContent : string :=
  "LAZYSTACK - KEYBOARD SHORTCUTS

NAVIGATION
  tab / shift+tab    Cycle through sections
  1-4                Jump to section (1:Namespaces 2:Deployments 3:Pods 4:Services)
  j / down           Move down in list
  k / up             Move up in list

TABS (Right Panel)
  l                  Logs tab
  s                  Stats tab (resource metrics)
  e                  Environment variables tab
  c                  Config tab (YAML view)
  t                  Top tab (coming soon)
  x                  Exec tab (coming soon)

ACTIONS
  +                  Scale deployment up (increase replicas)
  -                  Scale deployment down (decrease replicas)
  p                  Start port-forward (pod → localhost:8080)
  P                  Stop all port-forwards
  d                  Delete selected resource (pod/deployment)
  r                  Refresh current view

GENERAL
  ?                  Toggle this help screen
  q / ctrl+c         Quit application
  esc                Close dialog/help

Press ? or q to close this help screen".

Definition helpText : string :=
  "?: help • tab/shift-tab: cycle • 1-4: jump • l: logs • s: stats • e: env • c: config • +/-: scale • p: port-fwd • P: stop • d: delete • r: refresh • q: quit".

Section Screen.
Context {L : ListLib} {V : ViewportLib} {G : Lipgloss} {S : Style} {K : Canvas}.

(** The help screen; the base view it is given is not used. *)
Definition overlayHelp (m : Model) (baseView : string) : string :=
  let helpBox :=
    [style_Border_Rounded; style_BorderForeground "6"; style_Padding [1; 2];
     style_Width 70; style_Align pos_Left] in
  let help := style_Render helpBox helpContent in
  let helpWithPadding := Place (width m) (height m) pos_Center pos_Center help in
  helpWithPadding.

(** The confirmation dialog; the base view it is given is not used. *)
Definition overlayConfirmDialog (m : Model) (baseView : string) : string :=
  let message :=
    if String.eqb (confirmAction m) "delete-pod"
    then "Delete pod '" ++ confirmResource m ++ "'?"
    else if String.eqb (confirmAction m) "delete-deployment"
    then "Delete deployment '" ++ confirmResource m ++ "'?"
    else if String.eqb (confirmAction m) "scale-up"
    then "Scale '" ++ confirmResource m ++ "' to " ++ fmt_d (confirmReplicas m) ++ " replicas?"
    else if String.eqb (confirmAction m) "scale-down"
    then "Scale '" ++ confirmResource m ++ "' to " ++ fmt_d (confirmReplicas m) ++ " replicas?"
    else "Confirm action on '" ++ confirmResource m ++ "'?" in
  let scales :=
    String.eqb (confirmAction m) "scale-up" || String.eqb (confirmAction m) "scale-down" in
  let borderColor := if scales then "3" else "1" in
  let textColor := if scales then "3" else "1" in
  let dialogBox :=
    [style_Border_Rounded; style_BorderForeground borderColor; style_Padding [1; 2];
     style_Width 50; style_Align pos_Center] in
  let messageStyle := [style_Bold; style_Foreground textColor; style_Align pos_Center] in
  let promptStyle := [style_Foreground "241"; style_Align pos_Center] in
  let dialogContent :=
    JoinVertical pos_Center
      [style_Render messageStyle message; ""; style_Render promptStyle "[Y] Yes  [N] No"] in
  let dialog := style_Render dialogBox dialogContent in
  let dialogWithPadding := Place (width m) (height m) pos_Center pos_Center dialog in
  dialogWithPadding.

Definition renderRightPane (m : Model) : string :=
  let tabStyle := [style_Padding [0; 1]] in
  let activeTabStyle := [style_Bold; style_Foreground "6"; style_Padding [0; 1]] in
  let tabs :=
    [(LogsTab, "Logs"); (StatsTab, "Stats"); (EnvTab, "Env"); (ConfigTab, "Config");
     (TopTab, "Top"); (ExecTab, "Exec")] in
  let tabHeaders :=
    map (fun '(i, tab) =>
           if RightPaneTab_eqb i (activeTab m) then style_Render activeTabStyle tab
           else style_Render tabStyle tab) tabs in
  let header := JoinHorizontal pos_Top tabHeaders in
  let content :=
    match activeTab m with
    | LogsTab =>
        if negb (String.eqb (selectedResource m) "") then viewport_View (logsViewport m)
        else "Select a pod to view logs"
    | StatsTab => viewport_View (statsViewport m)
    | EnvTab =>
        if negb (String.eqb (selectedResource m) "") then viewport_View (envViewport m)
        else "Select a pod to view environment variables"
    | ConfigTab =>
        if negb (String.eqb (selectedResource m) "") then viewport_View (configViewport m)
        else "Select a resource to view YAML configuration"
    | TopTab => "Top/Resource usage (coming soon)"
    | ExecTab => renderExec m
    end in
  JoinVertical pos_Left [header; ""; content].

(** The four frames of the left pane, rendered in turn. *)
Fixpoint renderSections (m : Model) (sections : list (list_Model * string * bool))
    : Outcome (list string) :=
  match sections with
  | [] => Returns []
  | (sectionList, title, isFocused) :: sections' =>
      match renderSection m sectionList title isFocused with
      | Panics => Panics
      | Returns frame =>
          match renderSections m sections' with
          | Panics => Panics
          | Returns frames => Returns (frame :: frames)
          end
      end
  end.

Definition View (m : Model) : Outcome string :=
  if negb (ready m) then Returns "Initializing lazystack..."
  else
    let leftPaneWidth := int_div (width m) 3 in
    let rightPaneWidth := int_sub (int_sub (width m) leftPaneWidth) 4 in
    match
      renderSections m
        [(namespacesList m, "[1] Namespaces", activeCategory m =? NamespacesCategory);
         (deploymentsList m, "[2] Deployments", activeCategory m =? DeploymentsCategory);
         (podsList m, "[3] Pods", activeCategory m =? PodsCategory);
         (servicesList m, "[4] Services", activeCategory m =? ServicesCategory)]
    with
    | Panics => Panics
    | Returns leftPaneSections =>
        let leftPaneContent := JoinVertical pos_Left leftPaneSections in
        let leftPaneStyle :=
          [style_Width leftPaneWidth; style_MaxHeight (int_sub (height m) 6)] in
        let leftPane := style_Render leftPaneStyle leftPaneContent in
        let rightPaneStyle :=
          [style_Border_Rounded; style_BorderForeground "240"; style_Width rightPaneWidth;
           style_Height (int_sub (height m) 6); style_Padding [1]] in
        let rightContent := renderRightPane m in
        let rightPane := style_Render rightPaneStyle rightContent in
        let mainView := JoinHorizontal pos_Top [leftPane; " "; rightPane] in
        let titleStyle := [style_Foreground "6"; style_Bold; style_Padding [0; 1]] in
        let title := style_Render titleStyle "lazystack - Kubernetes TUI" in
        let statusStyle := [style_Foreground "6"; style_Bold; style_Padding [0; 1]] in
        let status :=
          style_Render statusStyle
            ("Namespace: " ++ currentNamespace m ++ " | " ++ statusMessage m) in
        let helpStyle := [style_Foreground "241"; style_Padding [0; 1]] in
        let maxHelpWidth := int_sub (width m) 4 in
        match
          if maxHelpWidth <? Z.of_nat (String.length helpText)
          then
            match slice_to helpText (int_sub maxHelpWidth 3) with
            | Panics => Panics
            | Returns cut => Returns (cut ++ "...")
            end
          else Returns helpText
        with
        | Panics => Panics
        | Returns helpText =>
            let help := style_Render helpStyle helpText in
            let baseView := JoinVertical pos_Left [title; mainView; status; help] in
            if showHelp m then Returns (overlayHelp m baseView)
            else if showConfirmDialog m then Returns (overlayConfirmDialog m baseView)
            else Returns baseView
        end
    end.

End Screen.

(** [LogViewer.LineCount]. *)
Definition LineCount {V : ViewportLib} (lv : logviewer.LogViewer) : Z :=
  Z.of_nat (length (strings_Split (logviewer.content lv) newline)).

(** ** Vocabulary of the further properties *)

(** The methods of the log viewer that are not given a text. *)
Inductive viewer_op : Type :=
  | op_SetSize (width height : Z)
  | op_ToggleAutoScroll
  | op_Update (msg : Msg)
  | op_GotoTop
  | op_GotoBottom.

Definition run_viewer_op {V : ViewportLib} (lv : logviewer.LogViewer) (op : viewer_op)
    : logviewer.LogViewer :=
  match op with
  | op_SetSize width height => logviewer.SetSize lv width height
  | op_ToggleAutoScroll => logviewer.ToggleAutoScroll lv
  | op_Update msg => fst (logviewer.Update lv msg)
  | op_GotoTop => logviewer.GotoTop lv
  | op_GotoBottom => logviewer.GotoBottom lv
  end.

(** The sum of the restart counts. *)
Definition restarts_sum (statuses : list manager.ContainerStatus) : Z :=
  fold_right (fun status sum => manager.RestartCount status + sum) 0 statuses.

(** One port as [ListServices] prints it. *)
Definition port_text (port : manager.ServicePort) : string :=
  fmt_d (manager.Port port) ++ "/" ++ manager.Protocol port.

(** A percentage as [createBar] clamps it. *)
Definition clamp_percent (percent : Z) : Z := Z.max 0 (Z.min 100 percent).

Section FurtherVocabulary.
Context {L : ListLib} {V : ViewportLib} {C : k8s.Cluster}.

(** The next key press, on the state the last one returned. *)
Definition press (r : Outcome (Model * Cmd)) (key : string) : Outcome (Model * Cmd) :=
  match r with
  | Returns (m, _) => Update m (KeyMsg key)
  | Panics => Panics
  end.

(** No overlay shows. *)
Definition normal_mode (m : Model) : Prop :=
  showConfirmDialog m = false /\ showHelp m = false.

(** Each pane lists the items of the data loaded last. *)
Definition panes_in_step (m : Model) : Prop :=
  list_Items (namespacesList m) = map namespaceItem (namespaces m)
  /\ list_Items (deploymentsList m) = map deploymentItem (deployments m)
  /\ list_Items (podsList m) = map podItem (pods m)
  /\ list_Items (servicesList m) = map serviceItem (services m).

(** The manager works in the namespace the status bar shows. *)
Definition namespace_in_step (m : Model) : Prop :=
  exists mgr, k8sManager m = Some mgr /\ k8s.namespace mgr = currentNamespace m.

(** What one step keeps, from [m] to [m']: the focus on a pane, the panes
    in step with the data, the manager in step with the namespace shown,
    and a nil manager nil. *)
Definition keeps (m m' : Model) : Prop :=
  (0 <= activeCategory m <= 3 -> 0 <= activeCategory m' <= 3)
  /\ (panes_in_step m -> panes_in_step m')
  /\ (namespace_in_step m -> namespace_in_step m')
  /\ (k8sManager m = None <-> k8sManager m' = None).

(** The program after the input [msg]; a panic ends the run where it
    stood. *)
Definition run_input (p : Program) (msg : Msg) : Program :=
  match deliver p msg (pending p) with
  | Returns p' => p'
  | Panics => p
  end.

(** The program after its first pending command has come due. *)
Definition run_first (p : Program) : Program :=
  match pending p with
  | c :: rest =>
      match runCmd (k8sManager (model p)) c with
      | Some msg =>
          match deliver p msg rest with
          | Returns p' => p'
          | Panics => p
          end
      | None => p
      end
  | [] => p
  end.

End FurtherVocabulary.

(** ** States of the reference terminal *)

(** The dialog asks whether to delete the pod [web-7f9c]. *)
Definition asking : Model (L := Ref.list_lib) (V := Ref.viewport_lib) :=
  set_confirmResource "web-7f9c"
    (set_confirmAction "delete-pod" (set_showConfirmDialog true Ref.connected)).

(** The dialog asks whether to delete the pod [locked], which the
    reference cluster refuses. *)
Definition asking_locked : Model (L := Ref.list_lib) (V := Ref.viewport_lib) :=
  set_confirmResource "locked" asking.

(** The Deployments pane is focused and the Pods pane has the pod
    [web-7f9c] selected. *)
Definition on_deployments : Model (L := Ref.list_lib) (V := Ref.viewport_lib) :=
  set_activeCategory DeploymentsCategory
    (set_podsList (Ref.pane [podItem (Ref.pod "web-7f9c")] 0) Ref.connected).

(** The Deployments pane is focused on one deployment, of the given
    replica count. *)
Definition scaling (replicas : Z) : Model (L := Ref.list_lib) (V := Ref.viewport_lib) :=
  set_activeCategory DeploymentsCategory
    (set_deploymentsList (Ref.pane [deploymentItem (Ref.deployment "api" replicas)] 0)
       Ref.connected).

(** The Pods pane is focused on [web-1], above [web-2], and the user has
    switched to the Stats tab. *)
Definition on_stats : Model (L := Ref.list_lib) (V := Ref.viewport_lib) :=
  set_activeTab StatsTab
    (set_selectedResourceType "pod"
       (set_selectedResource "web-1"
          (set_activeCategory PodsCategory
             (set_podsList
                (Ref.pane [podItem (Ref.pod "web-1"); podItem (Ref.pod "web-2")] 0)
                Ref.connected)))).

(** A reload under the cursor: the pod [web-2] is loaded, selected with
    [3] and its Stats tab opened with [s]; then the pods arrive again with
    [web-1] in front, which leaves the cursor, on the first row, on
    [web-1] and the selected resource [web-2]. *)
Definition reloaded : Program :=
  run_input (C := Ref.cluster)
    (run_input (C := Ref.cluster)
       (run_input (C := Ref.cluster)
          (run_input (C := Ref.cluster) (start Ref.connected)
             (podsLoadedMsg [Ref.pod "web-2"] None))
          (KeyMsg "3"))
       (KeyMsg "s"))
    (podsLoadedMsg [Ref.pod "web-1"; Ref.pod "web-2"] None).

(** A style that leaves the text as it is. *)
Definition plain_style : Style := {| Foreground_Render := fun _ text => text |}.

(** A canvas that joins the blocks line by line and draws no style. *)
Definition plain_canvas : Canvas :=
  {| style_Render := fun _ text => text;
     JoinVertical := fun _ blocks => String.concat nl blocks;
     JoinHorizontal := fun _ blocks => String.concat "" blocks;
     Place := fun _ _ _ _ text => text |}.

(** The terminal is [columns] wide. *)
Definition resized (columns : Z) : Model (L := Ref.list_lib) (V := Ref.viewport_lib) :=
  set_width columns Ref.connected.

(** The help screen is open. *)
Definition helped : Program :=
  run_input (C := Ref.cluster) (start Ref.connected) (KeyMsg "?").

(** The namespaces have been loaded. *)
Definition loaded : Program := run_first (C := Ref.cluster) (start Ref.connected).

(** The cursor of the namespaces pane has moved down, to [kube-system]. *)
Definition switched : Program := run_input (C := Ref.cluster) loaded (KeyMsg "down").

(** * Properties *)

(** ** Keys *)

Lemma key_in_true (key : string) (alternatives : list string) :
  key_in key alternatives = true <-> In key alternatives.
Proof.
  unfold key_in. rewrite existsb_exists. split.
  - intros (k & Hin & Heq). apply String.eqb_eq in Heq. now subst.
  - intros Hin. exists key. split; [assumption | apply String.eqb_refl].
Qed.

Lemma key_in_false (key : string) (alternatives : list string) :
  key_in key alternatives = false <-> ~ In key alternatives.
Proof.
  rewrite <- key_in_true. destruct (key_in key alternatives); split; intros; congruence.
Qed.

Lemma key_in_app (key : string) (l1 l2 : list string) :
  key_in key (l1 ++ l2)%list = key_in key l1 || key_in key l2.
Proof. apply existsb_app. Qed.

(** Case analysis on what the code branches on. *)
Ltac branch :=
  match goal with
  | |- context [match ?x with _ => _ end] => destruct x eqn:?
  | H : context [match ?x with _ => _ end] |- _ => destruct x eqn:?
  end.

Ltac branches := repeat (branch; simpl in *; try congruence; try discriminate).

Section Dialogs.
Context {L : ListLib} {V : ViewportLib} {C : k8s.Cluster}.

Lemma performConfirmedAction_dialog (m : Model) :
  showConfirmDialog (fst (performConfirmedAction m)) = showConfirmDialog m
  /\ showHelp (fst (performConfirmedAction m)) = showHelp m.
Proof. unfold performConfirmedAction. branches; auto. Qed.

(** What [performConfirmedAction] does for each pending action. *)
Lemma performConfirmedAction_cases (m : Model) :
  (forall mgr, k8sManager m = Some mgr ->
     (confirmAction m = "delete-pod" ->
      performConfirmedAction m
      = match k8s.DeletePod mgr (confirmResource m) with
        | None => (set_statusMessage ("Deleted pod: " ++ confirmResource m) m, LoadPods)
        | Some e => (set_statusMessage ("Error deleting pod: " ++ e) m, nilCmd)
        end)
     /\ (confirmAction m = "delete-deployment" ->
         performConfirmedAction m
         = match k8s.DeleteDeployment mgr (confirmResource m) with
           | None =>
               (set_statusMessage ("Deleted deployment: " ++ confirmResource m) m,
                LoadDeployments)
           | Some e => (set_statusMessage ("Error deleting deployment: " ++ e) m, nilCmd)
           end)
     /\ (key_in (confirmAction m) ["scale-up"; "scale-down"] = true ->
         performConfirmedAction m
         = match k8s.ScaleDeployment mgr (confirmResource m) (confirmReplicas m) with
           | None =>
               (set_statusMessage
                  ("Scaled " ++ confirmResource m ++ " to " ++ fmt_d (confirmReplicas m)
                     ++ " replicas") m, LoadDeployments)
           | Some e => (set_statusMessage ("Error scaling: " ++ e) m, nilCmd)
           end))
  /\ (k8sManager m = None ->
      key_in (confirmAction m) pending_actions = true ->
      performConfirmedAction m
      = (set_statusMessage "Error: k8s manager not initialized" m, nilCmd))
  /\ (key_in (confirmAction m) pending_actions = false ->
      performConfirmedAction m = (set_statusMessage "Unknown action" m, nilCmd)).
Proof.
  assert (key_in (confirmAction m) ["scale-up"; "scale-down"] = true ->
          String.eqb (confirmAction m) "delete-pod" = false
          /\ String.eqb (confirmAction m) "delete-deployment" = false) as Hscales.
  { intros Haction. apply key_in_true in Haction. simpl in Haction.
    destruct Haction as [<- | [<- | []]]; split; reflexivity. }
  unfold performConfirmedAction. split; [| split].
  - intros mgr Hmgr. rewrite Hmgr. split; [| split]; intros Haction.
    + rewrite Haction, String.eqb_refl.
      destruct (k8s.DeletePod mgr (confirmResource m)); reflexivity.
    + rewrite Haction.
      change (String.eqb "delete-deployment" "delete-pod") with false.
      rewrite String.eqb_refl.
      destruct (k8s.DeleteDeployment mgr (confirmResource m)); reflexivity.
    + destruct (Hscales Haction) as [-> ->]. rewrite Haction.
      destruct (k8s.ScaleDeployment mgr (confirmResource m) (confirmReplicas m));
        reflexivity.
  - intros Hmgr Haction. rewrite Hmgr. repeat branch; try reflexivity.
    apply key_in_true in Haction. unfold pending_actions in Haction. simpl in Haction.
    destruct Haction as [Ha | [Ha | [Ha | [Ha | []]]]]; rewrite <- Ha in *;
      simpl in *; discriminate.
  - intros Haction. apply key_in_false in Haction. unfold pending_actions in Haction.
    repeat branch; try reflexivity; exfalso; apply Haction; simpl;
      repeat match goal with
      | H : String.eqb _ _ = true |- _ => apply String.eqb_eq in H
      | H : key_in _ _ = true |- _ => apply key_in_true in H; simpl in H
      end; intuition.
Qed.

Lemma Update_list_dialog (m : Model) (msg : Msg) (m' : Model) (cmds : list Cmd) (cmd : Cmd) :
  Update_list m msg = Returns (m', cmds, cmd) ->
  showConfirmDialog m' = showConfirmDialog m /\ showHelp m' = showHelp m.
Proof.
  unfold Update_list. intros Hu. branches;
    injection Hu as <- <- <-; simpl; auto.
Qed.

Lemma Update_viewport_dialog (m : Model) (msg : Msg) :
  showConfirmDialog (fst (Update_viewport m msg)) = showConfirmDialog m
  /\ showHelp (fst (Update_viewport m msg)) = showHelp m.
Proof. unfold Update_viewport. branches; auto. Qed.

Lemma Update_widgets_dialog (m : Model) (msg : Msg) (m' : Model) (c : Cmd) :
  Update_widgets m msg = Returns (m', c) ->
  showConfirmDialog m' = showConfirmDialog m /\ showHelp m' = showHelp m.
Proof.
  unfold Update_widgets. intros Hu.
  destruct (Update_list m msg) as [[[m1 cmds] cmd] |] eqn:Hl; [| discriminate].
  apply Update_list_dialog in Hl as [Hc Hh].
  pose proof (Update_viewport_dialog m1 msg) as [Hc' Hh'].
  destruct (Update_viewport m1 msg) as [m2 vcmds]. simpl in *.
  injection Hu as <- <-. split; congruence.
Qed.

Lemma Update_key_dialog (m : Model) (key : string) (m' : Model) (c : Cmd) :
  Update_key m key = Some (Returns (m', c)) ->
  showConfirmDialog m = false ->
  showConfirmDialog m' = true ->
  key_in key dialog_keys = true.
Proof.
  unfold Update_key, dialog_keys. intros Hu Hm Hm'.
  destruct (key_in key ["ctrl+c"; "q"]) eqn:K1; [injection Hu as <- <-; congruence |].
  repeat match type of Hu with
  | (if String.eqb key ?k then _ else _) = _ =>
      let E := fresh "E" in
      destruct (String.eqb key k) eqn:E;
      [ first
          [ apply String.eqb_eq in E; subst key; reflexivity
          | exfalso; revert Hu Hm Hm';
            unfold Update_enter, Update_port_forward, Update_stop_port_forwards;
            intros Hu Hm Hm'; branches;
            injection Hu as <- <-; simpl in *; congruence ]
      | ]
  | (if key_in key ?ks then _ else _) = _ =>
      let E := fresh "E" in
      destruct (key_in key ks) eqn:E;
      [ apply key_in_true; apply key_in_true in E; simpl in *; tauto | ]
  end.
  discriminate.
Qed.

End Dialogs.

Section ModalOverlay.
Context {L : ListLib} {V : ViewportLib} {C : k8s.Cluster}.

(** The two overlays exclude each other: no step of the reducer leaves
    both flags set when they were not both set before. *)
Lemma overlays_exclusive (m : Model) (msg : Msg) (m' : Model) (c : Cmd) :
  showConfirmDialog m && showHelp m = false ->
  Update m msg = Returns (m', c) ->
  showConfirmDialog m' && showHelp m' = false.
Proof.
  intros Hm Hu. destruct msg; simpl in Hu;
    try (injection Hu as <- <-;
         unfold Update_WindowSizeMsg, Update_namespacesLoadedMsg, Update_deploymentsLoadedMsg,
           Update_podsLoadedMsg, Update_servicesLoadedMsg, Update_podLogsLoadedMsg,
           Update_podMetricsLoadedMsg, Update_podEnvVarsLoadedMsg,
           Update_resourceYAMLLoadedMsg; branches; assumption).
  - destruct (showConfirmDialog m) eqn:Hc.
    + injection Hu as Hu. simpl in Hm.
      assert (showHelp m' = false) as ->; [| apply andb_false_r].
      pose proof (performConfirmedAction_dialog (set_showConfirmDialog false m)) as [_ Hh].
      unfold Update_confirm in Hu.
      destruct (key_in key ["y"; "Y"]); [rewrite Hu in Hh; simpl in Hh; congruence |].
      destruct (key_in key ["n"; "N"; "esc"; "q"]); injection Hu as <- <-; assumption.
    + destruct (showHelp m) eqn:Hh.
      * injection Hu as Hu. unfold Update_help in Hu.
        branches; inversion Hu; subst; simpl; rewrite ?Hc, ?andb_false_r; auto.
      * destruct (Update_key m key) as [r |] eqn:Hk.
        -- subst r. destruct (showConfirmDialog m') eqn:Hc'; [| reflexivity].
           simpl. revert Hk. unfold Update_key, Update_enter, Update_delete,
             Update_scale_up, Update_scale_down, Update_port_forward,
             Update_stop_port_forwards.
           intros Hk. branches; inversion Hk; subst; simpl in *; congruence.
        -- apply Update_widgets_dialog in Hu as [-> ->]. now rewrite Hc.
  - apply Update_widgets_dialog in Hu as [-> ->]. assumption.
Qed.

(** C1. Modal overlay protocol. While the confirmation dialog shows, [y]
    and [Y] close it and run the pending action: the manager is asked to
    delete the pod, to delete the deployment or to scale the deployment
    to the replicas the dialog holds, as [confirmAction] says, and its
    answer decides between the success line with the reload and the error
    line alone; without a manager, or for an action of another name, the
    status line says so and nothing is called. [n], [N], [esc] and [q]
    close it and cancel, and any other key leaves the state as it is and
    hands back no command. While the help screen shows, [?], [q] and [esc]
    close it and any other key leaves the state as it is. From a state
    with no dialog, whatever message makes [Update] raise the dialog is a
    press of the delete key or of a scale key. *)
Theorem modal_overlay_protocol (m : Model) :
  (showConfirmDialog m = true ->
   (forall key, key_in key ["y"; "Y"] = true ->
      Update m (KeyMsg key) = Returns (performConfirmedAction (set_showConfirmDialog false m))
      /\ showConfirmDialog (fst (performConfirmedAction (set_showConfirmDialog false m)))
         = false
      /\ (forall mgr, k8sManager m = Some mgr ->
          (confirmAction m = "delete-pod" ->
           Update m (KeyMsg key)
           = Returns
               match k8s.DeletePod mgr (confirmResource m) with
               | None =>
                   (set_statusMessage ("Deleted pod: " ++ confirmResource m)
                      (set_showConfirmDialog false m), LoadPods)
               | Some e =>
                   (set_statusMessage ("Error deleting pod: " ++ e)
                      (set_showConfirmDialog false m), nilCmd)
               end)
          /\ (confirmAction m = "delete-deployment" ->
              Update m (KeyMsg key)
              = Returns
                  match k8s.DeleteDeployment mgr (confirmResource m) with
                  | None =>
                      (set_statusMessage ("Deleted deployment: " ++ confirmResource m)
                         (set_showConfirmDialog false m), LoadDeployments)
                  | Some e =>
                      (set_statusMessage ("Error deleting deployment: " ++ e)
                         (set_showConfirmDialog false m), nilCmd)
                  end)
          /\ (key_in (confirmAction m) ["scale-up"; "scale-down"] = true ->
              Update m (KeyMsg key)
              = Returns
                  match k8s.ScaleDeployment mgr (confirmResource m) (confirmReplicas m) with
                  | None =>
                      (set_statusMessage
                         ("Scaled " ++ confirmResource m ++ " to "
                            ++ fmt_d (confirmReplicas m) ++ " replicas")
                         (set_showConfirmDialog false m), LoadDeployments)
                  | Some e =>
                      (set_statusMessage ("Error scaling: " ++ e)
                         (set_showConfirmDialog false m), nilCmd)
                  end))
      /\ (k8sManager m = None ->
          key_in (confirmAction m) pending_actions = true ->
          Update m (KeyMsg key)
          = Returns (set_statusMessage "Error: k8s manager not initialized"
                       (set_showConfirmDialog false m), nilCmd))
      /\ (key_in (confirmAction m) pending_actions = false ->
          Update m (KeyMsg key)
          = Returns (set_statusMessage "Unknown action" (set_showConfirmDialog false m),
                     nilCmd)))
   /\ (forall key, key_in key ["n"; "N"; "esc"; "q"] = true ->
      Update m (KeyMsg key)
      = Returns (set_statusMessage "Action cancelled" (set_showConfirmDialog false m), nilCmd))
   /\ (forall key, key_in key ["y"; "Y"; "n"; "N"; "esc"; "q"] = false ->
      Update m (KeyMsg key) = Returns (m, nilCmd)))
  /\ (showConfirmDialog m = false -> showHelp m = true ->
      (forall key, key_in key ["?"; "q"; "esc"] = true ->
         Update m (KeyMsg key) = Returns (set_showHelp false m, nilCmd))
      /\ (forall key, key_in key ["?"; "q"; "esc"] = false ->
         Update m (KeyMsg key) = Returns (m, nilCmd)))
  /\ (showConfirmDialog m = false ->
      forall msg m' c,
        Update m msg = Returns (m', c) ->
        showConfirmDialog m' = true ->
        showHelp m = false
        /\ exists key, msg = KeyMsg key /\ key_in key dialog_keys = true).
Proof.
  split; [| split].
  - intros Hc. split; [| split]; intros key Hk; simpl; rewrite Hc; unfold Update_confirm.
    + rewrite Hk.
      destruct (performConfirmedAction_cases (set_showConfirmDialog false m))
        as (Hcalls & Hnil & Hunknown).
      split; [reflexivity |]. split.
      { now destruct (performConfirmedAction_dialog (set_showConfirmDialog false m))
          as [-> _]. }
      split; [| split].
      * intros mgr Hmgr. destruct (Hcalls mgr Hmgr) as (Hpod & Hdeployment & Hscale).
        split; [| split]; intros Haction; f_equal.
        -- exact (Hpod Haction).
        -- exact (Hdeployment Haction).
        -- exact (Hscale Haction).
      * intros Hmgr Haction. f_equal. exact (Hnil Hmgr Haction).
      * intros Haction. f_equal. exact (Hunknown Haction).
    + assert (key_in key ["y"; "Y"] = false) as ->.
      { apply key_in_false. apply key_in_true in Hk. simpl in *.
        intros [<- | [<- | []]]; intuition discriminate. }
      now rewrite Hk.
    + change ["y"; "Y"; "n"; "N"; "esc"; "q"] with (["y"; "Y"] ++ ["n"; "N"; "esc"; "q"])%list
        in Hk.
      rewrite key_in_app in Hk. apply orb_false_elim in Hk as [-> ->]. reflexivity.
  - intros Hc Hh. split; intros key Hk; simpl; rewrite Hc, Hh; unfold Update_help;
      now rewrite Hk.
  - intros Hc msg m' c Hu Hc'.
    assert (forall m1, showConfirmDialog m1 = showConfirmDialog m -> m' = m1 -> False) as Hsame.
    { intros m1 H1 ->. congruence. }
    destruct msg; simpl in Hu;
      try (exfalso; injection Hu as <- <-; revert Hc';
           unfold Update_WindowSizeMsg, Update_namespacesLoadedMsg,
             Update_deploymentsLoadedMsg, Update_podsLoadedMsg, Update_servicesLoadedMsg,
             Update_podLogsLoadedMsg, Update_podMetricsLoadedMsg, Update_podEnvVarsLoadedMsg,
             Update_resourceYAMLLoadedMsg; branches; simpl; congruence).
    + rewrite Hc in Hu. destruct (showHelp m) eqn:Hh.
      * exfalso. injection Hu as Hu. unfold Update_help in Hu.
        branches; inversion Hu; subst; simpl in *; congruence.
      * split; [reflexivity |]. exists key. split; [reflexivity |].
        destruct (Update_key m key) as [r |] eqn:Hk.
        -- subst r. eapply Update_key_dialog; eassumption.
        -- apply Update_widgets_dialog in Hu as [Hu _]. congruence.
    + apply Update_widgets_dialog in Hu as [Hu _]. congruence.
Qed.

End ModalOverlay.

(** In [asking], [y] deletes the pod and reloads the pods, [esc] cancels,
    and [down] does nothing. *)
Lemma modal_overlay_protocol_witness :
  Update (C := Ref.cluster) asking (KeyMsg "y")
  = Returns (set_statusMessage "Deleted pod: web-7f9c" (set_showConfirmDialog false asking),
             LoadPods)
  /\ Update (C := Ref.cluster) asking (KeyMsg "esc")
     = Returns (set_statusMessage "Action cancelled" (set_showConfirmDialog false asking),
                nilCmd)
  /\ Update (C := Ref.cluster) asking (KeyMsg "down") = Returns (asking, nilCmd).
Proof.
  destruct (modal_overlay_protocol (C := Ref.cluster) asking) as [Hconfirm _].
  destruct (Hconfirm eq_refl) as (Hyes & Hno & Hother).
  split; [| split].
  - destruct (Hyes "y" eq_refl) as [-> _]. reflexivity.
  - apply Hno. reflexivity.
  - apply Hother. reflexivity.
Defined.

(** ** A manager that could not be built *)

Section NilManager.
Context {L : ListLib} {V : ViewportLib} {C : k8s.Cluster}.

Lemma SelectedItem_empty (l : list_Model) :
  list_Items l = [] -> list_SelectedItem l = None.
Proof.
  unfold list_SelectedItem. intros ->.
  destruct (list_Index l <? 0) eqn:Hneg; [reflexivity |].
  apply Z.ltb_ge in Hneg.
  destruct (Z.of_nat (length (@nil Item)) <=? list_Index l) eqn:Hpos; [reflexivity |].
  apply Z.leb_gt in Hpos. simpl in Hpos. lia.
Qed.

(** With a nil manager every load closure returns at once, with the
    error "k8s manager not initialized". *)
Lemma load_not_initialized (c : Cmd) :
  is_load c = true ->
  exists msg, runCmd None c = Some msg /\ is_result msg = true /\ err_of msg = not_initialized.
Proof. destruct c; try discriminate; intros _; eexists; repeat split. Qed.

Lemma deliverable_result (msg : Msg) :
  deliverable msg -> is_result msg = true -> exists e, err_of msg = Some e.
Proof.
  intros [Hin | [c Hc]] Hres.
  - destruct msg; discriminate.
  - destruct c; simpl in Hc; try discriminate; injection Hc as <-;
      try discriminate; eexists; reflexivity.
Qed.

Lemma NewModel_nil_manager (e : error) (sd : option systemd_Manager) :
  nil_manager (NewModel None e sd).
Proof. split; [reflexivity | apply list_Items_New]. Qed.

(** The branch returns, in a state that keeps the invariant. *)
Ltac returns_nil_manager :=
  simplify_eq /=; eexists _, _; (split; [reflexivity |]); split; simpl;
  rewrite ?list_Items_SetSize; assumption.

Lemma Update_widgets_nil_manager (m : Model) (msg : Msg) :
  nil_manager m ->
  exists m' c, Update_widgets m msg = Returns (m', c) /\ nil_manager m'.
Proof.
  intros [Hmgr Hitems]. unfold Update_widgets, Update_list.
  destruct (activeCategory m =? NamespacesCategory).
  - pose proof (list_Items_Update msg (namespacesList m)) as Hkeep.
    destruct (list_Update msg (namespacesList m)) as [l c]. simpl in Hkeep.
    rewrite Hitems in Hkeep. simpl. rewrite (SelectedItem_empty l Hkeep).
    unfold Update_viewport; simpl. branches; returns_nil_manager.
  - unfold Update_viewport. branches; returns_nil_manager.
Qed.

Lemma Update_nil_manager (m : Model) (msg : Msg) :
  nil_manager m -> deliverable msg ->
  exists m' c, Update m msg = Returns (m', c) /\ nil_manager m'.
Proof.
  intros Hm Hmsg. pose proof Hm as [Hmgr Hitems].
  destruct msg; simpl;
    try (destruct (deliverable_result _ Hmsg eq_refl) as [e' He]; simpl in He; subst;
         returns_nil_manager);
    try returns_nil_manager;
    try (apply Update_widgets_nil_manager; assumption).
  destruct (showConfirmDialog m).
  { unfold Update_confirm, performConfirmedAction. simpl. rewrite Hmgr.
    branches; returns_nil_manager. }
  destruct (showHelp m).
  { unfold Update_help. branches; returns_nil_manager. }
  destruct (Update_key m key) as [r |] eqn:Hk;
    [| apply Update_widgets_nil_manager; assumption].
  revert Hk. unfold Update_key, Update_enter, Update_delete, Update_scale_up,
    Update_scale_down, Update_port_forward, Update_stop_port_forwards.
  rewrite Hmgr, (SelectedItem_empty _ Hitems). simpl.
  intros Hk. branches; returns_nil_manager.
Qed.

Lemma reachable_nil_manager (e : error) (sd : option systemd_Manager) (p : Program) :
  reachable (start (NewModel None e sd)) p -> nil_manager (model p).
Proof.
  induction 1 as [| p p' Hreach IH Hstep].
  - apply NewModel_nil_manager.
  - pose proof IH as [Hmgr _].
    inversion Hstep as [msg Hin Hd | before after c msg Hpend Hrun Hd]; subst;
      unfold deliver in Hd.
    + destruct (Update_nil_manager (model p) msg IH (or_introl Hin))
        as (m' & c' & Hu & Hm').
      rewrite Hu in Hd. injection Hd as <-. assumption.
    + rewrite Hmgr in Hrun.
      destruct (Update_nil_manager (model p) msg IH (or_intror (ex_intro _ c Hrun)))
        as (m' & c' & Hu & Hm').
      rewrite Hu in Hd. injection Hd as <-. assumption.
Qed.

(** C2. A manager that failed to initialise. In every state the program
    reaches from start-up with a nil manager: the manager is still nil;
    every load closure returns a result message carrying the error "k8s
    manager not initialized"; [Update] returns for every key press; and no
    step of the event loop panics. *)
Theorem nil_manager_short_circuits (e : error) (sd : option systemd_Manager) (p : Program) :
  reachable (start (NewModel None e sd)) p ->
  k8sManager (model p) = None
  /\ (forall c, is_load c = true ->
        exists msg, runCmd (k8sManager (model p)) c = Some msg
                    /\ is_result msg = true /\ err_of msg = not_initialized)
  /\ (forall key, exists m' c, Update (model p) (KeyMsg key) = Returns (m', c))
  /\ (forall r, step p r -> r <> Panics).
Proof.
  intros Hreach. pose proof (reachable_nil_manager e sd p Hreach) as Hnil.
  pose proof Hnil as [Hmgr _]. split; [assumption |]. split; [| split].
  - intros c Hc. rewrite Hmgr. now apply load_not_initialized.
  - intros key.
    destruct (Update_nil_manager (model p) (KeyMsg key) Hnil (or_introl eq_refl))
      as (m' & c & Hu & _).
    eauto.
  - intros r Hstep.
    inversion Hstep as [msg Hin Hd | before after c msg Hpend Hrun Hd]; subst;
      unfold deliver.
    + destruct (Update_nil_manager (model p) msg Hnil (or_introl Hin))
        as (m' & c' & -> & _). discriminate.
    + rewrite Hmgr in Hrun.
      destruct (Update_nil_manager (model p) msg Hnil (or_intror (ex_intro _ c Hrun)))
        as (m' & c' & -> & _). discriminate.
Qed.

End NilManager.

(** On the reference terminal: the namespaces load at start-up fails, the
    pane stays empty, and [enter] on it returns. *)
Lemma nil_manager_short_circuits_witness :
  runCmd (C := Ref.cluster) None LoadNamespaces
  = Some (namespacesLoadedMsg [] (Some "k8s manager not initialized"))
  /\ exists m' c, Update (C := Ref.cluster) Ref.disconnected (KeyMsg "enter") = Returns (m', c).
Proof.
  split; [reflexivity |].
  exact (proj1 (proj2 (proj2
    (nil_manager_short_circuits (C := Ref.cluster) _ _ _
       (reachable_start (start Ref.disconnected))))) "enter").
Defined.

(** ** Switching category *)

Section Switching.
Context {L : ListLib} {V : ViewportLib} {C : k8s.Cluster}.

(** The direct-jump keys [2], [3] and [4] take the selection of the pane
    they enter as the selection context and load its tabs. *)
Lemma jump_keys_select (m : Model) :
  showConfirmDialog m = false -> showHelp m = false ->
  (forall d, list_SelectedItem (deploymentsList m) = Some (deploymentItem d) ->
     Update m (KeyMsg "2")
     = Returns (set_activeTab ConfigTab
                  (set_selectedResourceType "deployment"
                     (set_selectedResource (k8s.deployment_Name d)
                        (set_activeCategory DeploymentsCategory m))),
                LoadResourceYAML "deployment" (k8s.deployment_Name d)))
  /\ (forall p, list_SelectedItem (podsList m) = Some (podItem p) ->
     Update m (KeyMsg "3")
     = Returns (set_activeTab LogsTab
                  (set_selectedResourceType "pod"
                     (set_selectedResource (k8s.pod_Name p)
                        (set_activeCategory PodsCategory m))),
                Batch [LoadPodLogs (k8s.pod_Name p); LoadPodMetrics (k8s.pod_Name p);
                       LoadPodEnvVars (k8s.pod_Name p);
                       LoadResourceYAML "pod" (k8s.pod_Name p)]))
  /\ (forall s, list_SelectedItem (servicesList m) = Some (serviceItem s) ->
     Update m (KeyMsg "4")
     = Returns (set_activeTab ConfigTab
                  (set_selectedResourceType "service"
                     (set_selectedResource (k8s.service_Name s)
                        (set_activeCategory ServicesCategory m))),
                LoadResourceYAML "service" (k8s.service_Name s))).
Proof.
  intros Hc Hh. repeat split; intros x Hsel; simpl; rewrite Hc, Hh;
    unfold Update_key; simpl; rewrite Hsel; reflexivity.
Qed.

(** C3. The cycling keys. [tab] and [shift+tab] move the focus to the next
    or the previous category and return at once: the selection context
    stays what it was and no load is handed back, whatever the pane they
    enter has selected. *)
Theorem cycling_keys_keep_selection (m : Model) :
  showConfirmDialog m = false -> showHelp m = false ->
  Update m (KeyMsg "tab")
  = Returns (set_activeCategory (Z.rem (int_add (activeCategory m) 1) 4) m, nilCmd)
  /\ Update m (KeyMsg "shift+tab")
     = Returns (set_activeCategory (Z.rem (int_add (int_sub (activeCategory m) 1) 4) 4) m,
                nilCmd).
Proof. intros Hc Hh. split; simpl; rewrite Hc, Hh; reflexivity. Qed.

End Switching.

(** [tab] enters Pods without selecting the pod and without a load; [3]
    from the same state selects it and loads its four tabs. *)
Lemma cycling_keys_keep_selection_witness :
  Update (C := Ref.cluster) on_deployments (KeyMsg "tab")
  = Returns (set_activeCategory PodsCategory on_deployments, nilCmd)
  /\ selectedResource (set_activeCategory PodsCategory on_deployments) = ""
  /\ Update (C := Ref.cluster) on_deployments (KeyMsg "3")
     = Returns (set_activeTab LogsTab
                  (set_selectedResourceType "pod"
                     (set_selectedResource "web-7f9c"
                        (set_activeCategory PodsCategory on_deployments))),
                Batch [LoadPodLogs "web-7f9c"; LoadPodMetrics "web-7f9c";
                       LoadPodEnvVars "web-7f9c"; LoadResourceYAML "pod" "web-7f9c"]).
Proof.
  split; [| split].
  - exact (proj1 (cycling_keys_keep_selection (C := Ref.cluster) on_deployments
                    eq_refl eq_refl)).
  - reflexivity.
  - reflexivity.
Defined.

(** ** The refresh timer *)

Section Timer.
Context {L : ListLib} {V : ViewportLib} {C : k8s.Cluster}.

Lemma ticks_app (cs1 cs2 : list Cmd) : ticks (cs1 ++ cs2) = (ticks cs1 + ticks cs2)%nat.
Proof. unfold ticks. now rewrite List.filter_app, length_app. Qed.

Lemma ticks_widget_cmd (o : WidgetCmd) : ticks (atoms (widget_cmd o)) = 0%nat.
Proof. now destruct o. Qed.

Ltac no_timer :=
  simplify_eq /=;
  repeat match goal with o : WidgetCmd |- _ => destruct o end;
  reflexivity.

Lemma Update_widgets_timers (m : Model) (msg : Msg) (m' : Model) (c : Cmd) :
  Update_widgets m msg = Returns (m', c) -> timers c = 0%nat.
Proof.
  unfold Update_widgets, Update_list, Update_viewport. intros Hu.
  branches; no_timer.
Qed.

(** [Update] hands back one timer for a [tickMsg] and none for any other
    message. *)
Lemma Update_timers (m : Model) (msg : Msg) (m' : Model) (c : Cmd) :
  Update m msg = Returns (m', c) ->
  timers c = if is_tickMsg msg then 1%nat else 0%nat.
Proof.
  intros Hu. destruct msg; simpl in Hu; try (injection Hu as <- <-; reflexivity);
    try (eapply Update_widgets_timers; eassumption).
  destruct (showConfirmDialog m).
  { unfold Update_confirm, performConfirmedAction in Hu. branches; no_timer. }
  destruct (showHelp m).
  { unfold Update_help in Hu. branches; no_timer. }
  destruct (Update_key m key) as [r |] eqn:Hk;
    [| eapply Update_widgets_timers; eassumption].
  subst r. revert Hk.
  unfold Update_key, Update_enter, Update_delete, Update_scale_up, Update_scale_down,
    Update_port_forward, Update_stop_port_forwards.
  intros Hk. branches; no_timer.
Qed.

(** Only the timer yields a [tickMsg]. *)
Lemma runCmd_tickMsg (mgr : option k8s.Manager) (c : Cmd) (msg : Msg) :
  runCmd mgr c = Some msg -> is_tickMsg msg = is_Tick c.
Proof.
  destruct c; simpl; intros Hrun; branches; simplify_eq /=; reflexivity.
Qed.

Lemma start_timers (m : Model) : pending_timers (start m) = 1%nat.
Proof. reflexivity. Qed.

Lemma step_timers (p p' : Program) :
  step p (Returns p') -> pending_timers p' = pending_timers p.
Proof.
  intros Hstep.
  inversion Hstep as [msg Hin Hd | before after c msg Hpend Hrun Hd]; subst;
    unfold deliver in Hd;
    destruct (Update (model p) msg) as [[m' c'] |] eqn:Hu; try discriminate;
    injection Hd as <-; apply Update_timers in Hu;
    unfold pending_timers, timers in *; simpl; rewrite ticks_app, Hu.
  - destruct msg; try discriminate; simpl; lia.
  - rewrite Hpend, (runCmd_tickMsg _ _ _ Hrun), !ticks_app.
    change (ticks (c :: after)) with (ticks ([c] ++ after)%list). rewrite ticks_app.
    unfold ticks at 4. simpl. destruct (is_Tick c); simpl; lia.
Qed.

Lemma reachable_timers (m0 : Model) (p : Program) :
  reachable (start m0) p -> pending_timers p = 1%nat.
Proof.
  induction 1 as [| p p' _ IH Hstep].
  - apply start_timers.
  - now rewrite (step_timers _ _ Hstep).
Qed.

(** C4 as the code has it. A timer tick leaves the state as it is and
    hands back the loads of the deployments, the pods and the services,
    and one new timer; it does not reload the namespaces. From start-up
    on, exactly one timer is pending in every state the program reaches. *)
Theorem tick_reloads_and_reschedules :
  (forall m : Model,
     Update m tickMsg = Returns (m, Batch [LoadDeployments; LoadPods; LoadServices; Tick])
     /\ atoms (Batch [LoadDeployments; LoadPods; LoadServices; Tick])
        = [LoadDeployments; LoadPods; LoadServices; Tick])
  /\ (forall (m0 : Model) (p : Program),
        reachable (start m0) p -> pending_timers p = 1%nat).
Proof.
  split.
  - intros m. split; reflexivity.
  - apply reachable_timers.
Qed.

End Timer.

(** C4 as the spec has it, on the reference terminal: the commands a tick
    hands back do not hold the load of the namespaces. *)
Lemma tick_skips_namespaces :
  ~ (exists m' c, Update (C := Ref.cluster) Ref.connected tickMsg = Returns (m', c)
                  /\ In LoadNamespaces (atoms c)).
Proof.
  intros (m' & c & Hu & Hin). injection Hu as _ <-. simpl in Hin.
  intuition discriminate.
Qed.

(** The reference terminal after start-up, then after its first tick. *)
Lemma tick_reloads_and_reschedules_witness :
  pending_timers (start Ref.connected) = 1%nat
  /\ Update (C := Ref.cluster) Ref.connected tickMsg
     = Returns (Ref.connected, Batch [LoadDeployments; LoadPods; LoadServices; Tick]).
Proof.
  split.
  - exact (proj2 (tick_reloads_and_reschedules (C := Ref.cluster)) _ _
             (reachable_start (start Ref.connected))).
  - exact (proj1 (proj1 (tick_reloads_and_reschedules (C := Ref.cluster)) Ref.connected)).
Defined.

(** ** Scaling a deployment *)

Lemma wrap32_id (z : Z) : is_int32 z -> wrap 32 z = z.
Proof.
  unfold is_int32, int32_min, int32_max, wrap. intros Hz.
  rewrite Z.mod_small; lia.
Qed.

Lemma wrap64_id (z : Z) : is_int z -> wrap 64 z = z.
Proof.
  unfold is_int, int_min, int_max, wrap. intros Hz.
  rewrite Z.mod_small; lia.
Qed.

Section Scaling.
Context {L : ListLib} {V : ViewportLib} {C : k8s.Cluster}.

(** C5 as the code has it. With the Deployments pane focused on a
    deployment of [current] replicas: a scale-up key raises the dialog with
    the target [current + 1] whenever that sum is an [int32], that is for
    [current] below 2147483647; a scale-down key raises it with the target
    [current - 1], which is not negative, when [current] is positive, and
    leaves the state as it is, dialog closed, when [current] is zero or
    less. *)
Theorem scale_targets (m : Model) (d : k8s.DeploymentInfo) :
  showConfirmDialog m = false -> showHelp m = false ->
  activeCategory m = DeploymentsCategory ->
  list_SelectedItem (deploymentsList m) = Some (deploymentItem d) ->
  is_int32 (k8s.Replicas d) ->
  (forall key, key_in key ["+"; "="] = true ->
     k8s.Replicas d < int32_max ->
     Update m (KeyMsg key)
     = Returns (scale_dialog "scale-up" d (k8s.Replicas d + 1) m, nilCmd))
  /\ (forall key, key_in key ["-"; "_"] = true ->
     0 < k8s.Replicas d ->
     Update m (KeyMsg key)
     = Returns (scale_dialog "scale-down" d (k8s.Replicas d - 1) m, nilCmd)
     /\ 0 <= confirmReplicas (scale_dialog "scale-down" d (k8s.Replicas d - 1) m))
  /\ (forall key, key_in key ["-"; "_"] = true ->
     k8s.Replicas d <= 0 ->
     Update m (KeyMsg key) = Returns (m, nilCmd)).
Proof.
  intros Hc Hh Hcat Hsel Hrange.
  assert (forall key, key_in key ["+"; "="; "-"; "_"] = true ->
            Update m (KeyMsg key)
            = if key_in key ["+"; "="] then Returns (Update_scale_up m)
              else Returns (Update_scale_down m)) as Hkey.
  { intros key Hk. simpl. rewrite Hc, Hh. unfold Update_key.
    apply key_in_true in Hk. simpl in Hk.
    destruct Hk as [<- | [<- | [<- | [<- | []]]]]; reflexivity. }
  unfold is_int32, int32_min, int32_max in *.
  split; [| split]; intros key Hk Hn.
  - rewrite Hkey, Hk by (apply key_in_true; apply key_in_true in Hk; simpl in *; tauto).
    unfold Update_scale_up. rewrite Hcat, Hsel. simpl.
    unfold int32_add. rewrite wrap32_id by (unfold is_int32, int32_min, int32_max; lia).
    reflexivity.
  - assert (key_in key ["+"; "="] = false) as Hup.
    { apply key_in_false. apply key_in_true in Hk. simpl in *.
      intros [<- | [<- | []]]; intuition discriminate. }
    rewrite Hkey, Hup by (apply key_in_true; apply key_in_true in Hk; simpl in *; tauto).
    unfold Update_scale_down. rewrite Hcat, Hsel. simpl.
    apply Z.ltb_lt in Hn as Hpos. rewrite Hpos.
    unfold int32_sub. rewrite wrap32_id by (unfold is_int32, int32_min, int32_max; lia).
    split; [reflexivity | simpl; lia].
  - assert (key_in key ["+"; "="] = false) as Hup.
    { apply key_in_false. apply key_in_true in Hk. simpl in *.
      intros [<- | [<- | []]]; intuition discriminate. }
    rewrite Hkey, Hup by (apply key_in_true; apply key_in_true in Hk; simpl in *; tauto).
    unfold Update_scale_down. rewrite Hcat, Hsel. simpl.
    apply Z.ltb_ge in Hn as Hpos. rewrite Hpos. reflexivity.
Qed.

End Scaling.

(** Three replicas: [+] asks for four, [-] for two; none: [-] asks nothing. *)
Lemma scale_targets_witness :
  confirmReplicas (scale_dialog "scale-up" (Ref.deployment "api" 3) 4 (scaling 3)) = 4
  /\ Update (C := Ref.cluster) (scaling 3) (KeyMsg "+")
     = Returns (scale_dialog "scale-up" (Ref.deployment "api" 3) 4 (scaling 3), nilCmd)
  /\ Update (C := Ref.cluster) (scaling 3) (KeyMsg "-")
     = Returns (scale_dialog "scale-down" (Ref.deployment "api" 3) 2 (scaling 3), nilCmd)
  /\ Update (C := Ref.cluster) (scaling 0) (KeyMsg "-") = Returns (scaling 0, nilCmd).
Proof.
  assert (is_int32 3 /\ is_int32 0) as [H3 H0]
    by (unfold is_int32, int32_min, int32_max; lia).
  destruct (scale_targets (C := Ref.cluster) (scaling 3) (Ref.deployment "api" 3)
              eq_refl eq_refl eq_refl eq_refl H3) as (Hup & Hdown & _).
  destruct (scale_targets (C := Ref.cluster) (scaling 0) (Ref.deployment "api" 0)
              eq_refl eq_refl eq_refl eq_refl H0) as (_ & _ & Hzero).
  split; [reflexivity |]. split; [| split].
  - apply (Hup "+" eq_refl). unfold int32_max. simpl. lia.
  - apply (Hdown "-" eq_refl). simpl. lia.
  - apply (Hzero "-" eq_refl). simpl. lia.
Defined.

(** C5 as the spec has it fails at the largest [int32]: on a deployment of
    2147483647 replicas the scale-up key raises the dialog with the target
    -2147483648, which is neither [current + 1] nor non-negative. *)
Lemma scale_up_wraps :
  exists m', Update (C := Ref.cluster) (scaling 2147483647) (KeyMsg "+") = Returns (m', nilCmd)
             /\ showConfirmDialog m' = true
             /\ confirmReplicas m' = -2147483648
             /\ confirmReplicas m' <> 2147483647 + 1
             /\ confirmReplicas m' < 0.
Proof.
  eexists. split; [reflexivity |]. repeat split; simpl; try reflexivity; discriminate.
Qed.

(** ** Layout *)

Section Layout.
Context {L : ListLib} {V : ViewportLib} {C : k8s.Cluster}.

Lemma sectionHeight_floor (w h : Z) : 3 <= sectionHeight (layout w h).
Proof.
  unfold layout. simpl.
  destruct (int_sub (int_div (int_sub h 6) 4) 2 <? 3) eqn:Hlt; [lia |].
  apply Z.ltb_ge in Hlt. assumption.
Qed.

(** C6. Layout. For the width and height of a resize event (terminal
    dimensions: non-negative [int]s), the left region is a third of the
    width, the height of a list pane is [max 3 ((height - 6) / 4 - 2)] with
    Go's truncating division and so at least 3, and [Update] gives that
    same height, a function of the dimensions alone, to each of the four
    list panes whatever the state before. *)
Theorem layout_geometry (w h : Z) :
  0 <= w <= int_max -> 0 <= h <= int_max ->
  leftPaneWidth (layout w h) = w ÷ 3
  /\ sectionHeight (layout w h) = Z.max 3 ((h - 6) ÷ 4 - 2)
  /\ 3 <= sectionHeight (layout w h)
  /\ forall m : Model,
       exists m', Update m (WindowSizeMsg w h) = Returns (m', nilCmd)
                  /\ list_Height (namespacesList m') = sectionHeight (layout w h)
                  /\ list_Height (deploymentsList m') = sectionHeight (layout w h)
                  /\ list_Height (podsList m') = sectionHeight (layout w h)
                  /\ list_Height (servicesList m') = sectionHeight (layout w h).
Proof.
  unfold int_max. intros Hw Hh.
  assert (int_div w 3 = w ÷ 3) as Hleft.
  { unfold int_div. apply wrap64_id. unfold is_int, int_min, int_max.
    Z.to_euclidean_division_equations. lia. }
  assert (int_sub (int_div (int_sub h 6) 4) 2 = (h - 6) ÷ 4 - 2) as Hsec.
  { unfold int_sub, int_div.
    rewrite (wrap64_id (h - 6)) by (unfold is_int, int_min, int_max; lia).
    rewrite (wrap64_id ((h - 6) ÷ 4))
      by (unfold is_int, int_min, int_max; Z.to_euclidean_division_equations; lia).
    apply wrap64_id. unfold is_int, int_min, int_max.
    Z.to_euclidean_division_equations. lia. }
  split; [exact Hleft |]. split; [| split; [apply sectionHeight_floor |]].
  - unfold layout. simpl. rewrite Hsec.
    destruct ((h - 6) ÷ 4 - 2 <? 3) eqn:Hlt;
      [apply Z.ltb_lt in Hlt | apply Z.ltb_ge in Hlt]; lia.
  - intros m. eexists. split; [reflexivity |].
    unfold Update_WindowSizeMsg. simpl. now rewrite !list_Height_SetSize.
Qed.

End Layout.

(** A terminal of 120 by 40 gives panes of 6 rows beside a left region of
    40 columns; one of 40 by 10 gives the floor of 3 rows. *)
Lemma layout_geometry_witness :
  leftPaneWidth (layout 120 40) = 40
  /\ sectionHeight (layout 120 40) = 6
  /\ sectionHeight (layout 40 10) = 3.
Proof.
  assert (forall z, 0 <= z <= 120 -> 0 <= z <= int_max) as Hdim
    by (unfold int_max; lia).
  destruct (layout_geometry (L := Ref.list_lib) (V := Ref.viewport_lib) (C := Ref.cluster)
              120 40 (Hdim 120 ltac:(lia)) (Hdim 40 ltac:(lia))) as (Hleft & Hsec & _).
  destruct (layout_geometry (L := Ref.list_lib) (V := Ref.viewport_lib) (C := Ref.cluster)
              40 10 (Hdim 40 ltac:(lia)) (Hdim 10 ltac:(lia))) as (_ & Hfloor & _).
  rewrite Hleft, Hsec, Hfloor. repeat split.
Defined.

(** ** Truncating a row *)

Lemma length_app_string (s t : string) :
  String.length (s ++ t) = (String.length s + String.length t)%nat.
Proof. induction s as [| a s IH]; simpl; [reflexivity | now rewrite IH]. Qed.

Lemma printable_app (s t : string) :
  printable (s ++ t) = printable s && printable t.
Proof.
  induction s as [| a s IH]; simpl; [reflexivity |].
  now rewrite IH, andb_assoc.
Qed.

Lemma substring_0_length (n : nat) (s : string) :
  (n <= String.length s)%nat -> String.length (substring 0 n s) = n.
Proof.
  revert s. induction n as [| n IH]; intros [| a s]; simpl; intros Hn;
    try reflexivity; try lia.
  rewrite IH by lia. reflexivity.
Qed.

Lemma substring_0_all (n : nat) (s : string) :
  (String.length s <= n)%nat -> substring 0 n s = s.
Proof.
  revert s. induction n as [| n IH]; intros [| a s]; simpl; intros Hn;
    try reflexivity; try lia.
  rewrite IH by lia. reflexivity.
Qed.

Lemma substring_0_twice (a b : nat) (s : string) :
  (a <= b)%nat -> substring 0 a (substring 0 b s) = substring 0 a s.
Proof.
  revert b s. induction a as [| a IH]; intros [| b] [| c s]; simpl; intros Hab;
    try reflexivity; try lia.
  rewrite IH by lia. reflexivity.
Qed.

Lemma printable_substring_0 (n : nat) (s : string) :
  printable s = true -> printable (substring 0 n s) = true.
Proof.
  revert s. induction n as [| n IH]; intros [| a s]; simpl; try reflexivity.
  intros Hs. apply andb_prop in Hs as [-> Hs]. simpl. now apply IH.
Qed.

Lemma prefix_substring_0 (n : nat) (s : string) :
  (n <= String.length s)%nat -> String.prefix (substring 0 n s) s = true.
Proof.
  intros Hn. apply String.prefix_correct. now rewrite substring_0_length.
Qed.

Section Truncation.
Context {G : Lipgloss}.

(** The width of a printable row with its ellipsis. *)
Lemma Width_ellipsis (s : string) :
  printable s = true ->
  lipgloss_Width (s ++ "...") = Z.of_nat (String.length s) + 3.
Proof.
  intros Hs. rewrite lipgloss_Width_printable.
  - rewrite length_app_string. simpl. lia.
  - rewrite printable_app, Hs. reflexivity.
Qed.

(** A row that fits with its ellipsis is not trimmed. *)
Lemma trim_loop_fits (turns : nat) (maxWidth : Z) (s : string) :
  printable s = true ->
  Z.of_nat (String.length s) + 3 <= maxWidth ->
  trim_loop turns maxWidth s = s.
Proof.
  intros Hs Hfit. destruct turns as [| turns]; simpl; [reflexivity |].
  rewrite (Width_ellipsis s Hs).
  destruct (maxWidth <? Z.of_nat (String.length s) + 3) eqn:Hlt; [| reflexivity].
  apply Z.ltb_lt in Hlt. lia.
Qed.

(** A longer row is trimmed to the [maxWidth - 3] bytes that leave room
    for the ellipsis, given one turn for each byte to remove. *)
Lemma trim_loop_cuts (turns : nat) (maxWidth : Z) (s : string) :
  printable s = true ->
  3 < maxWidth ->
  maxWidth - 3 < Z.of_nat (String.length s) ->
  (String.length s - Z.to_nat (maxWidth - 3) <= turns)%nat ->
  trim_loop turns maxWidth s = substring 0 (Z.to_nat (maxWidth - 3)) s.
Proof.
  revert s. induction turns as [| turns IH]; intros s Hs Hmax Hlong Hturns; [lia |].
  simpl. rewrite (Width_ellipsis s Hs).
  assert ((maxWidth <? Z.of_nat (String.length s) + 3) = true) as ->
    by (apply Z.ltb_lt; lia).
  assert ((0 <? String.length s)%nat = true) as -> by (apply Nat.ltb_lt; lia).
  simpl. unfold drop_last.
  assert (String.length (substring 0 (String.length s - 1) s) = (String.length s - 1)%nat)
    as Hlen by (apply substring_0_length; lia).
  destruct (Z.eq_dec (Z.of_nat (String.length s - 1)) (maxWidth - 3)) as [Hlast | Hmore].
  - rewrite trim_loop_fits.
    + f_equal. lia.
    + now apply printable_substring_0.
    + rewrite Hlen. lia.
  - rewrite IH.
    + apply substring_0_twice. lia.
    + now apply printable_substring_0.
    + assumption.
    + rewrite Hlen. lia.
    + rewrite Hlen. lia.
Qed.

(** Where the loop stops: at the longest prefix that fits with its
    ellipsis, given one turn for each byte of the row. *)
Lemma trim_loop_longest (turns : nat) (maxWidth : Z) (s : string) :
  (String.length s <= turns)%nat ->
  exists k,
    (k <= String.length s)%nat
    /\ trim_loop turns maxWidth s = substring 0 k s
    /\ (lipgloss_Width (substring 0 k s ++ "...") <= maxWidth \/ k = 0%nat)
    /\ forall j, (k < j <= String.length s)%nat ->
         maxWidth < lipgloss_Width (substring 0 j s ++ "...").
Proof.
  revert s. induction turns as [| turns IH]; intros s Hturns.
  - exists 0%nat. destruct s as [| a s]; [| simpl in Hturns; lia].
    simpl. split; [lia |]. split; [reflexivity |].
    split; [right; reflexivity | intros j Hj; simpl in Hj; lia].
  - simpl. destruct (maxWidth <? lipgloss_Width (s ++ "...")) eqn:Hwide;
      [apply Z.ltb_lt in Hwide | apply Z.ltb_ge in Hwide].
    + destruct (0 <? String.length s)%nat eqn:Hlen;
        [apply Nat.ltb_lt in Hlen | apply Nat.ltb_ge in Hlen]; simpl.
      * unfold drop_last.
        assert (String.length (substring 0 (String.length s - 1) s)
                = (String.length s - 1)%nat) as Hcut
          by (apply substring_0_length; lia).
        destruct (IH (substring 0 (String.length s - 1) s)) as (k & Hk & Hloop & Hfit & Hmore);
          [rewrite Hcut; lia |].
        rewrite Hcut in Hk, Hmore.
        rewrite substring_0_twice in Hloop, Hfit by lia.
        exists k. split; [lia |]. split; [exact Hloop |]. split; [exact Hfit |].
        intros j Hj. destruct (Nat.eq_dec j (String.length s)) as [-> | Hj'].
        -- now rewrite substring_0_all by lia.
        -- rewrite <- (substring_0_twice j (String.length s - 1)) by lia.
           apply Hmore. lia.
      * exists 0%nat. destruct s as [| a s]; [| simpl in Hlen; lia].
        simpl. split; [lia |]. split; [reflexivity |].
        split; [right; reflexivity | intros j Hj; simpl in Hj; lia].
    + simpl. exists (String.length s). rewrite substring_0_all by lia.
      split; [lia |]. split; [reflexivity |].
      split; [left; exact Hwide | intros j Hj; lia].
Qed.

(** A row of printable ASCII narrows by one column a byte. *)
Lemma printable_narrows_by_one (str : string) :
  printable str = true -> narrows_by_one str.
Proof.
  intros Hs. split.
  - rewrite (Width_ellipsis str Hs), (lipgloss_Width_printable str Hs). lia.
  - intros n Hn.
    rewrite !Width_ellipsis by now apply printable_substring_0.
    rewrite !substring_0_length by lia. lia.
Qed.

(** C7 as the code has it. For every row: a row no wider than the inner
    width is rendered unchanged. A wider row, when the inner width is
    more than 3 columns, is cut to a prefix followed by an ellipsis: the
    longest prefix that fits with the ellipsis, so the result is no wider
    than the inner width; it is of exactly the inner width when the
    ellipsis does not narrow the row and a byte trimmed narrows it by at
    most one column, as for every row of printable ASCII. A wider row is
    rendered unchanged when the inner width is 3 columns or less. *)
Theorem truncate_row_spec (maxWidth : Z) (str : string) :
  (lipgloss_Width str <= maxWidth -> truncate_row maxWidth str = str)
  /\ (maxWidth < lipgloss_Width str -> 3 < maxWidth ->
      exists kept,
        truncate_row maxWidth str = kept ++ "..."
        /\ String.prefix kept str = true
        /\ lipgloss_Width (truncate_row maxWidth str) <= maxWidth
        /\ (forall j, (String.length kept < j <= String.length str)%nat ->
              maxWidth < lipgloss_Width (substring 0 j str ++ "..."))
        /\ (narrows_by_one str -> lipgloss_Width (truncate_row maxWidth str) = maxWidth)
        /\ (printable str = true ->
            lipgloss_Width (truncate_row maxWidth str) = maxWidth))
  /\ (maxWidth < lipgloss_Width str -> maxWidth <= 3 -> truncate_row maxWidth str = str).
Proof.
  unfold truncate_row. split; [| split].
  - intros Hfit. apply Z.ltb_ge in Hfit. now rewrite Hfit.
  - intros Hwide Hmax. rewrite (proj2 (Z.ltb_lt _ _) Hwide), (proj2 (Z.ltb_lt _ _) Hmax).
    simpl.
    destruct (trim_loop_longest (String.length str) maxWidth str (Nat.le_refl _))
      as (k & Hk & -> & Hfit & Hmore).
    assert (String.length (substring 0 k str) = k) as Hlen
      by now apply substring_0_length.
    assert (lipgloss_Width "..." = 3) as Hdots
      by now rewrite lipgloss_Width_printable.
    assert (lipgloss_Width (substring 0 k str ++ "...") <= maxWidth) as Hbound.
    { destruct Hfit as [Hfit | ->]; [exact Hfit |].
      replace (substring 0 0 str) with EmptyString by (destruct str; reflexivity).
      change (EmptyString ++ "...") with "...". lia. }
    assert (narrows_by_one str ->
            lipgloss_Width (substring 0 k str ++ "...") = maxWidth) as Hexact.
    { intros [Hdots' Hstep].
      destruct (Nat.eq_dec k (String.length str)) as [-> | Hshort].
      - rewrite substring_0_all in Hbound by lia. lia.
      - specialize (Hstep k ltac:(lia)). specialize (Hmore (S k) ltac:(lia)). lia. }
    exists (substring 0 k str).
    split; [reflexivity |]. split; [now apply prefix_substring_0 |].
    split; [exact Hbound |]. split; [now rewrite Hlen |].
    split; [exact Hexact |].
    intros Hs. apply Hexact. now apply printable_narrows_by_one.
  - intros Hwide Hmax. apply Z.ltb_ge in Hmax. now rewrite Hmax, andb_false_r.
Qed.

End Truncation.

(** The width that counts bytes narrows every row by one column a byte. *)
Lemma byte_width_narrows_by_one (str : string) :
  narrows_by_one (G := Ref.lipgloss) str.
Proof.
  split; simpl; unfold Ref.byte_width.
  - rewrite length_app_string. lia.
  - intros n Hn. rewrite !length_app_string, !substring_0_length by lia. lia.
Qed.

(** On the reference terminal, an inner width of 10 columns: a row of 6
    bytes is kept, a row of 16 is cut to 7 bytes and the ellipsis, and
    the row of a pod, with its status icon, is cut to 10 columns. *)
Lemma truncate_row_spec_witness :
  truncate_row (G := Ref.lipgloss) 10 "nginx " = "nginx "
  /\ (exists kept,
       truncate_row (G := Ref.lipgloss) 10 "kube-system-dns " = kept ++ "..."
       /\ String.prefix kept "kube-system-dns " = true
       /\ lipgloss_Width (Lipgloss := Ref.lipgloss)
            (truncate_row (G := Ref.lipgloss) 10 "kube-system-dns ") = 10)
  /\ lipgloss_Width (Lipgloss := Ref.lipgloss)
       (truncate_row (G := Ref.lipgloss) 10 (row_text (podItem (Ref.pod "web-7f9c"))))
     = 10.
Proof.
  destruct (truncate_row_spec (G := Ref.lipgloss) 10 "nginx ") as (Hfit & _).
  destruct (truncate_row_spec (G := Ref.lipgloss) 10 "kube-system-dns ") as (_ & Hcut & _).
  destruct (truncate_row_spec (G := Ref.lipgloss) 10
              (row_text (podItem (Ref.pod "web-7f9c")))) as (_ & Hpod & _).
  split; [| split].
  - apply Hfit. simpl. unfold Ref.byte_width. simpl. lia.
  - destruct Hcut as (kept & Hrow & Hprefix & _ & _ & _ & Hexact);
      [simpl; unfold Ref.byte_width; simpl; lia | lia |].
    exists kept. split; [exact Hrow |]. split; [exact Hprefix |].
    apply Hexact. reflexivity.
  - destruct Hpod as (kept & _ & _ & _ & _ & Hexact & _);
      [vm_compute; reflexivity | lia |].
    apply Hexact. apply byte_width_narrows_by_one.
Defined.

(** C7 as the spec has it fails on a narrow pane: with an inner width of
    3 columns (a list 5 columns wide) the row [abcdef], 6 columns wide, is
    written whole, with no ellipsis. *)
Lemma narrow_pane_keeps_row :
  3 < lipgloss_Width (Lipgloss := Ref.lipgloss) "abcdef"
  /\ truncate_row (G := Ref.lipgloss) 3 "abcdef" = "abcdef"
  /\ lipgloss_Width (Lipgloss := Ref.lipgloss) (truncate_row (G := Ref.lipgloss) 3 "abcdef")
     <> 3
  /\ Render (G := Ref.lipgloss) 5 1 0 (namespaceItem "abcdef") = "  abcdef".
Proof. repeat split; try reflexivity. discriminate. Qed.

(** The exact width needs the condition on the width function: when a
    byte outside printable ASCII takes two cells, a row of six such bytes
    in an inner width of 10 columns is cut to three of them and the
    ellipsis, 9 columns. *)
Example wide_cells_fall_short :
  truncate_row (G := Ref.wide_lipgloss) 10 "日本"
  = substring 0 3 "日本" ++ "..."
  /\ lipgloss_Width (Lipgloss := Ref.wide_lipgloss)
       (truncate_row (G := Ref.wide_lipgloss) 10 "日本") = 9.
Proof. split; reflexivity. Qed.

(** ** A confirmed action that fails *)

Section Atomicity.
Context {L : ListLib} {V : ViewportLib} {C : k8s.Cluster}.

(** Assigning the status line leaves every other field as it was. *)
Lemma set_statusMessage_frame (text : string) (m : Model) :
  statusMessage (set_statusMessage text m) = text
  /\ namespacesList (set_statusMessage text m) = namespacesList m
  /\ deploymentsList (set_statusMessage text m) = deploymentsList m
  /\ podsList (set_statusMessage text m) = podsList m
  /\ servicesList (set_statusMessage text m) = servicesList m
  /\ selectedResource (set_statusMessage text m) = selectedResource m
  /\ selectedResourceType (set_statusMessage text m) = selectedResourceType m
  /\ currentNamespace (set_statusMessage text m) = currentNamespace m
  /\ activeCategory (set_statusMessage text m) = activeCategory m
  /\ activeTab (set_statusMessage text m) = activeTab m
  /\ logsViewport (set_statusMessage text m) = logsViewport m
  /\ statsViewport (set_statusMessage text m) = statsViewport m
  /\ envViewport (set_statusMessage text m) = envViewport m
  /\ configViewport (set_statusMessage text m) = configViewport m
  /\ activePortForwards (set_statusMessage text m) = activePortForwards m
  /\ k8sManager (set_statusMessage text m) = k8sManager m.
Proof. repeat split. Qed.

(** C8. A confirmed action whose call fails. With a manager at hand, when
    the call of the pending delete-pod, delete-deployment or scale action
    returns an error, the reducer assigns the error message to the status
    line and nothing else (but the dialog flag that confirming clears), and
    hands back no command: the lists, the selection, the active category
    and tab, the viewports and the port-forward registry are those of the
    state before. *)
Theorem failed_action_sets_status_only (m : Model) (mgr : k8s.Manager) (e : string) :
  k8sManager m = Some mgr ->
  (confirmAction m = "delete-pod" ->
   k8s.DeletePod mgr (confirmResource m) = Some e ->
   only_reports m ("Error deleting pod: " ++ e))
  /\ (confirmAction m = "delete-deployment" ->
      k8s.DeleteDeployment mgr (confirmResource m) = Some e ->
      only_reports m ("Error deleting deployment: " ++ e))
  /\ (key_in (confirmAction m) ["scale-up"; "scale-down"] = true ->
      k8s.ScaleDeployment mgr (confirmResource m) (confirmReplicas m) = Some e ->
      only_reports m ("Error scaling: " ++ e)).
Proof.
  intros Hmgr.
  assert (forall text,
            (forall m0, k8sManager m0 = Some mgr -> confirmAction m0 = confirmAction m ->
                        confirmResource m0 = confirmResource m ->
                        confirmReplicas m0 = confirmReplicas m ->
                        performConfirmedAction m0 = (set_statusMessage text m0, nilCmd)) ->
            only_reports m text) as Hboth.
  { intros text Hact. split; [now apply Hact |].
    intros Hc key Hk. simpl. rewrite Hc. unfold Update_confirm. rewrite Hk.
    now rewrite Hact. }
  split; [| split]; intros Haction Hcall; apply Hboth;
    intros m0 Hmgr0 Ha Hr Hn; unfold performConfirmedAction;
    rewrite Hmgr0, Ha, Hr, ?Hn.
  - now rewrite Haction, Hcall.
  - now rewrite Haction, Hcall.
  - rewrite Haction, Hcall. apply key_in_true in Haction. simpl in Haction.
    destruct Haction as [<- | [<- | []]]; reflexivity.
Qed.

End Atomicity.

(** In [asking_locked] the deletion fails: [y] closes the dialog and the
    status line reports the error; nothing is reloaded. *)
Lemma failed_action_sets_status_only_witness :
  only_reports (C := Ref.cluster) asking_locked
    "Error deleting pod: failed to delete pod locked: forbidden"
  /\ Update (C := Ref.cluster) asking_locked (KeyMsg "y")
     = Returns (set_statusMessage "Error deleting pod: failed to delete pod locked: forbidden"
                  (set_showConfirmDialog false asking_locked), nilCmd).
Proof.
  destruct (failed_action_sets_status_only (C := Ref.cluster) asking_locked
              {| k8s.namespace := "default" |} "failed to delete pod locked: forbidden"
              eq_refl) as (Hpod & _ & _).
  pose proof (Hpod eq_refl eq_refl) as Hreports.
  split; [exact Hreports |].
  exact (proj2 Hreports eq_refl "y" eq_refl).
Defined.

(** ** The log viewer *)

Section LogViewerContent.
Context {V : ViewportLib}.

(** C9. Log viewer round trip. [GetContent] after [SetContent s] is [s];
    [AppendContent n] makes the content the prior content, a newline and
    [n] when the prior content was not empty, and [n] when it was. *)
Theorem log_viewer_round_trip (lv : logviewer.LogViewer) (s n : string) :
  logviewer.GetContent (logviewer.SetContent lv s) = s
  /\ (logviewer.GetContent lv <> "" ->
      logviewer.GetContent (logviewer.AppendContent lv n)
      = logviewer.GetContent lv ++ nl ++ n)
  /\ (logviewer.GetContent lv = "" ->
      logviewer.GetContent (logviewer.AppendContent lv n) = n).
Proof.
  unfold logviewer.GetContent, logviewer.AppendContent. split; [reflexivity |].
  split; intros Hc.
  - apply String.eqb_neq in Hc. rewrite Hc. reflexivity.
  - rewrite Hc. reflexivity.
Qed.

End LogViewerContent.

(** A new viewer of the reference terminal, given two lines in turn. *)
Lemma log_viewer_round_trip_witness :
  logviewer.GetContent
    (logviewer.AppendContent
       (logviewer.AppendContent (logviewer.NewLogViewer (V := Ref.viewport_lib) "logs")
          "first") "second")
  = "first" ++ nl ++ "second".
Proof.
  pose (lv0 := logviewer.NewLogViewer (V := Ref.viewport_lib) "logs").
  pose (lv1 := logviewer.AppendContent lv0 "first").
  destruct (log_viewer_round_trip lv0 "" "first") as (_ & _ & Hfirst).
  destruct (log_viewer_round_trip lv1 "" "second") as (_ & Hsecond & _).
  change (logviewer.GetContent (logviewer.AppendContent lv1 "second")
          = "first" ++ nl ++ "second").
  rewrite Hsecond.
  - fold lv1. unfold lv1 at 1. rewrite (Hfirst eq_refl). reflexivity.
  - unfold lv1. rewrite (Hfirst eq_refl). discriminate.
Defined.

(** ** Moving the cursor *)

Section Navigation.
Context {L : ListLib} {V : ViewportLib} {C : k8s.Cluster}.

Lemma Update_key_unhandled (m : Model) (key : string) :
  key_in key handled_keys = false -> Update_key m key = None.
Proof.
  intros Hk. apply key_in_false in Hk. unfold Update_key.
  repeat match goal with
  | |- (if ?b then _ else _) = None =>
      let E := fresh "E" in
      destruct b eqn:E;
      [ exfalso; apply Hk;
        first [ apply String.eqb_eq in E; subst key; simpl; tauto
              | apply key_in_true in E; simpl in *; tauto ]
      | ]
  end.
  reflexivity.
Qed.

Lemma Update_reaches_widgets (m : Model) (msg : Msg) :
  reaches_widgets m msg = true -> Update m msg = Update_widgets m msg.
Proof.
  destruct msg; try discriminate; simpl; [| reflexivity].
  intros Hr. apply andb_prop in Hr as [Hr Hk]. apply andb_prop in Hr as [Hc Hh].
  apply negb_true_iff in Hc, Hh, Hk. rewrite Hc, Hh.
  now rewrite Update_key_unhandled.
Qed.

Lemma Update_viewport_frame (m : Model) (msg : Msg) :
  activeTab (fst (Update_viewport m msg)) = activeTab m
  /\ selectedResource (fst (Update_viewport m msg)) = selectedResource m
  /\ selectedResourceType (fst (Update_viewport m msg)) = selectedResourceType m
  /\ Forall (fun c => exists o, c = widget_cmd o) (snd (Update_viewport m msg)).
Proof.
  unfold Update_viewport.
  branches; repeat split; simpl;
    first [ assumption | apply List.Forall_nil
          | apply List.Forall_cons; [eexists; reflexivity | apply List.Forall_nil] ].
Qed.

(** C10 as the code has it. When a message reaches the focused list and
    leaves its cursor on an item whose name differs from the selected
    resource, [Update] assigns the selection context, hands
    back the loads of the category, and assigns the active tab whatever
    it was: Logs on the Pods pane, Config on the Deployments and Services
    panes. *)
Theorem navigation_overrides_tab (m : Model) (msg : Msg) :
  reaches_widgets m msg = true ->
  (forall p,
     activeCategory m = PodsCategory ->
     list_SelectedItem (fst (list_Update msg (podsList m))) = Some (podItem p) ->
     selectedResource m <> k8s.pod_Name p ->
     follows_selection m msg (k8s.pod_Name p) "pod" LogsTab
       [LoadPodLogs (k8s.pod_Name p); LoadPodMetrics (k8s.pod_Name p);
        LoadPodEnvVars (k8s.pod_Name p); LoadResourceYAML "pod" (k8s.pod_Name p)])
  /\ (forall d,
     activeCategory m = DeploymentsCategory ->
     list_SelectedItem (fst (list_Update msg (deploymentsList m))) = Some (deploymentItem d) ->
     selectedResource m <> k8s.deployment_Name d ->
     follows_selection m msg (k8s.deployment_Name d) "deployment" ConfigTab
       [LoadResourceYAML "deployment" (k8s.deployment_Name d)])
  /\ (forall s,
     activeCategory m = ServicesCategory ->
     list_SelectedItem (fst (list_Update msg (servicesList m))) = Some (serviceItem s) ->
     selectedResource m <> k8s.service_Name s ->
     follows_selection m msg (k8s.service_Name s) "service" ConfigTab
       [LoadResourceYAML "service" (k8s.service_Name s)]).
Proof.
  intros Hr. unfold follows_selection. rewrite (Update_reaches_widgets m msg Hr).
  unfold Update_widgets, Update_list.
  split; [| split]; intros x Hcat Hsel Hname; rewrite Hcat; simpl;
    apply String.eqb_neq in Hname.
  - destruct (list_Update msg (podsList m)) as [l o]. simpl in *.
    rewrite Hsel, Hname. unfold Update_viewport. simpl.
    destruct (viewport_Update msg (logsViewport m)) as [v o'].
    eexists _, _. split; [reflexivity |]. repeat split.
  - destruct (list_Update msg (deploymentsList m)) as [l o]. simpl in *.
    rewrite Hsel, Hname. unfold Update_viewport. simpl.
    destruct (viewport_Update msg (configViewport m)) as [v o'].
    eexists _, _. split; [reflexivity |]. repeat split.
  - destruct (list_Update msg (servicesList m)) as [l o]. simpl in *.
    rewrite Hsel, Hname. unfold Update_viewport. simpl.
    destruct (viewport_Update msg (configViewport m)) as [v o'].
    eexists _, _. split; [reflexivity |]. repeat split.
Qed.

(** The guard is on the name: a cursor that lands on an item named as the
    selected resource changes neither the selection context nor the
    active tab. *)
Lemma navigation_same_name_keeps_tab (m : Model) (msg : Msg) (p : k8s.PodInfo) :
  reaches_widgets m msg = true ->
  activeCategory m = PodsCategory ->
  list_SelectedItem (fst (list_Update msg (podsList m))) = Some (podItem p) ->
  selectedResource m = k8s.pod_Name p ->
  exists m' cmds,
    Update m msg = Returns (m', Batch cmds)
    /\ Forall (fun c => exists o, c = widget_cmd o) cmds
    /\ activeTab m' = activeTab m
    /\ selectedResourceType m' = selectedResourceType m.
Proof.
  intros Hr Hcat Hsel Hname. rewrite (Update_reaches_widgets m msg Hr).
  unfold Update_widgets, Update_list. rewrite Hcat. simpl.
  destruct (list_Update msg (podsList m)) as [l o]. simpl in *.
  rewrite Hsel, Hname, String.eqb_refl. simpl.
  pose proof (Update_viewport_frame (set_podsList l m) msg) as (Htab & _ & Hkind & Hcmds).
  destruct (Update_viewport (set_podsList l m) msg) as [m2 vcmds]. simpl in *.
  eexists _, _. split; [reflexivity |]. repeat split; try assumption.
  apply List.Forall_cons; [eexists; reflexivity | assumption].
Qed.

End Navigation.

(** In [on_stats], [down] moves the cursor to [web-2]: the Stats tab
    gives way to Logs. *)
Lemma navigation_overrides_tab_witness :
  follows_selection (C := Ref.cluster) on_stats (KeyMsg "down") "web-2" "pod" LogsTab
    [LoadPodLogs "web-2"; LoadPodMetrics "web-2"; LoadPodEnvVars "web-2";
     LoadResourceYAML "pod" "web-2"].
Proof.
  apply (proj1 (navigation_overrides_tab (C := Ref.cluster) on_stats (KeyMsg "down") eq_refl)
           (Ref.pod "web-2")).
  - reflexivity.
  - reflexivity.
  - discriminate.
Defined.

(** C10 as the spec has it fails after a reload under the cursor. In
    [reloaded] the cursor of the Pods pane is on [web-1] and the Stats tab
    is open; [down] moves the cursor to another item, [web-2], whose name
    is the selected resource: the Stats tab stays, the selection context
    stays and no load is handed back. *)
Lemma navigation_keeps_tab_after_reload :
  activeCategory (model reloaded) = PodsCategory
  /\ list_SelectedItem (podsList (model reloaded)) = Some (podItem (Ref.pod "web-1"))
  /\ selectedResource (model reloaded) = "web-2"
  /\ activeTab (model reloaded) = StatsTab
  /\ reaches_widgets (model reloaded) (KeyMsg "down") = true
  /\ (exists m' c,
        Update (C := Ref.cluster) (model reloaded) (KeyMsg "down") = Returns (m', c)
        /\ list_SelectedItem (podsList m') = Some (podItem (Ref.pod "web-2"))
        /\ activeTab m' = StatsTab
        /\ selectedResource m' = "web-2"
        /\ atoms c = [])
  /\ ~ follows_selection (C := Ref.cluster) (model reloaded) (KeyMsg "down") "web-2" "pod"
        LogsTab
        [LoadPodLogs "web-2"; LoadPodMetrics "web-2"; LoadPodEnvVars "web-2";
         LoadResourceYAML "pod" "web-2"].
Proof.
  repeat (split; [vm_compute; reflexivity |]). split.
  - eexists _, _. split; [vm_compute; reflexivity |]. repeat split.
  - intros (m' & rest & Hu & Htab & _).
    assert (exists m0 c0,
              Update (C := Ref.cluster) (model reloaded) (KeyMsg "down") = Returns (m0, c0)
              /\ activeTab m0 = StatsTab) as (m0 & c0 & Hu0 & Htab0)
      by (eexists _, _; split; [vm_compute; reflexivity | reflexivity]).
    rewrite Hu0 in Hu. injection Hu as -> _. congruence.
Qed.

(** ** The call the invariant of C2 guards

    The [enter] case calls [SetNamespace] without testing the manager. In
    a state no run reaches, a nil manager beside a loaded namespaces pane,
    that call panics; the panes of a nil manager stay empty, which is why
    no run gets there. *)
Example enter_on_namespace_unguarded :
  Update (C := Ref.cluster)
    (set_namespacesList (Ref.pane [namespaceItem "kube-system"] 0) Ref.disconnected)
    (KeyMsg "enter")
  = Panics.
Proof. reflexivity. Qed.

(** * Further properties *)

(** ** Invariants of the event loop *)

(** Every definition [Update] is made of. *)
Ltac unfold_Update :=
  unfold Update_widgets, Update_list, Update_viewport, Update_confirm, Update_help,
    Update_key, Update_enter, Update_delete, Update_scale_up, Update_scale_down,
    Update_port_forward, Update_stop_port_forwards, performConfirmedAction,
    Update_WindowSizeMsg, Update_namespacesLoadedMsg, Update_deploymentsLoadedMsg,
    Update_podsLoadedMsg, Update_servicesLoadedMsg, Update_podLogsLoadedMsg,
    Update_podMetricsLoadedMsg, Update_podEnvVarsLoadedMsg, Update_resourceYAMLLoadedMsg
    in *.

Section Invariants.
Context {L : ListLib} {V : ViewportLib} {C : k8s.Cluster}.


(** What start-up establishes and every [Update] keeps holds in every
    state the program reaches. *)
Lemma reachable_invariant (I : Model -> Prop) (m0 : Model) :
  I m0 ->
  (forall m msg m' c, I m -> Update m msg = Returns (m', c) -> I m') ->
  forall p, reachable (start m0) p -> I (model p).
Proof.
  intros H0 Hkeep p Hreach. induction Hreach as [| p p' _ IH Hstep]; [exact H0 |].
  inversion Hstep as [msg Hin Hd | before after c msg Hpend Hrun Hd]; subst;
    unfold deliver in Hd;
    destruct (Update (model p) msg) as [[m' c'] |] eqn:Hu; try discriminate;
    injection Hd as <-; simpl; eapply Hkeep; eassumption.
Qed.

Lemma reachable_run_input (p0 p : Program) (msg : Msg) :
  reachable p0 p -> is_input msg = true -> reachable p0 (run_input p msg).
Proof.
  intros Hreach Hin. unfold run_input.
  destruct (deliver p msg (pending p)) as [p' |] eqn:Hd; [| assumption].
  eapply reachable_step; [eassumption |]. rewrite <- Hd. now apply step_input.
Qed.

Lemma reachable_run_first (p0 p : Program) :
  reachable p0 p -> reachable p0 (run_first p).
Proof.
  intros Hreach. unfold run_first.
  destruct (pending p) as [| c rest] eqn:Hpend; [assumption |].
  destruct (runCmd (k8sManager (model p)) c) as [msg |] eqn:Hrun; [| assumption].
  destruct (deliver p msg rest) as [p' |] eqn:Hd; [| assumption].
  eapply reachable_step; [eassumption |]. rewrite <- Hd.
  apply (step_due p [] rest c msg); assumption.
Qed.

Lemma tab_in_range (c : Z) :
  0 <= c <= 3 ->
  0 <= Z.rem (int_add c 1) 4 <= 3
  /\ 0 <= Z.rem (int_add (int_sub c 1) 4) 4 <= 3.
Proof.
  intros Hc. unfold int_add, int_sub.
  rewrite (wrap64_id (c + 1)), (wrap64_id (c - 1)), (wrap64_id (c - 1 + 4))
    by (unfold is_int, int_min, int_max; lia).
  assert (c = 0 \/ c = 1 \/ c = 2 \/ c = 3) as [-> | [-> | [-> | ->]]] by lia;
    repeat split; apply Z.leb_le; reflexivity.
Qed.

#[local] Arguments keeps : simpl never.
#[local] Arguments layout : simpl never.

Lemma keeps_refl (m : Model) : keeps m m.
Proof. unfold keeps. tauto. Qed.

Lemma keeps_trans (m1 m2 m3 : Model) : keeps m1 m2 -> keeps m2 m3 -> keeps m1 m3.
Proof. unfold keeps. tauto. Qed.

(** A list that took a message lists what it listed. *)
Ltac list_took_message :=
  repeat match goal with
  | H : list_Update ?msg ?l = (?l', _) |- _ =>
      let E := fresh "E" in
      pose proof (list_Items_Update msg l) as E; rewrite H in E; simpl in E; clear H
  end.

(** One way [Update] returns keeps what [keeps] says. *)
Ltac keeps_goal :=
  list_took_message;
  unfold keeps, panes_in_step, namespace_in_step;
  split; [| split; [| split]];
  [ let Hc := fresh "Hc" in
    intros Hc; simpl;
    first [ assumption
          | apply (proj1 (tab_in_range _ Hc))
          | apply (proj2 (tab_in_range _ Hc))
          | unfold NamespacesCategory, DeploymentsCategory, PodsCategory, ServicesCategory;
            lia ]
  | intros (? & ? & ? & ?); simpl; repeat split;
    rewrite ?list_Items_SetItems, ?list_Items_SetSize; congruence
  | intros (? & ? & ?); simplify_eq /=; eexists;
    (split; [first [reflexivity | eassumption] | simpl; congruence])
  | split; intros; simpl in *; congruence ].

Lemma performConfirmedAction_keeps (m : Model) :
  keeps m (fst (performConfirmedAction m)).
Proof. unfold performConfirmedAction. branches; keeps_goal. Qed.

Lemma Update_key_keeps (m : Model) (key : string) (m' : Model) (c : Cmd) :
  Update_key m key = Some (Returns (m', c)) -> keeps m m'.
Proof.
  intros Hk. unfold_Update. branches; simplify_eq /=; keeps_goal.
Qed.

Lemma Update_list_keeps (m : Model) (msg : Msg) (m' : Model) (cmds : list Cmd) (cmd : Cmd) :
  Update_list m msg = Returns (m', cmds, cmd) -> keeps m m'.
Proof.
  intros Hu. unfold Update_list in Hu. branches; simplify_eq /=; keeps_goal.
Qed.

Lemma Update_viewport_keeps (m : Model) (msg : Msg) :
  keeps m (fst (Update_viewport m msg)).
Proof. unfold Update_viewport. branches; keeps_goal. Qed.

Lemma Update_widgets_keeps (m : Model) (msg : Msg) (m' : Model) (c : Cmd) :
  Update_widgets m msg = Returns (m', c) -> keeps m m'.
Proof.
  unfold Update_widgets. intros Hu.
  destruct (Update_list m msg) as [[[m1 cmds] cmd] |] eqn:Hl; [| discriminate].
  apply Update_list_keeps in Hl.
  pose proof (Update_viewport_keeps m1 msg) as Hv.
  destruct (Update_viewport m1 msg) as [m2 vcmds]. simpl in *.
  injection Hu as <- <-. eapply keeps_trans; eassumption.
Qed.

Lemma Update_keeps (m : Model) (msg : Msg) (m' : Model) (c : Cmd) :
  Update m msg = Returns (m', c) -> keeps m m'.
Proof.
  intros Hu. destruct msg; simpl in Hu;
    try (eapply Update_widgets_keeps; eassumption);
    try (injection Hu as <- <-;
         unfold Update_namespacesLoadedMsg, Update_deploymentsLoadedMsg,
           Update_podsLoadedMsg, Update_servicesLoadedMsg, Update_podLogsLoadedMsg,
           Update_podMetricsLoadedMsg, Update_podEnvVarsLoadedMsg,
           Update_resourceYAMLLoadedMsg;
         branches; keeps_goal).
  destruct (showConfirmDialog m).
  { injection Hu as Hu. unfold Update_confirm in Hu.
    pose proof (performConfirmedAction_keeps (set_showConfirmDialog false m)) as Hp.
    destruct (key_in key ["y"; "Y"]).
    - rewrite Hu in Hp. eapply keeps_trans; [| exact Hp]. keeps_goal.
    - destruct (key_in key ["n"; "N"; "esc"; "q"]); injection Hu as <- <-; keeps_goal. }
  destruct (showHelp m).
  { injection Hu as Hu. unfold Update_help in Hu.
    destruct (key_in key ["?"; "q"; "esc"]); injection Hu as <- <-; keeps_goal. }
  destruct (Update_key m key) as [r |] eqn:Hk.
  - subst r. eapply Update_key_keeps; eassumption.
  - eapply Update_widgets_keeps; eassumption.
Qed.

(** X1. One overlay at a time. In every state the program reaches from
    start-up, the confirmation dialog and the help screen do not both
    show. *)
Theorem overlays_never_overlap (mgr : option k8s.Manager) (e : error)
    (sd : option systemd_Manager) (p : Program) :
  reachable (start (NewModel mgr e sd)) p ->
  showConfirmDialog (model p) && showHelp (model p) = false.
Proof.
  apply (reachable_invariant (fun m => showConfirmDialog m && showHelp m = false)).
  - reflexivity.
  - intros m msg m' c. apply overlays_exclusive.
Qed.

(** X2. The focus stays on a pane. In every state the program reaches
    from start-up, the active category is one of the four panes, 0 to 3. *)
Theorem category_stays_in_range (mgr : option k8s.Manager) (e : error)
    (sd : option systemd_Manager) (p : Program) :
  reachable (start (NewModel mgr e sd)) p ->
  0 <= activeCategory (model p) <= 3.
Proof.
  apply (reachable_invariant (fun m => 0 <= activeCategory m <= 3)).
  - simpl. unfold NamespacesCategory. lia.
  - intros m msg m' c Hc Hu. now apply (Update_keeps m msg m' c Hu).
Qed.

(** X3. The panes show the data. In every state the program reaches from
    start-up, each of the four list panes lists exactly the items of the
    data stored for it (none before the first load), in its order. From
    such a state, the result of a successful load is stored and becomes
    the items of its pane, and the result of a failed load changes the
    status line and nothing else. *)
Theorem panes_show_loaded_data (mgr : option k8s.Manager) (e : error)
    (sd : option systemd_Manager) (p : Program) :
  reachable (start (NewModel mgr e sd)) p ->
  panes_in_step (model p)
  /\ (forall result,
        exists m', Update (model p) (namespacesLoadedMsg result None) = Returns (m', nilCmd)
                   /\ namespaces m' = result
                   /\ list_Items (namespacesList m') = map namespaceItem result)
  /\ (forall result,
        exists m', Update (model p) (deploymentsLoadedMsg result None) = Returns (m', nilCmd)
                   /\ deployments m' = result
                   /\ list_Items (deploymentsList m') = map deploymentItem result)
  /\ (forall result,
        exists m', Update (model p) (podsLoadedMsg result None) = Returns (m', nilCmd)
                   /\ pods m' = result
                   /\ list_Items (podsList m') = map podItem result)
  /\ (forall result,
        exists m', Update (model p) (servicesLoadedMsg result None) = Returns (m', nilCmd)
                   /\ services m' = result
                   /\ list_Items (servicesList m') = map serviceItem result)
  /\ (forall failure,
        (forall result,
           Update (model p) (namespacesLoadedMsg result (Some failure))
           = Returns (set_statusMessage ("Error loading namespaces: " ++ failure) (model p),
                      nilCmd))
        /\ (forall result,
              Update (model p) (deploymentsLoadedMsg result (Some failure))
              = Returns (set_statusMessage ("Error loading deployments: " ++ failure)
                           (model p), nilCmd))
        /\ (forall result,
              Update (model p) (podsLoadedMsg result (Some failure))
              = Returns (set_statusMessage ("Error loading pods: " ++ failure) (model p),
                         nilCmd))
        /\ (forall result,
              Update (model p) (servicesLoadedMsg result (Some failure))
              = Returns (set_statusMessage ("Error loading services: " ++ failure)
                           (model p), nilCmd))).
Proof.
  intros Hreach. split.
  { revert Hreach. apply (reachable_invariant panes_in_step).
    - unfold panes_in_step. simpl. rewrite list_Items_New. repeat split.
    - intros m msg m' c Hc Hu. now apply (Update_keeps m msg m' c Hu). }
  split; [| split; [| split; [| split]]];
    try (intros result; eexists; split; [reflexivity |]; split;
         [reflexivity | simpl; apply list_Items_SetItems]).
  - intros result. eexists. split; [reflexivity |].
    unfold Update_podsLoadedMsg. simpl.
    destruct (String.eqb (statusMessage (model p)) "Refreshing..."); simpl;
      (split; [reflexivity | apply list_Items_SetItems]).
  - intros failure. repeat split.
Qed.

(** X4. The manager follows the namespace shown. Started with the manager
    [NewManager] builds, in every state the program reaches the manager
    is there and works in the namespace the status bar shows. *)
Theorem manager_follows_namespace (kubeconfig : string) (sd : option systemd_Manager)
    (p : Program) :
  reachable
    (start (NewModel (fst (manager.NewManager kubeconfig None None))
              (snd (manager.NewManager kubeconfig None None)) sd)) p ->
  namespace_in_step (model p).
Proof.
  apply (reachable_invariant namespace_in_step).
  - eexists. split; reflexivity.
  - intros m msg m' c Hc Hu. now apply (Update_keeps m msg m' c Hu).
Qed.

(** X5. The manager handle is settled at start-up. In every state the
    program reaches, the manager is nil exactly when it was nil at
    start-up: the handle a load closure captured is the one of the state
    that takes its result. *)
Theorem manager_handle_settled (m0 : Model) (p : Program) :
  reachable (start m0) p ->
  (k8sManager (model p) = None <-> k8sManager m0 = None).
Proof.
  apply (reachable_invariant (fun m => k8sManager m = None <-> k8sManager m0 = None)).
  - tauto.
  - intros m msg m' c Hc Hu. pose proof (Update_keeps m msg m' c Hu) as (_ & _ & _ & Hnil).
    tauto.
Qed.

End Invariants.

Lemma reachable_helped : reachable (C := Ref.cluster) (start Ref.connected) helped.
Proof. apply reachable_run_input; [apply reachable_start | reflexivity]. Qed.

Lemma reachable_loaded : reachable (C := Ref.cluster) (start Ref.connected) loaded.
Proof. apply reachable_run_first, reachable_start. Qed.

Lemma reachable_switched : reachable (C := Ref.cluster) (start Ref.connected) switched.
Proof. apply reachable_run_input; [apply reachable_loaded | reflexivity]. Qed.

(** With the help screen open, the dialog is closed. *)
Lemma overlays_never_overlap_witness :
  showHelp (model helped) = true
  /\ showConfirmDialog (model helped) && showHelp (model helped) = false.
Proof.
  split; [reflexivity |].
  exact (overlays_never_overlap (C := Ref.cluster) _ _ _ helped reachable_helped).
Defined.

(** After the cursor moved in the namespaces pane, that pane is still the
    active one. *)
Lemma category_stays_in_range_witness :
  activeCategory (model switched) = NamespacesCategory
  /\ 0 <= activeCategory (model switched) <= 3.
Proof.
  split; [reflexivity |].
  exact (category_stays_in_range (C := Ref.cluster) _ _ _ switched reachable_switched).
Defined.

(** Once the namespaces are loaded, their pane lists the two of them. *)
Lemma panes_show_loaded_data_witness :
  namespaces (model loaded) = ["default"; "kube-system"]
  /\ panes_in_step (model loaded).
Proof.
  split; [reflexivity |].
  exact (proj1 (panes_show_loaded_data (C := Ref.cluster) _ _ _ loaded reachable_loaded)).
Defined.

(** Moving the cursor to [kube-system] switches both the namespace shown
    and the namespace of the manager. *)
Lemma manager_follows_namespace_witness :
  currentNamespace (model switched) = "kube-system"
  /\ namespace_in_step (model switched).
Proof.
  split; [reflexivity |].
  exact (manager_follows_namespace (C := Ref.cluster) "/root/.kube/config" (Some tt)
           switched reachable_switched).
Defined.

(** The manager that was there at start-up is there after the switch. *)
Lemma manager_handle_settled_witness :
  k8sManager (model switched) = None <-> k8sManager Ref.connected = None.
Proof.
  exact (manager_handle_settled (C := Ref.cluster) Ref.connected switched
           reachable_switched).
Defined.

(** ** Key presses in sequence *)

Section Flows.
Context {L : ListLib} {V : ViewportLib} {C : k8s.Cluster}.

(** X6. Cycling is a round trip. In normal mode with the focus on one of
    the four panes, [tab] then [shift+tab], [shift+tab] then [tab], and
    [tab] four times each give back the very state they started from. *)
Theorem cycling_round_trip (m : Model) :
  normal_mode m -> 0 <= activeCategory m <= 3 ->
  press (Update m (KeyMsg "tab")) "shift+tab" = Returns (m, nilCmd)
  /\ press (Update m (KeyMsg "shift+tab")) "tab" = Returns (m, nilCmd)
  /\ press (press (press (Update m (KeyMsg "tab")) "tab") "tab") "tab" = Returns (m, nilCmd).
Proof.
  intros [Hc Hh] Hcat.
  destruct m as [w h r cat nl' dl pl sl sr tab lv sv ev cv mgr ie ns nss ds ps ss cm ce
                   cy srt pfs sdm sie sm er scd ca cr crn sh].
  simpl in *. subst.
  assert (cat = 0 \/ cat = 1 \/ cat = 2 \/ cat = 3) as [-> | [-> | [-> | ->]]] by lia;
    repeat split.
Qed.

(** A quit among the commands of the widgets' tail is the command one of
    the widgets returned for the message. *)
Lemma Update_widgets_Quit (m : Model) (msg : Msg) (m' : Model) (c : Cmd) :
  Update_widgets m msg = Returns (m', c) -> In Quit (atoms c) ->
  (exists l, snd (list_Update msg l) = widget_Quit)
  \/ (exists v, snd (viewport_Update msg v) = widget_Quit).
Proof.
  unfold Update_widgets, Update_list, Update_viewport. intros Hu Hq.
  branches; simplify_eq /=;
    repeat match goal with o : WidgetCmd |- _ => destruct o end;
    simpl in Hq;
    first
      [ exfalso; intuition discriminate
      | match goal with
        | H : list_Update msg ?l = (_, widget_Quit) |- _ =>
            left; exists l; rewrite H; reflexivity
        | H : viewport_Update msg ?v = (_, widget_Quit) |- _ =>
            right; exists v; rewrite H; reflexivity
        end ].
Qed.

(** X7. Quitting. Whenever [Update] hands back [tea.Quit], either no
    overlay was showing and the message was a press of [q] or [ctrl+c],
    which returns the state as it was; or the message was one the reducer
    has no case for, in normal mode a key outside the key switch or else
    a message of the widgets, and the quit is the command a list or a
    viewport returned for it. Under the dialog or the help screen no key
    quits, and no result of a load, timer tick or window size does. *)
Theorem quit_only_from_normal_mode (m : Model) (msg : Msg) (m' : Model) (c : Cmd) :
  Update m msg = Returns (m', c) ->
  In Quit (atoms c) ->
  (normal_mode m /\ m' = m
   /\ exists key, msg = KeyMsg key /\ key_in key ["ctrl+c"; "q"] = true)
  \/ (reaches_widgets m msg = true
      /\ ((exists l, snd (list_Update msg l) = widget_Quit)
          \/ (exists v, snd (viewport_Update msg v) = widget_Quit))).
Proof.
  intros Hu Hq.
  destruct msg; simpl in Hu;
    try (right; split; [reflexivity | eapply Update_widgets_Quit; eassumption]);
    try (exfalso; injection Hu as <- <-; simpl in Hq; intuition discriminate).
  destruct (showConfirmDialog m) eqn:Hc.
  { exfalso. unfold Update_confirm, performConfirmedAction in Hu.
    branches; simplify_eq /=; intuition discriminate. }
  destruct (showHelp m) eqn:Hh.
  { exfalso. unfold Update_help in Hu. branches; simplify_eq /=; intuition discriminate. }
  destruct (Update_key m key) as [r |] eqn:Hk.
  2:{ right. split; [| eapply Update_widgets_Quit; eassumption].
      unfold reaches_widgets. rewrite Hc, Hh.
      destruct (key_in key handled_keys) eqn:Hhandled; [| reflexivity].
      exfalso. apply key_in_true in Hhandled. simpl in Hhandled.
      repeat (destruct Hhandled as [<- | Hhandled];
              [unfold Update_key in Hk; simpl in Hk; branches; discriminate |]).
      destruct Hhandled. }
  subst r. unfold Update_key in Hk.
  destruct (key_in key ["ctrl+c"; "q"]) eqn:Hkey.
  { injection Hk as <- <-. left. repeat split; eauto. }
  exfalso. revert Hk.
  unfold Update_enter, Update_delete, Update_scale_up, Update_scale_down,
    Update_port_forward, Update_stop_port_forwards.
  intros Hk. branches; simplify_eq /=; intuition discriminate.
Qed.

(** X8. Delete, then answer. In normal mode with the Pods pane focused on
    a pod and a manager whose delete call succeeds, [d] then [y] closes
    the dialog, reports the deletion on the status line and hands back
    the load of the pods; [d] then [n] closes the dialog, reports the
    cancellation and hands back nothing. *)
Theorem delete_then_answer (m : Model) (p : k8s.PodInfo) (mgr : k8s.Manager) :
  normal_mode m ->
  activeCategory m = PodsCategory ->
  list_SelectedItem (podsList m) = Some (podItem p) ->
  k8sManager m = Some mgr ->
  k8s.DeletePod mgr (k8s.pod_Name p) = None ->
  let asked :=
    set_confirmResource (k8s.pod_Name p)
      (set_confirmAction "delete-pod" (set_showConfirmDialog true m)) in
  press (Update m (KeyMsg "d")) "y"
  = Returns (set_statusMessage ("Deleted pod: " ++ k8s.pod_Name p)
               (set_showConfirmDialog false asked), LoadPods)
  /\ press (Update m (KeyMsg "d")) "n"
     = Returns (set_statusMessage "Action cancelled" (set_showConfirmDialog false asked),
                nilCmd).
Proof.
  intros [Hc Hh] Hcat Hsel Hmgr Hdel asked.
  assert (Update m (KeyMsg "d") = Returns (asked, nilCmd)) as ->.
  { simpl. rewrite Hc, Hh. unfold Update_key, Update_delete. simpl.
    now rewrite Hcat, Hsel. }
  split; simpl; unfold Update_confirm, performConfirmedAction; simpl;
    [rewrite Hmgr, Hdel |]; reflexivity.
Qed.

(** X9. Scale up, then confirm. In normal mode with the Deployments pane
    focused on a deployment of fewer than 2147483647 replicas, [+] then
    [y] asks the manager for one replica more than the deployment has; on
    success the status line reports the new count and the deployments are
    reloaded, on failure the status line reports the error and nothing is
    reloaded. *)
Theorem scale_up_then_confirm (m : Model) (d : k8s.DeploymentInfo) (mgr : k8s.Manager) :
  normal_mode m ->
  activeCategory m = DeploymentsCategory ->
  list_SelectedItem (deploymentsList m) = Some (deploymentItem d) ->
  k8sManager m = Some mgr ->
  is_int32 (k8s.Replicas d) -> k8s.Replicas d < int32_max ->
  let name := k8s.deployment_Name d in
  let target := k8s.Replicas d + 1 in
  let asked := set_showConfirmDialog false (scale_dialog "scale-up" d target m) in
  press (Update m (KeyMsg "+")) "y"
  = Returns
      match k8s.ScaleDeployment mgr name target with
      | None =>
          (set_statusMessage ("Scaled " ++ name ++ " to " ++ fmt_d target ++ " replicas")
             asked, LoadDeployments)
      | Some e => (set_statusMessage ("Error scaling: " ++ e) asked, nilCmd)
      end.
Proof.
  intros [Hc Hh] Hcat Hsel Hmgr Hrange Hmax name target asked.
  assert (Update m (KeyMsg "+")
          = Returns (scale_dialog "scale-up" d target m, nilCmd)) as ->.
  { simpl. rewrite Hc, Hh. unfold Update_key, Update_scale_up. simpl.
    rewrite Hcat, Hsel. simpl. unfold int32_add, scale_dialog, target.
    rewrite wrap32_id; [reflexivity |].
    unfold is_int32, int32_min, int32_max in *. lia. }
  simpl. unfold Update_confirm, performConfirmedAction. simpl. rewrite Hmgr.
  fold name. destruct (k8s.ScaleDeployment mgr name target); reflexivity.
Qed.

(** X10. The status line after a refresh. In normal mode, [r] sets the
    status line to "Refreshing..." and hands back the four list loads;
    the pods that then arrive replace it by their count and namespace;
    pods that arrive while the status line says anything else (as after
    a timer tick) leave the status line alone. *)
Theorem refresh_reports_pod_count (m : Model) (pods' : list k8s.PodInfo) :
  normal_mode m ->
  Update m (KeyMsg "r")
  = Returns (set_statusMessage "Refreshing..." m,
             Batch [LoadNamespaces; LoadDeployments; LoadPods; LoadServices])
  /\ (exists m', Update (set_statusMessage "Refreshing..." m) (podsLoadedMsg pods' None)
                 = Returns (m', nilCmd)
                 /\ statusMessage m'
                    = "Loaded " ++ fmt_d (Z.of_nat (length pods')) ++ " pods from "
                        ++ currentNamespace m)
  /\ (statusMessage m <> "Refreshing..." ->
      exists m', Update m (podsLoadedMsg pods' None) = Returns (m', nilCmd)
                 /\ statusMessage m' = statusMessage m).
Proof.
  intros [Hc Hh]. split; [| split].
  - simpl. rewrite Hc, Hh. reflexivity.
  - eexists. split; [reflexivity |]. reflexivity.
  - intros Hs. eexists. split; [reflexivity |].
    unfold Update_podsLoadedMsg. simpl.
    apply String.eqb_neq in Hs. now rewrite Hs.
Qed.

(** X11. Starting a port-forward. In normal mode with the Pods pane
    focused on a pod and a manager at hand, [p] whose process starts
    files its handle, for local port 8080 and remote port 80, under the
    key made of the pod name, a colon and 8080, and leaves every other
    entry of the registry as it was; [p] whose process does not start
    leaves the registry as it was and reports the error. *)
Theorem port_forward_started (m : Model) (p : k8s.PodInfo) (mgr : k8s.Manager) :
  normal_mode m ->
  activeCategory m = PodsCategory ->
  list_SelectedItem (podsList m) = Some (podItem p) ->
  k8sManager m = Some mgr ->
  let name := k8s.pod_Name p in
  exists m',
    Update m (KeyMsg "p") = Returns (m', nilCmd)
    /\ match k8s.cmd_Start (k8s.namespace mgr) name "8080" "80" with
       | inl proc =>
           activePortForwards m' !! (name ++ ":8080")
           = Some {| k8s.pf_PodName := name; k8s.LocalPort := "8080";
                     k8s.RemotePort := "80"; k8s.pf_Cmd := proc |}
           /\ (forall key, key <> name ++ ":8080" ->
                 activePortForwards m' !! key = activePortForwards m !! key)
       | inr e =>
           activePortForwards m' = activePortForwards m
           /\ statusMessage m'
              = "Error starting port-forward: failed to start port-forward: " ++ e
       end.
Proof.
  intros [Hc Hh] Hcat Hsel Hmgr name. simpl. rewrite Hc, Hh.
  unfold Update_key, Update_port_forward. simpl. rewrite Hcat, Hsel, Hmgr. simpl.
  unfold k8s.StartPortForward. fold name.
  destruct (k8s.cmd_Start (k8s.namespace mgr) name "8080" "80") as [proc | e].
  - eexists. split; [reflexivity |]. simpl. split.
    + apply lookup_insert_eq.
    + intros key Hkey. now apply lookup_insert_ne.
  - eexists. split; [reflexivity |]. split; reflexivity.
Qed.

(** X12. Stopping the port-forwards. In normal mode [P] with a manager at
    hand empties the registry whatever it held; without a manager [P] and
    [p] return the state as it was. *)
Theorem port_forwards_stopped (m : Model) :
  normal_mode m ->
  (forall mgr, k8sManager m = Some mgr ->
     exists m', Update m (KeyMsg "P") = Returns (m', nilCmd)
                /\ activePortForwards m' = ∅
                /\ forall key, activePortForwards m' !! key = None)
  /\ (k8sManager m = None ->
      Update m (KeyMsg "P") = Returns (m, nilCmd)
      /\ Update m (KeyMsg "p") = Returns (m, nilCmd)).
Proof.
  intros [Hc Hh]. split.
  - intros mgr Hmgr. simpl. rewrite Hc, Hh.
    unfold Update_key, Update_stop_port_forwards. simpl. rewrite Hmgr.
    eexists. split; [reflexivity |]. split; [reflexivity |].
    intros key. apply lookup_empty.
  - intros Hmgr. split; simpl; rewrite Hc, Hh;
      unfold Update_key, Update_stop_port_forwards, Update_port_forward; simpl;
      rewrite Hmgr; [reflexivity |].
    branches; reflexivity.
Qed.

End Flows.

Lemma normal_connected : normal_mode Ref.connected.
Proof. split; reflexivity. Qed.

Lemma normal_on_stats : normal_mode on_stats.
Proof. split; reflexivity. Qed.

(** From start-up, [tab] then [shift+tab] is back on the namespaces pane. *)
Lemma cycling_round_trip_witness :
  press (C := Ref.cluster) (Update (C := Ref.cluster) Ref.connected (KeyMsg "tab")) "shift+tab"
  = Returns (Ref.connected, nilCmd).
Proof.
  apply (cycling_round_trip (C := Ref.cluster) Ref.connected normal_connected).
  simpl. unfold NamespacesCategory. lia.
Defined.

(** At start-up [q] quits from normal mode, and [esc], which the reducer
    has no case for, quits too: the reference list returns the quit. *)
Lemma quit_only_from_normal_mode_witness :
  Update (C := Ref.cluster) Ref.connected (KeyMsg "q") = Returns (Ref.connected, Quit)
  /\ ((normal_mode Ref.connected /\ Ref.connected = Ref.connected
       /\ exists key, KeyMsg "q" = KeyMsg key /\ key_in key ["ctrl+c"; "q"] = true)
      \/ (reaches_widgets Ref.connected (KeyMsg "q") = true
          /\ ((exists l, snd (list_Update (ListLib := Ref.list_lib) (KeyMsg "q") l)
                          = widget_Quit)
              \/ (exists v, snd (viewport_Update (ViewportLib := Ref.viewport_lib)
                                   (KeyMsg "q") v) = widget_Quit)))).
Proof.
  split; [reflexivity |].
  apply (quit_only_from_normal_mode (C := Ref.cluster) Ref.connected (KeyMsg "q")
           Ref.connected Quit eq_refl).
  simpl. now left.
Defined.

Example esc_quits_in_normal_mode :
  normal_mode Ref.connected
  /\ exists m' c,
       Update (C := Ref.cluster) Ref.connected (KeyMsg "esc") = Returns (m', c)
       /\ In Quit (atoms c).
Proof.
  split; [split; reflexivity |].
  eexists _, _. split; [reflexivity |]. simpl. now left.
Qed.

(** In [on_stats], [d] then [y] deletes the pod [web-1]. *)
Lemma delete_then_answer_witness :
  press (C := Ref.cluster) (Update (C := Ref.cluster) on_stats (KeyMsg "d")) "y"
  = Returns (set_statusMessage "Deleted pod: web-1"
               (set_showConfirmDialog false
                  (set_confirmResource "web-1"
                     (set_confirmAction "delete-pod" (set_showConfirmDialog true on_stats)))),
             LoadPods).
Proof.
  exact (proj1 (delete_then_answer (C := Ref.cluster) on_stats (Ref.pod "web-1")
                  {| k8s.namespace := "default" |} normal_on_stats
                  eq_refl eq_refl eq_refl eq_refl)).
Defined.

(** From three replicas, [+] then [y] scales [api] to four. *)
Lemma scale_up_then_confirm_witness :
  press (C := Ref.cluster) (Update (C := Ref.cluster) (scaling 3) (KeyMsg "+")) "y"
  = Returns (set_statusMessage "Scaled api to 4 replicas"
               (set_showConfirmDialog false
                  (scale_dialog "scale-up" (Ref.deployment "api" 3) 4 (scaling 3))),
             LoadDeployments).
Proof.
  assert (is_int32 3 /\ 3 < int32_max) as [Hrange Hmax]
    by (unfold is_int32, int32_min, int32_max; lia).
  exact (scale_up_then_confirm (C := Ref.cluster) (scaling 3) (Ref.deployment "api" 3)
           {| k8s.namespace := "default" |} (conj eq_refl eq_refl)
           eq_refl eq_refl eq_refl Hrange Hmax).
Defined.

(** After [r], two pods arrive. *)
Lemma refresh_reports_pod_count_witness :
  exists m',
    Update (C := Ref.cluster) (set_statusMessage "Refreshing..." Ref.connected)
      (podsLoadedMsg [Ref.pod "web-1"; Ref.pod "web-2"] None)
    = Returns (m', nilCmd)
    /\ statusMessage m' = "Loaded 2 pods from default".
Proof.
  exact (proj1 (proj2 (refresh_reports_pod_count (C := Ref.cluster) Ref.connected
                         [Ref.pod "web-1"; Ref.pod "web-2"] normal_connected))).
Defined.

(** In [on_stats], [p] files the port-forward of [web-1] under
    [web-1:8080]. *)
Lemma port_forward_started_witness :
  exists m',
    Update (C := Ref.cluster) on_stats (KeyMsg "p") = Returns (m', nilCmd)
    /\ activePortForwards m' !! "web-1:8080"
       = Some {| k8s.pf_PodName := "web-1"; k8s.LocalPort := "8080";
                 k8s.RemotePort := "80"; k8s.pf_Cmd := 1%nat |}.
Proof.
  destruct (port_forward_started (C := Ref.cluster) on_stats (Ref.pod "web-1")
              {| k8s.namespace := "default" |} normal_on_stats eq_refl eq_refl eq_refl)
    as (m' & Hu & Hfiled & _).
  exists m'. split; [exact Hu | exact Hfiled].
Defined.

(** Without a manager [P] changes nothing; with one it leaves the registry
    empty. *)
Lemma port_forwards_stopped_witness :
  Update (C := Ref.cluster) Ref.disconnected (KeyMsg "P") = Returns (Ref.disconnected, nilCmd)
  /\ exists m', Update (C := Ref.cluster) Ref.connected (KeyMsg "P") = Returns (m', nilCmd)
                /\ activePortForwards m' = ∅.
Proof.
  split.
  - apply (port_forwards_stopped (C := Ref.cluster) Ref.disconnected
             (conj eq_refl eq_refl)).
    reflexivity.
  - destruct (proj1 (port_forwards_stopped (C := Ref.cluster) Ref.connected
                       normal_connected) _ eq_refl) as (m' & Hu & Hempty & _).
    exists m'. split; assumption.
Defined.

(** ** Bars, frames and rows *)

Lemma length_Repeat_nat (s : string) (n : nat) :
  String.length (Repeat_nat s n) = (n * String.length s)%nat.
Proof.
  induction n as [| n IH]; simpl; [reflexivity |].
  now rewrite length_app_string, IH.
Qed.

(** X13. The cells of a bar. For a width whose hundredfold is an [int],
    and any percentage, in range or not, [createBar] draws exactly
    [width] cells: the percentage clamped to 0..100, times the width,
    over 100 (rounded down) filled cells first, empty cells after; none
    filled at 0 or below, all filled at 100 or above. *)
Theorem createBar_cells (percent width : Z) :
  0 <= width -> 100 * width <= int_max ->
  let filled := clamp_percent percent * width ÷ 100 in
  0 <= filled <= width
  /\ createBar percent width = Repeat "█" filled ++ Repeat "░" (width - filled)
  /\ Z.of_nat (String.length (createBar percent width)) = 3 * width
  /\ (percent <= 0 -> filled = 0)
  /\ (100 <= percent -> filled = width).
Proof.
  intros Hw Hmax filled. unfold int_max in Hmax.
  assert ((if 100 <? (if percent <? 0 then 0 else percent) then 100
           else if percent <? 0 then 0 else percent) = clamp_percent percent) as Hclamp.
  { unfold clamp_percent.
    destruct (percent <? 0) eqn:Hneg;
      [apply Z.ltb_lt in Hneg | apply Z.ltb_ge in Hneg];
      [simpl; lia |].
    destruct (100 <? percent) eqn:Hbig;
      [apply Z.ltb_lt in Hbig | apply Z.ltb_ge in Hbig]; lia. }
  assert (0 <= clamp_percent percent <= 100) as Hp by (unfold clamp_percent; lia).
  assert (0 <= filled <= width) as Hfilled.
  { unfold filled. split.
    - apply Z.quot_pos; nia.
    - apply Z.quot_le_upper_bound; nia. }
  assert (createBar percent width = Repeat "█" filled ++ Repeat "░" (width - filled))
    as Hbar.
  { unfold createBar. rewrite Hclamp. unfold int_div, int_mul, int_sub.
    rewrite (wrap64_id (clamp_percent percent * width))
      by (unfold is_int, int_min, int_max; nia).
    fold filled.
    rewrite (wrap64_id filled) by (unfold is_int, int_min, int_max; lia).
    rewrite (wrap64_id (width - filled)) by (unfold is_int, int_min, int_max; lia).
    reflexivity. }
  split; [exact Hfilled |]. split; [exact Hbar |]. split; [| split].
  - rewrite Hbar, length_app_string. unfold Repeat. rewrite !length_Repeat_nat.
    change (String.length "█") with 3%nat. change (String.length "░") with 3%nat. lia.
  - intros Hlow. unfold filled, clamp_percent.
    replace (Z.max 0 (Z.min 100 percent)) with 0 by lia. reflexivity.
  - intros Hhigh. unfold filled, clamp_percent.
    replace (Z.max 0 (Z.min 100 percent)) with 100 by lia.
    rewrite Z.mul_comm. apply Z.quot_mul. lia.
Qed.

(** At 45 percent a bar of 20 cells has 9 filled; at 250 percent all 20. *)
Lemma createBar_cells_witness :
  createBar 45 20 = Repeat "█" 9 ++ Repeat "░" 11
  /\ createBar 250 20 = Repeat "█" 20 ++ Repeat "░" 0.
Proof.
  assert (0 <= 20 /\ 100 * 20 <= int_max) as [Hw Hmax] by (unfold int_max; lia).
  split.
  - exact (proj1 (proj2 (createBar_cells 45 20 Hw Hmax))).
  - exact (proj1 (proj2 (createBar_cells 250 20 Hw Hmax))).
Defined.

Lemma strings_Repeat_returns (s : string) (count : Z) :
  0 <= count -> strings_Repeat s count = Returns (Repeat_nat s (Z.to_nat count)).
Proof.
  intros Hc. unfold strings_Repeat.
  destruct (count <? 0) eqn:Hneg; [apply Z.ltb_lt in Hneg; lia | reflexivity].
Qed.

Section Frames.
Context {L : ListLib} {V : ViewportLib} {G : Lipgloss} {S : Style}.

Lemma bordered_lines_length (width : Z) (leftBorder rightBorder : string)
    (lines : list string) :
  exists rows, bordered_lines width leftBorder rightBorder lines = Returns rows
               /\ length rows = length lines.
Proof.
  induction lines as [| line lines (rows & IH & Hlen)]; simpl.
  - now exists [].
  - unfold bordered_line.
    rewrite strings_Repeat_returns
      by (destruct (int_sub (int_sub width (lipgloss_Width line)) 2 <? 0) eqn:Hneg;
          [lia | now apply Z.ltb_ge in Hneg]).
    rewrite IH. eexists. split; [reflexivity |]. simpl. now rewrite Hlen.
Qed.

(** The count [renderSection] passes to [strings.Repeat] for the bottom
    border. *)
Lemma bottom_border_count (m : Model) :
  0 <= width m <= int_max ->
  int_sub (int_sub (int_div (width m) 3) 2) 2 = width m ÷ 3 - 4.
Proof.
  unfold int_max. intros Hw. unfold int_sub, int_div.
  rewrite (wrap64_id (width m ÷ 3))
    by (unfold is_int, int_min, int_max; Z.to_euclidean_division_equations; lia).
  rewrite (wrap64_id (width m ÷ 3 - 2))
    by (unfold is_int, int_min, int_max; Z.to_euclidean_division_equations; lia).
  rewrite wrap64_id
    by (unfold is_int, int_min, int_max; Z.to_euclidean_division_equations; lia).
  lia.
Qed.

Lemma sectionLines_narrow (m : Model) (sectionList : list_Model) (title : string)
    (isFocused : bool) :
  0 <= width m < 12 -> sectionLines m sectionList title isFocused = Panics.
Proof.
  intros Hw. unfold sectionLines.
  assert (0 <= width m <= int_max) as Hint by (unfold int_max; lia).
  rewrite (bottom_border_count m Hint).
  assert (width m ÷ 3 - 4 < 0) as Hneg by (Z.to_euclidean_division_equations; lia).
  assert (strings_Repeat "─" (width m ÷ 3 - 4) = Panics) as ->.
  { unfold strings_Repeat. apply Z.ltb_lt in Hneg. now rewrite Hneg. }
  branches; reflexivity.
Qed.

Lemma sectionLines_wide (m : Model) (sectionList : list_Model) (title : string)
    (isFocused : bool) :
  12 <= width m <= int_max ->
  exists borderedLines,
    sectionLines m sectionList title isFocused = Returns borderedLines
    /\ length borderedLines
       = (2 + Nat.min (Z.to_nat (list_Height sectionList))
                (length (strings_Split (list_View sectionList) newline)))%nat.
Proof.
  intros Hw. unfold sectionLines.
  assert (0 <= width m <= int_max) as Hint by lia.
  rewrite (bottom_border_count m Hint).
  assert (0 <= width m ÷ 3 - 4) as Hpos by (Z.to_euclidean_division_equations; lia).
  rewrite (strings_Repeat_returns "─" (width m ÷ 3 - 4) Hpos).
  rewrite (strings_Repeat_returns "─" 2) by lia.
  rewrite strings_Repeat_returns.
  2:{ match goal with
      | |- 0 <= (if ?b then _ else _) => destruct b eqn:Hpad
      end; [lia | apply Z.ltb_ge in Hpad; lia]. }
  match goal with
  | |- context [bordered_lines ?w ?l ?r ?ls] =>
      destruct (bordered_lines_length w l r ls) as (rows & -> & Hrows)
  end.
  eexists. split; [reflexivity |].
  rewrite !length_app, Hrows, length_take. simpl. lia.
Qed.

(** X14. A terminal too narrow for a frame. When the terminal is fewer
    than 12 columns wide, [renderSection] asks [strings.Repeat] for a
    bottom border of negative length and panics, whatever the list, the
    title and the focus. *)
Theorem renderSection_narrow_panics (m : Model) (sectionList : list_Model)
    (title : string) (isFocused : bool) :
  0 <= width m < 12 ->
  renderSection m sectionList title isFocused = Panics.
Proof.
  intros Hw. unfold renderSection. now rewrite sectionLines_narrow.
Qed.

(** X15. A frame never overflows. When the terminal is at least 12
    columns wide, [renderSection] returns the top border, then as many
    rows as the list's view has lines but no more than the list's height,
    then the bottom border, joined by newlines. *)
Theorem renderSection_rows_bounded (m : Model) (sectionList : list_Model)
    (title : string) (isFocused : bool) :
  12 <= width m <= int_max ->
  exists borderedLines,
    renderSection m sectionList title isFocused = Returns (String.concat nl borderedLines)
    /\ length borderedLines
       = (2 + Nat.min (Z.to_nat (list_Height sectionList))
                (length (strings_Split (list_View sectionList) newline)))%nat
    /\ Z.of_nat (length borderedLines) <= Z.max 0 (list_Height sectionList) + 2.
Proof.
  intros Hw. unfold renderSection.
  destruct (sectionLines_wide m sectionList title isFocused Hw)
    as (borderedLines & -> & Hlen).
  exists borderedLines. split; [reflexivity |]. split; [exact Hlen | lia].
Qed.

End Frames.

(** Nine columns are too few; at 120 columns the frame of an empty list
    of height 3 has its two borders and the one (empty) line of its view. *)
Lemma renderSection_narrow_panics_witness :
  renderSection (G := Ref.lipgloss) (S := plain_style) (resized 9) (Ref.pane [] 0)
    "[3] Pods" true
  = Panics.
Proof.
  apply (renderSection_narrow_panics (G := Ref.lipgloss) (S := plain_style)).
  simpl. lia.
Defined.

Lemma renderSection_rows_bounded_witness :
  exists borderedLines,
    renderSection (G := Ref.lipgloss) (S := plain_style) (resized 120) (Ref.pane [] 0)
      "[3] Pods" true
    = Returns (String.concat nl borderedLines)
    /\ length borderedLines = 3%nat.
Proof.
  assert (12 <= 120 <= int_max) as Hw by (unfold int_max; lia).
  destruct (renderSection_rows_bounded (G := Ref.lipgloss) (S := plain_style)
              (resized 120) (Ref.pane [] 0) "[3] Pods" true Hw)
    as (borderedLines & Hr & Hlen & _).
  exists borderedLines. split; [exact Hr | exact Hlen].
Defined.

(** ** The screen *)

Section Screens.
Context {L : ListLib} {V : ViewportLib} {C : k8s.Cluster} {G : Lipgloss} {S : Style}
  {K : Canvas}.

Lemma View_narrow (m : Model) :
  ready m = true -> 0 <= width m < 12 -> View m = Panics.
Proof.
  intros Hready Hw. unfold View. rewrite Hready. cbn [negb renderSections].
  unfold renderSection. now rewrite sectionLines_narrow.
Qed.

Lemma renderSections_wide (m : Model) (sections : list (list_Model * string * bool)) :
  12 <= width m <= int_max ->
  exists frames, renderSections m sections = Returns frames.
Proof.
  intros Hw. induction sections as [| [[sectionList title] isFocused] sections [frames IH]].
  - now exists [].
  - cbn [renderSections]. unfold renderSection.
    destruct (sectionLines_wide m sectionList title isFocused Hw) as (rows & -> & _).
    rewrite IH. eexists. reflexivity.
Qed.

Lemma helpText_cut (m : Model) :
  12 <= width m <= int_max ->
  exists text,
    (if int_sub (width m) 4 <? Z.of_nat (String.length helpText)
     then
       match slice_to helpText (int_sub (int_sub (width m) 4) 3) with
       | Panics => Panics
       | Returns cut => Returns (cut ++ "...")
       end
     else Returns helpText) = Returns text.
Proof.
  intros Hw. unfold int_max in Hw. unfold int_sub.
  rewrite (wrap64_id (width m - 4)) by (unfold is_int, int_min, int_max; lia).
  rewrite wrap64_id by (unfold is_int, int_min, int_max; lia).
  destruct (width m - 4 <? Z.of_nat (String.length helpText)) eqn:Hlong;
    [apply Z.ltb_lt in Hlong | now eexists].
  unfold slice_to.
  assert ((width m - 4 - 3 <? 0) = false) as -> by (apply Z.ltb_ge; lia).
  assert ((Z.of_nat (String.length helpText) <? width m - 4 - 3) = false) as ->
    by (apply Z.ltb_ge; lia).
  now eexists.
Qed.

Lemma View_wide (m : Model) :
  ready m = true -> 12 <= width m <= int_max ->
  exists baseView,
    View m
    = Returns (if showHelp m then overlayHelp m baseView
               else if showConfirmDialog m then overlayConfirmDialog m baseView
               else baseView).
Proof.
  intros Hready Hw. unfold View. rewrite Hready. cbn [negb].
  match goal with
  | |- context [renderSections m ?sections] =>
      destruct (renderSections_wide m sections Hw) as [frames ->]
  end.
  destruct (helpText_cut m Hw) as [text ->].
  eexists. destruct (showHelp m), (showConfirmDialog m); reflexivity.
Qed.

(** X16. A window too narrow for the screen. Whatever the state, a
    window-size message of fewer than 12 columns is taken without a
    command, marks the state ready, and leaves a state whose [View]
    panics: the first frame of the left pane asks [strings.Repeat] for a
    negative count. *)
Theorem narrow_window_breaks_View (m : Model) (Width Height : Z) :
  0 <= Width < 12 ->
  exists m',
    Update m (WindowSizeMsg Width Height) = Returns (m', nilCmd)
    /\ ready m' = true /\ width m' = Width
    /\ View m' = Panics.
Proof.
  intros Hw. exists (Update_WindowSizeMsg m Width Height).
  split; [reflexivity |]. split; [reflexivity |]. split; [reflexivity |].
  apply View_narrow; [reflexivity | exact Hw].
Qed.

(** X17. The overlays hide the screen. Before the first window-size
    message [View] is the initialising line. Once the state is ready and
    the window at least 12 columns wide, [View] returns; with the help
    screen open it is the help box placed in the window, whatever the
    rest of the state, and with the dialog open it is the dialog box
    placed in the window: neither shows anything of the base view. *)
Theorem overlays_hide_base_view (m : Model) :
  (ready m = false -> View m = Returns "Initializing lazystack...")
  /\ (ready m = true -> 12 <= width m <= int_max ->
      (exists screen, View m = Returns screen)
      /\ (showHelp m = true ->
          View m
          = Returns
              (Place (width m) (height m) pos_Center pos_Center
                 (style_Render
                    [style_Border_Rounded; style_BorderForeground "6";
                     style_Padding [1; 2]; style_Width 70; style_Align pos_Left]
                    helpContent)))
      /\ (showHelp m = false -> showConfirmDialog m = true ->
          forall baseView, View m = Returns (overlayConfirmDialog m baseView))).
Proof.
  split.
  - intros Hready. unfold View. now rewrite Hready.
  - intros Hready Hw. destruct (View_wide m Hready Hw) as [baseView Hview].
    split; [eexists; exact Hview |]. split.
    + intros Hhelp. rewrite Hview, Hhelp. reflexivity.
    + intros Hhelp Hdialog baseView'. rewrite Hview, Hhelp, Hdialog. reflexivity.
Qed.

End Screens.

(** A window of 9 columns, at start-up. *)
Lemma narrow_window_breaks_View_witness :
  exists m',
    Update (C := Ref.cluster) Ref.connected (WindowSizeMsg 9 40) = Returns (m', nilCmd)
    /\ View (G := Ref.lipgloss) (S := plain_style) (K := plain_canvas) m' = Panics.
Proof.
  assert (0 <= 9 < 12) as Hw by lia.
  destruct (narrow_window_breaks_View (C := Ref.cluster) (G := Ref.lipgloss)
              (S := plain_style) (K := plain_canvas) Ref.connected 9 40 Hw)
    as (m' & Hupdate & _ & _ & Hview).
  exists m'. split; [exact Hupdate | exact Hview].
Defined.

Section Rows.
Context {G : Lipgloss}.

(** X18. A row stays inside its list. In a list more than 5 columns wide,
    the row [Render] writes for an item that is not the selected one, its
    text being printable ASCII, is never wider than the list: two columns
    of padding, then the text, cut to leave room when it is too long. *)
Theorem Render_fits (m_Width m_Index index : Z) (item : Item) :
  printable (row_text item) = true ->
  5 < m_Width <= int_max ->
  index <> m_Index ->
  lipgloss_Width (Render m_Width m_Index index item) <= m_Width
  /\ (m_Width - 2 < lipgloss_Width (row_text item) ->
      lipgloss_Width (Render m_Width m_Index index item) = m_Width).
Proof.
  intros Hs Hw Hidx. unfold Render. unfold int_max in Hw.
  apply Z.eqb_neq in Hidx. rewrite Hidx.
  unfold int_sub. rewrite wrap64_id by (unfold is_int, int_min, int_max; lia).
  pose proof (lipgloss_Width_printable _ Hs) as Hlen.
  unfold truncate_row.
  destruct (m_Width - 2 <? lipgloss_Width (row_text item)) eqn:Hwide;
    [apply Z.ltb_lt in Hwide | apply Z.ltb_ge in Hwide].
  - assert ((3 <? m_Width - 2) = true) as -> by (apply Z.ltb_lt; lia). simpl.
    rewrite trim_loop_cuts by (try assumption; lia).
    set (kept := substring 0 (Z.to_nat (m_Width - 2 - 3)) (row_text item)).
    assert (printable kept = true) as Hkept by now apply printable_substring_0.
    assert (String.length kept = Z.to_nat (m_Width - 2 - 3)) as Hcut
      by (apply substring_0_length; lia).
    assert (printable ("  " ++ kept ++ "...") = true) as Hrow
      by (rewrite !printable_app, Hkept; reflexivity).
    rewrite (lipgloss_Width_printable _ Hrow).
    rewrite !length_app_string, Hcut. simpl. lia.
  - simpl andb. cbv iota.
    assert (printable ("  " ++ row_text item) = true) as Hrow
      by (rewrite printable_app, Hs; reflexivity).
    rewrite (lipgloss_Width_printable _ Hrow).
    rewrite length_app_string. simpl. lia.
Qed.

End Rows.

(** In a list of 12 columns the row of the service [nginx] is cut to
    fill it. *)
Lemma Render_fits_witness :
  lipgloss_Width (Lipgloss := Ref.lipgloss)
    (Render (G := Ref.lipgloss) 12 0 1 (serviceItem (Ref.service "nginx"))) <= 12.
Proof.
  assert (5 < 12 <= int_max) as Hw by (unfold int_max; lia).
  apply (Render_fits (G := Ref.lipgloss) 12 0 1 (serviceItem (Ref.service "nginx"))
           eq_refl Hw).
  discriminate.
Defined.

(** ** What the manager computes *)

Lemma wrap_add_l (bits a b : Z) :
  0 < bits -> wrap bits (wrap bits a + b) = wrap bits (a + b).
Proof.
  intros Hbits. unfold wrap.
  assert (0 < 2 ^ bits) as Hpos by (apply Z.pow_pos_nonneg; lia).
  replace ((a + 2 ^ (bits - 1)) mod 2 ^ bits - 2 ^ (bits - 1) + b + 2 ^ (bits - 1))
    with ((a + 2 ^ (bits - 1)) mod 2 ^ bits + b) by lia.
  rewrite Zplus_mod_idemp_l. f_equal. f_equal. lia.
Qed.

Lemma getPodRestarts_wrapped (statuses : list manager.ContainerStatus) (restarts : Z) :
  fold_left (fun r status => int32_add r (manager.RestartCount status)) statuses
    (wrap 32 restarts)
  = wrap 32 (restarts + restarts_sum statuses).
Proof.
  revert restarts. induction statuses as [| status statuses IH]; intros restarts; simpl.
  - now rewrite Z.add_0_r.
  - unfold int32_add. rewrite wrap_add_l by lia. rewrite IH. f_equal. lia.
Qed.

(** X19. The restarts of a pod. [getPodRestarts] is the sum of the
    restart counts of the containers, reduced to an [int32]: the sum
    itself whenever that is an [int32], and 0 for a pod without container
    statuses. *)
Theorem getPodRestarts_sum (statuses : list manager.ContainerStatus) :
  manager.getPodRestarts statuses = wrap 32 (restarts_sum statuses)
  /\ (is_int32 (restarts_sum statuses) ->
      manager.getPodRestarts statuses = restarts_sum statuses)
  /\ manager.getPodRestarts [] = 0.
Proof.
  assert (manager.getPodRestarts statuses = wrap 32 (restarts_sum statuses)) as Hsum.
  { unfold manager.getPodRestarts. change 0 with (wrap 32 0) at 1.
    now rewrite getPodRestarts_wrapped. }
  split; [exact Hsum |]. split; [| reflexivity].
  intros Hrange. rewrite Hsum. now apply wrap32_id.
Qed.

Lemma readyContainers_from (statuses : list manager.ContainerStatus) (n : Z) :
  0 <= n -> n + Z.of_nat (length statuses) <= int_max ->
  fold_left (fun n status => if manager.Ready status then int_add n 1 else n) statuses n
  = n + Z.of_nat (length (List.filter manager.Ready statuses)).
Proof.
  revert n. induction statuses as [| status statuses IH]; intros n Hn Hmax; simpl.
  - lia.
  - simpl in Hmax. unfold int_max in *. destruct (manager.Ready status); simpl.
    + unfold int_add. rewrite wrap64_id by (unfold is_int, int_min, int_max; lia).
      rewrite IH by lia. lia.
    + rewrite IH by lia. reflexivity.
Qed.

(** X20. The ready status of a pod. For the container statuses of a pod
    (a Go slice: its length is an [int]), [getPodReadyStatus] prints the
    number of ready containers, a slash, and the number of containers,
    and the first never exceeds the second. *)
Theorem getPodReadyStatus_counts (statuses : list manager.ContainerStatus) :
  Z.of_nat (length statuses) <= int_max ->
  let ready := Z.of_nat (length (List.filter manager.Ready statuses)) in
  let total := Z.of_nat (length statuses) in
  manager.getPodReadyStatus statuses = fmt_d ready ++ "/" ++ fmt_d total
  /\ 0 <= ready <= total.
Proof.
  intros Hmax ready total. split.
  - unfold manager.getPodReadyStatus, manager.readyContainers.
    rewrite readyContainers_from by lia. reflexivity.
  - unfold ready, total. pose proof (List.filter_length_le manager.Ready statuses). lia.
Qed.

Lemma app_string_nil_r (s : string) : s ++ "" = s.
Proof.
  induction s as [| a s IH]; [reflexivity |].
  change (String a (s ++ "") = String a s). now rewrite IH.
Qed.

Lemma app_string_assoc (s t u : string) : (s ++ t) ++ u = s ++ t ++ u.
Proof.
  induction s as [| a s IH]; [reflexivity |].
  change (String a ((s ++ t) ++ u) = String a (s ++ t ++ u)). now rewrite IH.
Qed.

Lemma ports_loop_from (i : Z) (ports : string) (rest : list manager.ServicePort) :
  0 < i -> i + Z.of_nat (length rest) <= int_max ->
  manager.ports_loop i ports rest
  = ports ++ String.concat "" (map (fun port => "," ++ port_text port) rest).
Proof.
  revert i ports. induction rest as [| port rest IH]; intros i ports Hi Hmax.
  - simpl. now rewrite app_string_nil_r.
  - cbn [manager.ports_loop map length] in *. unfold int_max in *.
    assert ((0 <? i) = true) as -> by (apply Z.ltb_lt; lia).
    unfold int_add. rewrite wrap64_id by (unfold is_int, int_min, int_max; lia).
    rewrite IH by lia. fold (port_text port).
    destruct rest as [| port' rest].
    + cbn [map String.concat]. now rewrite !app_string_assoc, !app_string_nil_r.
    + cbn [map String.concat]. now rewrite !app_string_assoc.
Qed.

Lemma concat_empty_cons (s : string) (rest : list string) :
  String.concat "" (s :: rest) = s ++ String.concat "" rest.
Proof.
  destruct rest as [| t rest]; [simpl; now rewrite app_string_nil_r | reflexivity].
Qed.

Lemma concat_commas (port : manager.ServicePort) (rest : list manager.ServicePort) :
  port_text port ++ String.concat "" (map (fun port => "," ++ port_text port) rest)
  = String.concat "," (map port_text (port :: rest)).
Proof.
  revert port. induction rest as [| port' rest IH]; intros port.
  - simpl. now rewrite app_string_nil_r.
  - change (String.concat "," (map port_text (port :: port' :: rest)))
      with (port_text port ++ "," ++ String.concat "," (map port_text (port' :: rest))).
    rewrite <- IH. cbn [map]. rewrite concat_empty_cons.
    now rewrite app_string_assoc.
Qed.

(** X21. The ports of a service. For the ports of a service (a Go slice),
    the string [ListServices] builds is the ports, each printed as port
    number, slash, protocol, joined by commas: empty for no port, with no
    comma before the first or after the last. *)
Theorem ports_joined (svc : manager.Service) :
  Z.of_nat (length (manager.Ports svc)) < int_max ->
  k8s.Ports (manager.serviceInfo svc)
  = String.concat "," (map port_text (manager.Ports svc)).
Proof.
  intros Hmax. cbn [manager.serviceInfo k8s.Ports].
  destruct (manager.Ports svc) as [| port rest]; [reflexivity |].
  cbn [manager.ports_loop length] in *. change (0 <? 0) with false. cbv iota.
  change (int_add 0 1) with 1.
  rewrite ports_loop_from by (unfold int_max in *; lia).
  change ("" ++ fmt_d (manager.Port port) ++ "/" ++ manager.Protocol port)
    with (port_text port).
  apply concat_commas.
Qed.

(** A pod of two containers, one of them ready. *)
Lemma getPodReadyStatus_counts_witness :
  manager.getPodReadyStatus
    [ {| manager.Ready := true; manager.RestartCount := 2 |};
      {| manager.Ready := false; manager.RestartCount := 0 |} ]
  = "1/2".
Proof.
  assert (Z.of_nat 2 <= int_max) as Hmax by (unfold int_max; lia).
  exact (proj1 (getPodReadyStatus_counts
                  [ {| manager.Ready := true; manager.RestartCount := 2 |};
                    {| manager.Ready := false; manager.RestartCount := 0 |} ] Hmax)).
Defined.

(** A service of two ports. *)
Lemma ports_joined_witness :
  k8s.Ports
    (manager.serviceInfo
       {| manager.Name := "web"; manager.Namespace := "default";
          manager.Type_ := "ClusterIP"; manager.ClusterIP := "10.0.0.1";
          manager.Ports := [ {| manager.Port := 80; manager.Protocol := "TCP" |};
                             {| manager.Port := 443; manager.Protocol := "TCP" |} ];
          manager.ExternalIPs := []; manager.Ingress := [] |})
  = "80/TCP,443/TCP".
Proof.
  assert (Z.of_nat 2 < int_max) as Hmax by (unfold int_max; lia).
  exact (ports_joined
           {| manager.Name := "web"; manager.Namespace := "default";
              manager.Type_ := "ClusterIP"; manager.ClusterIP := "10.0.0.1";
              manager.Ports := [ {| manager.Port := 80; manager.Protocol := "TCP" |};
                                 {| manager.Port := 443; manager.Protocol := "TCP" |} ];
              manager.ExternalIPs := []; manager.Ingress := [] |} Hmax).
Defined.

(** ** The text of the log viewer *)

Lemma strings_Split_length (s : string) (sep : ascii) :
  (1 <= length (strings_Split s sep))%nat.
Proof.
  induction s as [| a s IH]; simpl; [lia |].
  destruct (Ascii.eqb a sep); simpl; [lia |].
  destruct (strings_Split s sep); simpl; lia.
Qed.

Lemma strings_Split_app (s t : string) (sep : ascii) :
  length (strings_Split (s ++ String sep t) sep)
  = (length (strings_Split s sep) + length (strings_Split t sep))%nat.
Proof.
  induction s as [| a s IH].
  - change ("" ++ String sep t) with (String sep t). simpl.
    now rewrite Ascii.eqb_refl.
  - change (String a s ++ String sep t) with (String a (s ++ String sep t)).
    simpl. destruct (Ascii.eqb a sep); simpl; [now rewrite IH |].
    pose proof (strings_Split_length s sep) as Hs.
    pose proof (strings_Split_length (s ++ String sep t) sep) as Hst.
    destruct (strings_Split s sep); [simpl in Hs; lia |].
    destruct (strings_Split (s ++ String sep t) sep); [simpl in Hst; lia |].
    simpl in *. lia.
Qed.

Section LogViewerText.
Context {V : ViewportLib}.

Lemma run_viewer_op_content (lv : logviewer.LogViewer) (op : viewer_op) :
  logviewer.content (run_viewer_op lv op) = logviewer.content lv
  /\ logviewer.title (run_viewer_op lv op) = logviewer.title lv.
Proof.
  destruct op; simpl; try (split; reflexivity).
  - unfold logviewer.SetSize. simpl.
    destruct (negb (String.eqb (logviewer.content lv) "")); split; reflexivity.
  - unfold logviewer.Update. destruct (viewport_Update msg (logviewer.viewport lv)).
    split; reflexivity.
Qed.

(** X22. Only the writers change the text. Resizing, toggling the
    auto-scroll, scrolling to either end and the messages handed to the
    viewport, in any number and order, leave the text, the title and the
    line count of the log viewer as they were; a resize of a viewer whose
    text is not empty sets the text of the resized viewport, a new one
    the first time, to that same text, and scrolls to the bottom when
    auto-scroll is on. *)
Theorem viewer_text_kept (lv : logviewer.LogViewer) (ops : list viewer_op) :
  let lv' := fold_left run_viewer_op ops lv in
  logviewer.GetContent lv' = logviewer.GetContent lv
  /\ logviewer.title lv' = logviewer.title lv
  /\ LineCount lv' = LineCount lv
  /\ (forall width height,
        logviewer.GetContent lv' <> "" ->
        let fitted :=
          if logviewer.ready lv' then
            viewport_set_Height (int_sub height 4)
              (viewport_set_Width width (logviewer.viewport lv'))
          else viewport_New width (int_sub height 4) in
        let filled := viewport_SetContent (logviewer.GetContent lv) fitted in
        logviewer.viewport (logviewer.SetSize lv' width height)
        = if logviewer.autoScroll lv' then viewport_GotoBottom filled else filled).
Proof.
  simpl.
  assert (logviewer.GetContent (fold_left run_viewer_op ops lv) = logviewer.GetContent lv
          /\ logviewer.title (fold_left run_viewer_op ops lv) = logviewer.title lv
          /\ LineCount (fold_left run_viewer_op ops lv) = LineCount lv)
    as (Hcontent & Htitle & Hlines).
  { revert lv. induction ops as [| op ops IH]; intros lv; simpl.
    - repeat split.
    - destruct (IH (run_viewer_op lv op)) as (Hc & Ht & Hl).
      destruct (run_viewer_op_content lv op) as [Hc' Ht'].
      unfold logviewer.GetContent, LineCount in *.
      rewrite Hc, Ht, Hc', Ht'. repeat split. }
  split; [exact Hcontent |]. split; [exact Htitle |]. split; [exact Hlines |].
  intros width height Hfull. rewrite <- Hcontent.
  set (lv' := fold_left run_viewer_op ops lv) in *.
  unfold logviewer.GetContent in *. apply String.eqb_neq in Hfull.
  unfold logviewer.SetSize. simpl. rewrite Hfull. simpl.
  destruct (logviewer.ready lv'); reflexivity.
Qed.

(** X23. Counting the lines. The line count of a log viewer is at least
    1: a new or cleared viewer, whose text is empty, counts one line.
    Appending to a text that is not empty adds the line count of what is
    appended; appending to an empty text gives the line count of what is
    appended, the empty line not counted further. *)
Theorem LineCount_append (lv : logviewer.LogViewer) (n : string) :
  1 <= LineCount lv
  /\ (logviewer.GetContent lv <> "" ->
      LineCount (logviewer.AppendContent lv n)
      = LineCount lv + LineCount (logviewer.SetContent lv n))
  /\ (logviewer.GetContent lv = "" ->
      LineCount lv = 1
      /\ LineCount (logviewer.AppendContent lv n)
         = LineCount (logviewer.SetContent lv n))
  /\ LineCount (logviewer.Clear lv) = 1
  /\ LineCount (logviewer.NewLogViewer (logviewer.title lv)) = 1.
Proof.
  unfold LineCount, logviewer.GetContent, logviewer.AppendContent.
  split; [pose proof (strings_Split_length (logviewer.content lv) newline); lia |].
  split; [| split; [| split; reflexivity]].
  - intros Hc. apply String.eqb_neq in Hc. rewrite Hc. simpl.
    change (nl ++ n) with (String newline n).
    rewrite strings_Split_app. lia.
  - intros Hc. rewrite Hc. simpl. split; reflexivity.
Qed.

End LogViewerText.
